(** * Sahaay AI voice layer: a shallow embedding and its verified properties

    The development follows the TypeScript sources of the voice layer:

    - [Js]            the fragment of JavaScript semantics the code relies on
                      (truthiness, [String.prototype.trim], [Array.prototype.slice]
                      with a negative start, IEEE-754 numbers and [Math.floor]);
    - [AudioProcessor]   the audio processing service (compression policy), and
                      the runtime's [FileReader], on which reading a blob
                      depends: present in a browser, absent under Node.js;
    - [SpeechToText]     the recognition cascade (cloud first, offline Whisper second);
    - [TextToSpeech]     the synthesis cascade (validation, local and cloud engines);
    - [VoiceInterface]   the session orchestrator (per-session context, failure
                      counting, fallback suggestion, bounded history).

    JavaScript numbers that are compared or multiplied by the code are kept as
    binary64 floats (Rocq's primitive floats), counters and sizes are integers,
    the session registry [Map<string, VoiceContext>] is a [gmap string _]. *)

From Stdlib Require Import ZArith List String Ascii Bool Lia.
From Stdlib Require Import PrimFloat SpecFloat Uint63 FloatOps.
From stdpp Require Import gmap strings list pretty.

Set Warnings "-inexact-float".
Local Open Scope Z_scope.

(* ===================================================================== *)
(** ** Results of fallible code and a state-and-exception monad *)
(* ===================================================================== *)

(** A computation either returns a value or throws an error of type [E]. *)
Inductive Result (E A : Type) : Type :=
| Ok (value : A)
| Throw (error : E).
Arguments Ok {E A} value.
Arguments Throw {E A} error.

Definition is_Throw {E A} (r : Result E A) : bool :=
  match r with Ok _ => false | Throw _ => true end.

(** [M S E A]: code that reads and writes a state [S] and may throw [E]. *)
Definition M (S E A : Type) : Type := S -> Result E A * S.

Definition ret {S E A} (a : A) : M S E A := fun s => (Ok a, s).
Definition throw {S E A} (e : E) : M S E A := fun s => (Throw e, s).
Definition bind {S E A B} (m : M S E A) (k : A -> M S E B) : M S E B :=
  fun s => match m s with
           | (Ok a, s') => k a s'
           | (Throw e, s') => (Throw e, s')
           end.
(** [try { body } catch (error) { handler error }] *)
Definition try_catch {S E A} (body : M S E A) (handler : E -> M S E A) : M S E A :=
  fun s => match body s with
           | (Ok a, s') => (Ok a, s')
           | (Throw e, s') => handler e s'
           end.
Definition modify {S E} (f : S -> S) : M S E unit := fun s => (Ok tt, f s).

Declare Scope js_scope.
Delimit Scope js_scope with js.
Notation "'await' x <- m ;; k" := (bind m (fun x => k))
  (at level 10, x name, m at level 99, k at level 200) : js_scope.

(* ===================================================================== *)
(** ** The JavaScript fragment used by the services *)
(* ===================================================================== *)

Module Js.

(** *** Strings

    Text handed to the services is a sequence of UTF-16 code units, which is
    what [length], [trim] and the emptiness tests of the code look at.
    Identifiers (language codes, session ids, messages) are plain [string]s. *)
Abbreviation JsString := (list N) (only parsing).

(** A string is truthy unless it is empty ([!text], [language || ...],
    [if (sessionId)]). *)
Definition truthy (s : string) : bool :=
  match s with EmptyString => false | String _ _ => true end.

Definition text_truthy (s : JsString) : bool :=
  match s with [] => false | _ :: _ => true end.

(** An optional string argument: [undefined] or a string. *)
Definition opt_truthy (o : option string) : bool :=
  match o with None => false | Some s => truthy s end.

(** [a || b] on an optional string: [a] when truthy, else [b]. *)
Definition or_else (o : option string) (d : string) : string :=
  match o with
  | Some s => if truthy s then s else d
  | None => d
  end.

(** ECMAScript WhiteSpace and LineTerminator code points, the characters
    removed by [String.prototype.trim]. *)
Definition isWhiteSpace (c : N) : bool :=
  ((c =? 0x0009) || (c =? 0x000A) || (c =? 0x000B) || (c =? 0x000C) ||
   (c =? 0x000D) || (c =? 0x0020) || (c =? 0x00A0) || (c =? 0x1680) ||
   ((0x2000 <=? c) && (c <=? 0x200A)) ||
   (c =? 0x2028) || (c =? 0x2029) || (c =? 0x202F) || (c =? 0x205F) ||
   (c =? 0x3000) || (c =? 0xFEFF))%N.

Fixpoint trimStart (s : JsString) : JsString :=
  match s with
  | [] => []
  | c :: s' => if isWhiteSpace c then trimStart s' else s
  end.

Definition trimEnd (s : JsString) : JsString := rev (trimStart (rev s)).

Definition trim (s : JsString) : JsString := trimEnd (trimStart s).

(** [!text || text.trim().length === 0] *)
Definition isBlank (text : JsString) : bool :=
  negb (text_truthy text) || (Z.of_nat (length (trim text)) =? 0).

(** The text is empty or consists of white space only. *)
Definition whitespaceOnly (text : JsString) : bool := forallb isWhiteSpace text.

(** Code units of an ASCII literal. *)
Fixpoint text_of (s : string) : JsString :=
  match s with
  | EmptyString => []
  | String a s' => N_of_ascii a :: text_of s'
  end.

(** *** Arrays *)

(** [arr.slice(-n)]: the last [n] elements, all of them when there are
    fewer. *)
Definition slice_last {A} (n : nat) (arr : list A) : list A :=
  drop (length arr - n)%nat arr.

(** [arr.slice().reverse().find(p)] *)
Definition find_last {A} (p : A -> bool) (arr : list A) : option A :=
  List.find p (rev arr).

(** *** Numbers *)

(** The Number with the value of a non-negative integer below 2^63 (sizes
    and lengths; exact below 2^53). *)
Definition Number_of_Z (n : Z) : float := PrimFloat.of_uint63 (Uint63.of_Z n).

(** [Math.floor] of a finite Number, as an integer ([0] for NaN and the
    infinities, which the callers below never produce). *)
Definition Math_floor (x : float) : Z :=
  match Prim2SF x with
  | S754_finite s m e =>
      let n := if s then Z.neg m else Z.pos m in
      if 0 <=? e then n * 2 ^ e else n / 2 ^ (- e)
  | _ => 0
  end.

End Js.

(* ===================================================================== *)
(** ** Types shared by the services ([types], [interfaces/voice]) *)
(* ===================================================================== *)

(** [type LanguageCode = 'en' | 'hi' | 'ta' | 'te' | 'bn'].  The services
    test membership at run time ([supportedLanguages.includes(language)]) and
    callers do pass other codes, so a language code is kept as the string it
    is at run time. *)
Abbreviation LanguageCode := string (only parsing).

(** ['voice' | 'text'] *)
Inductive InputMode := voice | text.

Definition InputMode_eqb (a b : InputMode) : bool :=
  match a, b with
  | voice, voice | text, text => true
  | _, _ => false
  end.

Inductive FallbackReason := multiple_failures | low_confidence | service_unavailable.

(** [interface FallbackSuggestion] *)
Record FallbackSuggestion : Type := mkFallbackSuggestion {
  shouldSuggestFallback : bool;
  reason : FallbackReason;
  fs_failureCount : Z;
  lastSuccessfulMode : option InputMode
}.

(** The error objects thrown by the recognition and synthesis services:
    [new Error(message)]. *)
Inductive JsError : Type :=
| Error (message : string).

Definition message_of (e : JsError) : string :=
  match e with Error m => m end.

(** [interface TranscriptionResult]; [text] is the transcription as delivered
    by the backend (an opaque payload for the orchestration code). *)
Record TranscriptionResult : Type := mkTranscriptionResult {
  tr_text : string;
  confidence : float;
  detectedLanguage : LanguageCode;
  alternatives : option (list string)
}.

(* ===================================================================== *)
(** ** Audio processing service (class [AudioProcessor]) *)
(* ===================================================================== *)

Module AudioProcessor.
Import Js.

(** A [Blob]: its bytes and its media type; [size] is the number of bytes. *)
Record Blob : Type := mkBlob {
  blob_bytes : list Byte.byte;
  blob_type : string
}.

Definition size (b : Blob) : Z := Z.of_nat (length (blob_bytes b)).

(** The runtime's [FileReader], on which every [blobToArrayBuffer] of the
    services relies: for a blob it says whether reading fails, and with which
    error.  In a browser a read gives the bytes of the blob; under Node.js
    [FileReader] is not defined, [new FileReader()] throws inside the promise
    and every read is rejected. *)
Definition FileReader : Type := Blob -> option JsError.

Definition browserFileReader : FileReader := fun _ => None.

Definition nodeFileReader : FileReader :=
  fun _ => Some (Error "FileReader is not defined").

(** [blobToArrayBuffer]: the promise resolves with the bytes of the blob
    ([reader.onload]) or is rejected ([reader.onerror], or the constructor
    throwing). *)
Definition blobToArrayBuffer (reader : FileReader) (blob : Blob)
  : Result JsError (list Byte.byte) :=
  match reader blob with
  | Some error => Throw error
  | None => Ok (blob_bytes blob)
  end.

Definition readFails (reader : FileReader) (blob : Blob) : bool :=
  match reader blob with Some _ => true | None => false end.

Inductive AudioFormat := wav | mp3 | ogg | webm.

(** [type CompressionLevel = 1 | 2 | ... | 10] *)
Inductive CompressionLevel :=
| L1 | L2 | L3 | L4 | L5 | L6 | L7 | L8 | L9 | L10.

Record Settings : Type := mkSettings {
  bitrate : float;
  sampleRate : float;
  quality : float
}.

Definition COMPRESSION_SETTINGS (level : CompressionLevel) : Settings :=
  match level with
  | L1 => mkSettings 8 8000 0.1
  | L2 => mkSettings 16 8000 0.2
  | L3 => mkSettings 24 11025 0.3
  | L4 => mkSettings 32 16000 0.4
  | L5 => mkSettings 48 16000 0.5
  | L6 => mkSettings 64 22050 0.6
  | L7 => mkSettings 96 22050 0.7
  | L8 => mkSettings 128 44100 0.8
  | L9 => mkSettings 192 44100 0.9
  | L10 => mkSettings 320 44100 1.0
  end.

Record AudioProcessorConfig : Type := mkConfig {
  enableCompression : bool;
  defaultFormat : AudioFormat;
  maxFileSize : Z;
  targetBitrate : float;
  cfg_sampleRate : float
}.

(** The constructor's defaults. *)
Definition defaultConfig : AudioProcessorConfig :=
  {| enableCompression := true;
     defaultFormat := webm;
     maxFileSize := 5 * 1024 * 1024;
     targetBitrate := 64;
     cfg_sampleRate := 16000 |}.

Definition getAudioMimeType (format : AudioFormat) : string :=
  match format with
  | wav => "audio/wav"
  | mp3 => "audio/mpeg"
  | ogg => "audio/ogg"
  | webm => "audio/webm"
  end.

(** [(settings.bitrate * 1000 * 10) / 8]: the bytes of ten seconds of audio
    at the level's bitrate. *)
Definition getTargetSize (level : CompressionLevel) : float :=
  (bitrate (COMPRESSION_SETTINGS level) * 1000 * 10 / 8)%float.

(** [performCompression]: a buffer of [floor(byteLength * quality)] bytes,
    byte [i] taken from the source at index [floor(i * step)], [0] when the
    source has no such byte. *)
Definition compressedLength (byteLength : Z) (settings : Settings) : Z :=
  Math_floor (Number_of_Z byteLength * quality settings)%float.

Definition performCompression (audioBuffer : list Byte.byte) (settings : Settings)
  : list Byte.byte :=
  let targetSize := compressedLength (Z.of_nat (length audioBuffer)) settings in
  let step := (Number_of_Z (Z.of_nat (length audioBuffer)) / Number_of_Z targetSize)%float in
  List.map (fun i : nat =>
              let sourceIndex := Math_floor (Number_of_Z (Z.of_nat i) * step)%float in
              nth (Z.to_nat sourceIndex) audioBuffer Byte.x00)
           (seq 0 (Z.to_nat targetSize)).

(** [compressAudio]: the body of the [try] either returns a blob or throws
    (when the blob cannot be read into a buffer); the [catch] returns the
    original blob. *)
Definition compressAudio (config : AudioProcessorConfig) (reader : FileReader)
    (audioBlob : Blob) (level : CompressionLevel) : Blob :=
  if negb (enableCompression config) then audioBlob
  else
    let attempt : Result JsError Blob :=
      let settings := COMPRESSION_SETTINGS level in
      if (Number_of_Z (size audioBlob) <=? getTargetSize level)%float then Ok audioBlob
      else
        match blobToArrayBuffer reader audioBlob with
        | Throw error => Throw error
        | Ok audioBuffer =>
            let compressedBuffer := performCompression audioBuffer settings in
            Ok (mkBlob compressedBuffer (getAudioMimeType (defaultFormat config)))
        end in
    match attempt with
    | Ok compressedBlob => compressedBlob
    | Throw _ => audioBlob
    end.

Inductive NetworkQuality := poor | fair | good.

(** [optimizeForBandwidth]; [compressAudio] does not throw, so the [catch]
    (which returns the original blob) is not entered. *)
Definition optimizeForBandwidth (config : AudioProcessorConfig) (reader : FileReader)
    (audioBlob : Blob) (networkQuality : NetworkQuality) : Blob :=
  let compressionLevel :=
    match networkQuality with poor => L2 | fair => L4 | good => L6 end in
  compressAudio config reader audioBlob compressionLevel.



(** The size of the result in terms of the size [n] of the input and of
    whether the blob can be read. *)
Definition compressedSize (config : AudioProcessorConfig) (readFails : bool) (n : Z)
    (level : CompressionLevel) : Z :=
  if negb (enableCompression config) then n
  else if (Number_of_Z n <=? getTargetSize level)%float then n
  else if readFails then n
  else Z.of_nat (Z.to_nat (compressedLength n (COMPRESSION_SETTINGS level))).

End AudioProcessor.

(* ===================================================================== *)
(** ** Speech-to-text service (class [SpeechToTextServiceImpl]) *)
(* ===================================================================== *)

Module SpeechToText.
Import Js.
Import AudioProcessor (Blob, FileReader, blobToArrayBuffer,
                       browserFileReader, nodeFileReader).

(** [interface STTConfig] *)
Record STTConfig : Type := mkSTTConfig {
  whisperModelPath : option string;
  cloudSTTEndpoint : option string;
  cloudSTTApiKey : option string;
  fallbackToOffline : bool;
  compressionEnabled : bool;
  confidenceThreshold : float;
  supportedLanguages : list LanguageCode
}.

(** The constructor's defaults. *)
Definition defaultConfig : STTConfig :=
  {| whisperModelPath := None;
     cloudSTTEndpoint := None;
     cloudSTTApiKey := None;
     fallbackToOffline := true;
     compressionEnabled := true;
     confidenceThreshold := 0.8;
     supportedLanguages := ["en"; "hi"; "ta"; "te"; "bn"]%string |}.

(** What the cascade sees of a recognition backend: whether it reports
    available (both backends answer [false] instead of throwing), the outcome
    of a transcription and of a language guess, and its languages. *)
Record Backend : Type := mkBackend {
  isAvailable : bool;
  b_transcribe : Blob -> option LanguageCode -> Result JsError TranscriptionResult;
  b_detectLanguage : Blob -> Result JsError LanguageCode;
  getSupportedLanguages : list LanguageCode
}.

(** Calls made to the two backends, in order. *)
Inductive BackendCall : Type :=
| CloudIsAvailable
| CloudTranscribe (audio : Blob) (language : option LanguageCode)
| CloudDetectLanguage (audio : Blob)
| WhisperIsAvailable
| WhisperTranscribe (audio : Blob) (language : option LanguageCode)
| WhisperDetectLanguage (audio : Blob).

Definition isWhisperCall (c : BackendCall) : bool :=
  match c with
  | WhisperIsAvailable | WhisperTranscribe _ _ | WhisperDetectLanguage _ => true
  | _ => false
  end.

Definition isWhisperTranscribe (c : BackendCall) : bool :=
  match c with WhisperTranscribe _ _ => true | _ => false end.

(** The service object: its configuration and its two backends, and the
    [FileReader] of the runtime, which its own [blobToArrayBuffer] uses. *)
Record Impl : Type := mkImpl {
  config : STTConfig;
  fileReader : FileReader;
  whisperService : Backend;
  cloudService : Backend
}.

Definition Cascade (A : Type) : Type := M (list BackendCall) JsError A.

(** A backend call: its outcome, and an entry in the call log. *)
Definition invoke {A} (c : BackendCall) (outcome : Result JsError A) : Cascade A :=
  fun log => (outcome, log ++ [c]).

Local Open Scope js_scope.

(** [SpeechToTextServiceImpl.transcribe] *)
Definition transcribe (this : Impl) (audioBlob : Blob) (language : option LanguageCode)
  : Cascade TranscriptionResult :=
  try_catch
    (await cloudAvailable <- invoke CloudIsAvailable (Ok (isAvailable (cloudService this)));;
     await accepted <-
       (if cloudAvailable then
          await result <- invoke (CloudTranscribe audioBlob language)
                                 (b_transcribe (cloudService this) audioBlob language);;
          if (confidenceThreshold (config this) <=? confidence result)%float
          then ret (Some result)
          else ret None
        else ret None);;
     match accepted with
     | Some result => ret result
     | None =>
         await offline <-
           (if fallbackToOffline (config this)
            then invoke WhisperIsAvailable (Ok (isAvailable (whisperService this)))
            else ret false);;
         if offline then
           await result <- invoke (WhisperTranscribe audioBlob language)
                                  (b_transcribe (whisperService this) audioBlob language);;
           ret result
         else throw (Error "No STT service available")
     end)
    (fun error => throw error).

(** [SpeechToTextServiceImpl.isAvailable] *)
Definition serviceIsAvailable (this : Impl) : Cascade bool :=
  await cloudAvailable <- invoke CloudIsAvailable (Ok (isAvailable (cloudService this)));;
  await offlineAvailable <- invoke WhisperIsAvailable (Ok (isAvailable (whisperService this)));;
  ret (cloudAvailable || (fallbackToOffline (config this) && offlineAvailable)).

(** [SpeechToTextServiceImpl.detectLanguage].  For the offline guess the
    service first reads the blob into a buffer itself
    ([await this.blobToArrayBuffer(audioBlob)]); Whisper's
    [detectLanguageFromAudio] is called with that buffer, the bytes of the
    blob, and is not called when the read fails. *)
Definition detectLanguage (this : Impl) (audioBlob : Blob) : Cascade LanguageCode :=
  try_catch
    (await cloudAvailable <- invoke CloudIsAvailable (Ok (isAvailable (cloudService this)));;
     if cloudAvailable then
       invoke (CloudDetectLanguage audioBlob) (b_detectLanguage (cloudService this) audioBlob)
     else
       await offlineAvailable <-
         invoke WhisperIsAvailable (Ok (isAvailable (whisperService this)));;
       if offlineAvailable then
         await _ <- (fun log => (blobToArrayBuffer (fileReader this) audioBlob, log));;
         invoke (WhisperDetectLanguage audioBlob)
                (b_detectLanguage (whisperService this) audioBlob)
       else ret "hi"%string)
    (fun _ => ret "hi"%string).

(** *** The two backends as the source simulates them *)

Definition mockText : string := "मुझे सरकारी योजनाओं के बारे में जानकारी चाहिए".

(** [WhisperSTTService]: the model is always available.  [transcribe]
    first reads the blob into a buffer ([blobToAudioBuffer], with the
    runtime's [FileReader]); when that fails the [catch] throws "Offline
    speech recognition failed", otherwise the transcription has confidence
    0.92 and the language [language || 'hi'].  [detectLanguageFromAudio]
    answers ['hi'] for every buffer. *)
Definition WhisperSTTService (reader : FileReader) : Backend :=
  {| isAvailable := true;
     b_transcribe := fun audioBlob language =>
       match blobToArrayBuffer reader audioBlob with
       | Throw _ => Throw (Error "Offline speech recognition failed")
       | Ok _ =>
           Ok {| tr_text := mockText;
                 confidence := 0.92;
                 detectedLanguage := or_else language "hi";
                 alternatives := Some ["मुझे सरकारी स्कीमों के बारे में जानकारी चाहिए";
                                       "मुझे गवर्नमेंट योजनाओं के बारे में जानकारी चाहिए"]%string |}
       end;
     b_detectLanguage := fun _ => Ok "hi"%string;
     getSupportedLanguages := ["en"; "hi"; "ta"; "te"; "bn"]%string |}.

(** [CloudSTTService]: always reachable; a transcription has confidence
    0.96 and the language [language || 'hi']. *)
Definition CloudSTTService (_ : STTConfig) : Backend :=
  {| isAvailable := true;
     b_transcribe := fun _ language =>
       Ok {| tr_text := mockText;
             confidence := 0.96;
             detectedLanguage := or_else language "hi";
             alternatives := Some ["मुझे सरकारी स्कीमों के बारे में जानकारी चाहिए";
                                   "मुझे गवर्नमेंट योजनाओं के बारे में जानकारी चाहिए";
                                   "मुझे सरकारी योजना की जानकारी चाहिए"]%string |};
     b_detectLanguage := fun _ => Ok "hi"%string;
     getSupportedLanguages := ["en"; "hi"; "ta"; "te"; "bn"]%string |}.

(** [new SpeechToTextServiceImpl(config)], in a runtime with the given
    [FileReader]. *)
Definition new (reader : FileReader) (cfg : STTConfig) : Impl :=
  {| config := cfg;
     fileReader := reader;
     whisperService := WhisperSTTService reader;
     cloudService := CloudSTTService cfg |}.

(** *** Services for the examples *)

(** A cloud backend that cannot be reached: it reports unavailable, and a
    transcription attempt would fail. *)
Definition unreachableCloud : Backend :=
  {| isAvailable := false;
     b_transcribe := fun _ _ => Throw (Error "Cloud speech recognition failed");
     b_detectLanguage := fun _ => Throw (Error "Cloud speech recognition failed");
     getSupportedLanguages := ["en"; "hi"; "ta"; "te"; "bn"]%string |}.

(** The default service with its cloud backend unreachable. *)
Definition cloudDown (reader : FileReader) : Impl :=
  {| config := defaultConfig;
     fileReader := reader;
     whisperService := WhisperSTTService reader;
     cloudService := unreachableCloud |}.

(** The same, constructed with [{ fallbackToOffline: false }]. *)
Definition offlineDisabled (reader : FileReader) : Impl :=
  {| config :=
       {| whisperModelPath := None; cloudSTTEndpoint := None; cloudSTTApiKey := None;
          fallbackToOffline := false; compressionEnabled := true;
          confidenceThreshold := 0.8;
          supportedLanguages := ["en"; "hi"; "ta"; "te"; "bn"]%string |};
     fileReader := reader;
     whisperService := WhisperSTTService reader;
     cloudService := unreachableCloud |}.

End SpeechToText.

(* ===================================================================== *)
(** ** Text-to-speech service (class [TextToSpeechServiceImpl]) *)
(* ===================================================================== *)

Module TextToSpeech.
Import Js.
Import AudioProcessor (AudioFormat, wav, mp3, ogg, webm).

Inductive Gender := male | female | neutral.

(** [interface VoiceProfile] *)
Record VoiceProfile : Type := mkVoiceProfile {
  vp_language : LanguageCode;
  gender : Gender;
  speed : float;
  pitch : float
}.

(** [interface AudioBlob] *)
Record AudioBlob : Type := mkAudioBlob {
  data : list Byte.byte;
  format : AudioFormat;
  duration : float;
  ab_sampleRate : float
}.

(** [interface TTSConfig] *)
Record TTSConfig : Type := mkTTSConfig {
  preferLocalTTS : bool;
  enableCloudTTS : bool;
  defaultVoiceProfile : VoiceProfile;
  audioFormat : AudioFormat;
  sampleRate : float;
  enableCompression : bool;
  cloudTTSApiKey : option string;
  cloudTTSEndpoint : option string
}.

Definition defaultConfig : TTSConfig :=
  {| preferLocalTTS := true;
     enableCloudTTS := true;
     defaultVoiceProfile :=
       {| vp_language := "hi"; gender := female; speed := 1.0; pitch := 1.0 |};
     audioFormat := wav;
     sampleRate := 22050;
     enableCompression := true;
     cloudTTSApiKey := None;
     cloudTTSEndpoint := None |}.

(** [interface LocalTTSEngine] *)
Record LocalTTSEngine : Type := mkLocalTTSEngine {
  isLanguageSupported : LanguageCode -> bool;
  l_synthesize : JsString -> LanguageCode -> option VoiceProfile -> Result JsError AudioBlob;
  l_getAvailableVoices : LanguageCode -> list VoiceProfile
}.

(** [interface CloudTTSProvider] *)
Record CloudTTSProvider : Type := mkCloudTTSProvider {
  c_isAvailable : bool;
  c_synthesize : JsString -> LanguageCode -> option VoiceProfile -> Result JsError AudioBlob;
  c_getAvailableVoices : LanguageCode -> list VoiceProfile
}.

(** Calls made to the two synthesis engines, in order. *)
Inductive EngineCall : Type :=
| LocalIsLanguageSupported (language : LanguageCode)
| LocalSynthesize (text : JsString) (language : LanguageCode) (voice : VoiceProfile)
| LocalGetAvailableVoices (language : LanguageCode)
| CloudIsAvailable
| CloudSynthesize (text : JsString) (language : LanguageCode) (voice : VoiceProfile)
| CloudGetAvailableVoices (language : LanguageCode).

Record Impl : Type := mkImpl {
  config : TTSConfig;
  localEngine : LocalTTSEngine;
  cloudProvider : CloudTTSProvider;
  supportedLanguages : list LanguageCode
}.

Definition Synth (A : Type) : Type := M (list EngineCall) JsError A.

Definition invoke {A} (c : EngineCall) (outcome : Result JsError A) : Synth A :=
  fun log => (outcome, log ++ [c]).

(** [languages.includes(language)] *)
Definition includes (languages : list LanguageCode) (language : LanguageCode) : bool :=
  existsb (String.eqb language) languages.

Definition postProcessAudio (audioBlob : AudioBlob) : Synth AudioBlob := ret audioBlob.

Local Open Scope js_scope.

(** [TextToSpeechServiceImpl.synthesize] *)
Definition synthesize (this : Impl) (text : JsString) (language : LanguageCode)
    (voice : option VoiceProfile) : Synth AudioBlob :=
  if isBlank text then throw (Error "Text cannot be empty")
  else if negb (includes (supportedLanguages this) language)
  then throw (Error ("Language " ++ language ++ " is not supported"))
  else
    let effectiveVoice :=
      match voice with
      | Some v => v
      | None =>
          let d := defaultVoiceProfile (config this) in
          {| vp_language := language; gender := gender d;
             speed := speed d; pitch := pitch d |}
      end in
    try_catch
      (await useLocal <-
         (if preferLocalTTS (config this)
          then invoke (LocalIsLanguageSupported language)
                      (Ok (isLanguageSupported (localEngine this) language))
          else ret false);;
       if useLocal then
         await result <- invoke (LocalSynthesize text language effectiveVoice)
                           (l_synthesize (localEngine this) text language (Some effectiveVoice));;
         postProcessAudio result
       else
         await useCloud <-
           (if enableCloudTTS (config this)
            then invoke CloudIsAvailable (Ok (c_isAvailable (cloudProvider this)))
            else ret false);;
         if useCloud then
           await result <- invoke (CloudSynthesize text language effectiveVoice)
                             (c_synthesize (cloudProvider this) text language (Some effectiveVoice));;
           postProcessAudio result
         else
           await lastResort <- invoke (LocalIsLanguageSupported language)
                                 (Ok (isLanguageSupported (localEngine this) language));;
           if lastResort then
             await result <- invoke (LocalSynthesize text language effectiveVoice)
                               (l_synthesize (localEngine this) text language (Some effectiveVoice));;
             postProcessAudio result
           else throw (Error ("No TTS engine available for language: " ++ language)))
      (fun error =>
         throw (Error ("Text-to-speech synthesis failed: " ++ message_of error))).

(** *** The two engines of the source

    The bytes of the simulated audio are produced by
    [generateMockAudioData] and [generateHighQualityMockAudio]; they are
    parameters here, the orchestration never looks inside them. *)
Section Engines.
Variable generateMockAudioData :
  JsString -> LanguageCode -> option VoiceProfile -> list Byte.byte.
Variable generateHighQualityMockAudio :
  JsString -> LanguageCode -> option VoiceProfile -> list Byte.byte.

Definition femaleAndMale (language : LanguageCode) : list VoiceProfile :=
  [ {| vp_language := language; gender := female; speed := 1.0; pitch := 1.0 |};
    {| vp_language := language; gender := male; speed := 1.0; pitch := 1.0 |} ].

(** [LocalTTSEngineImpl]: English and Hindi only. *)
Definition LocalTTSEngineImpl : LocalTTSEngine :=
  let supported := includes ["en"; "hi"]%string in
  {| isLanguageSupported := supported;
     l_synthesize := fun text language voice =>
       if negb (supported language)
       then Throw (Error ("Local TTS does not support language: " ++ language))
       else Ok {| data := generateMockAudioData text language voice;
                  format := wav;
                  duration := (Number_of_Z (Z.of_nat (length text)) * 0.08)%float;
                  ab_sampleRate := 22050 |};
     l_getAvailableVoices := fun language =>
       if supported language then femaleAndMale language else [] |}.

(** [CloudTTSProviderImpl]: available exactly when an API key is
    configured (a non-empty string). *)
Definition CloudTTSProviderImpl (cfg : TTSConfig) : CloudTTSProvider :=
  let available := opt_truthy (cloudTTSApiKey cfg) in
  {| c_isAvailable := available;
     c_synthesize := fun text language voice =>
       if negb available
       then Throw (Error "Cloud TTS service is not available")
       else Ok {| data := generateHighQualityMockAudio text language voice;
                  format := mp3;
                  duration := (Number_of_Z (Z.of_nat (length text)) * 0.06)%float;
                  ab_sampleRate := 44100 |};
     c_getAvailableVoices := fun language =>
       if negb available then []
       else femaleAndMale language ++
            [ {| vp_language := language; gender := female; speed := 0.9; pitch := 1.1 |};
              {| vp_language := language; gender := male; speed := 1.1; pitch := 0.9 |} ] |}.

(** [new TextToSpeechServiceImpl(config)] *)
Definition new (cfg : TTSConfig) : Impl :=
  {| config := cfg;
     localEngine := LocalTTSEngineImpl;
     cloudProvider := CloudTTSProviderImpl cfg;
     supportedLanguages := ["en"; "hi"; "ta"; "te"; "bn"]%string |}.
End Engines.

(** The default service, with engines that produce empty audio data. *)
Definition sampleService : Impl :=
  new (fun _ _ _ => []) (fun _ _ _ => []) defaultConfig.

End TextToSpeech.

(* ===================================================================== *)
(** ** Voice interface (class [VoiceInterfaceImpl]) *)
(* ===================================================================== *)

Module VoiceInterface.
Import Js.
Import AudioProcessor (Blob).

(** [interface VoiceInterfaceConfig] *)
Record VoiceInterfaceConfig : Type := mkConfig {
  enableVoiceInput : bool;
  enableVoiceOutput : bool;
  fallbackToText : bool;
  preserveContext : bool;
  audioCompression : bool;
  defaultLanguage : LanguageCode;
  maxFailuresBeforeFallback : Z;
  contextTimeoutMinutes : Z
}.

(** The constructor's defaults. *)
Definition defaultConfig : VoiceInterfaceConfig :=
  {| enableVoiceInput := true;
     enableVoiceOutput := true;
     fallbackToText := true;
     preserveContext := true;
     audioCompression := true;
     defaultLanguage := "hi";
     maxFailuresBeforeFallback := 2;
     contextTimeoutMinutes := 30 |}.

(** An element of [conversationHistory]; [timestamp] in milliseconds. *)
Record HistoryEntry : Type := mkEntry {
  timestamp : Z;
  h_inputMode : InputMode;
  success : bool;
  h_language : LanguageCode
}.

(** [interface VoiceContext] *)
Record VoiceContext : Type := mkContext {
  sessionId : string;
  currentLanguage : LanguageCode;
  inputMode : InputMode;
  lastInteraction : Z;
  failureCount : Z;
  totalInteractions : Z;
  fallbackSuggested : bool;
  conversationHistory : list HistoryEntry
}.

(** The injected [sttService]: an instance of [SpeechToTextServiceImpl], or
    some other implementation of the [SpeechToTextService] interface (the
    code tells them apart with [instanceof]).  It is given at each call, as
    the service answers at that moment. *)
Inductive SpeechToTextService : Type :=
| ServiceImpl (impl : SpeechToText.Impl)
| ServiceOther (transcribe : Blob -> option LanguageCode ->
                             Result JsError TranscriptionResult)
               (isAvailable : bool)
               (languages : list LanguageCode).

(** Calls made to [sttService], in order, with their arguments. *)
Inductive ServiceCall : Type :=
| SttTranscribe (audio : Blob) (language : option LanguageCode)
| SttDetectLanguage (audio : Blob).

(** The mutable state: the [contexts] map of the object, the number of
    clock readings taken so far, and the log of service calls. *)
Record State : Type := mkState {
  contexts : gmap string VoiceContext;
  ticks : nat;
  calls : list ServiceCall
}.

Definition initialState : State :=
  {| contexts := ∅; ticks := 0; calls := [] |}.

(** What the voice interface throws: a plain [Error] (its own, or the one a
    service threw, passed on unchanged), or a [VoiceInputError] with its
    [suggestTextFallback] flag and its optional [fallbackSuggestion] field.
    [VoiceInputError] belongs to the voice interface: the services throw plain
    errors. *)
Inductive VoiceError : Type :=
| PlainError (error : JsError)
| VoiceInputError (message : string) (suggestTextFallback : bool)
                  (fallbackSuggestion : option FallbackSuggestion).

(** An error that recommends the switch to text: it carries a fallback
    suggestion whose [shouldSuggestFallback] is set. *)
Definition carriesFallback (e : VoiceError) : bool :=
  match e with
  | VoiceInputError _ _ (Some fs) => shouldSuggestFallback fs
  | _ => false
  end.

Definition VI (A : Type) : Type := M State VoiceError A.

(** Running a service call inside the voice interface: the state is left
    alone, a thrown error is passed on. *)
Definition liftService {A} (outcome : Result JsError A) : VI A :=
  fun st => match outcome with
            | Ok a => (Ok a, st)
            | Throw e => (Throw (PlainError e), st)
            end.

(** The outcome of [sttService.transcribe(audioBlob, language)]. *)
Definition serviceOutcome (sttService : SpeechToTextService) (audioBlob : Blob)
    (language : option LanguageCode) : Result JsError TranscriptionResult :=
  match sttService with
  | ServiceImpl impl => fst (SpeechToText.transcribe impl audioBlob language [])
  | ServiceOther transcribe _ _ => transcribe audioBlob language
  end.

Local Open Scope js_scope.

Section Methods.
(** The wall clock: the value of the [n]-th reading. *)
Variable clock : nat -> Z.
(** [this.config] *)
Variable config : VoiceInterfaceConfig.

(** [new Date()] and [Date.now()] *)
Definition new_Date : VI Z :=
  fun st => (Ok (clock (ticks st)),
             {| contexts := contexts st; ticks := S (ticks st); calls := calls st |}).

Definition contexts_get (sid : string) : VI (option VoiceContext) :=
  fun st => (Ok (contexts st !! sid), st).

Definition contexts_set (sid : string) (context : VoiceContext) : VI unit :=
  modify (fun st => {| contexts := <[sid := context]> (contexts st);
                       ticks := ticks st; calls := calls st |}).

Definition contexts_delete (sid : string) : VI unit :=
  modify (fun st => {| contexts := delete sid (contexts st);
                       ticks := ticks st; calls := calls st |}).

Definition log_call (c : ServiceCall) : VI unit :=
  modify (fun st => {| contexts := contexts st; ticks := ticks st;
                       calls := calls st ++ [c] |}).

(** [sttService.transcribe(audioBlob, language)] *)
Definition stt_transcribe (sttService : SpeechToTextService) (audioBlob : Blob)
    (language : option LanguageCode) : VI TranscriptionResult :=
  await _ <- log_call (SttTranscribe audioBlob language);;
  liftService (serviceOutcome sttService audioBlob language).

(** [setContext] *)
Definition setContext (sid : string) (language : LanguageCode) (mode : InputMode)
  : VI unit :=
  if negb (preserveContext config) then ret tt
  else
    await existingContext <- contexts_get sid;;
    await now <- new_Date;;
    contexts_set sid
      {| sessionId := sid;
         currentLanguage := language;
         inputMode := mode;
         lastInteraction := now;
         failureCount := match existingContext with Some c => failureCount c | None => 0 end;
         totalInteractions :=
           match existingContext with Some c => totalInteractions c | None => 0 end + 1;
         fallbackSuggested :=
           match existingContext with Some c => fallbackSuggested c | None => false end;
         conversationHistory :=
           slice_last 10
             (match existingContext with Some c => conversationHistory c | None => [] end
              ++ [ {| timestamp := now; h_inputMode := mode;
                      success := true; h_language := language |} ]) |}.

(** [getContext] *)
Definition getContext (sid : string) : VI (option VoiceContext) := contexts_get sid.

(** [clearContext] *)
Definition clearContext (sid : string) : VI unit := contexts_delete sid.

(** [switchInputMode] *)
Definition switchInputMode (sid : string) (newMode : InputMode) : VI bool :=
  await context <- contexts_get sid;;
  match context with
  | None => ret false
  | Some context =>
      await t1 <- new_Date;;
      await t2 <- new_Date;;
      await _ <- contexts_set sid
        {| sessionId := sessionId context;
           currentLanguage := currentLanguage context;
           inputMode := newMode;
           lastInteraction := t1;
           failureCount := 0;
           totalInteractions := totalInteractions context;
           fallbackSuggested := false;
           conversationHistory :=
             slice_last 10
               (conversationHistory context
                ++ [ {| timestamp := t2; h_inputMode := newMode;
                        success := true; h_language := currentLanguage context |} ]) |};;
      ret true
  end.

(** The suggestion object built by [getFallbackSuggestion] and
    [updateContextOnFailure] when a fallback is to be suggested. *)
Definition suggestion (context : VoiceContext) : FallbackSuggestion :=
  let lastSuccessful := find_last success (conversationHistory context) in
  {| shouldSuggestFallback := true;
     reason := multiple_failures;
     fs_failureCount := failureCount context;
     lastSuccessfulMode := option_map h_inputMode lastSuccessful |}.

Definition noSuggestion (count : Z) : FallbackSuggestion :=
  {| shouldSuggestFallback := false;
     reason := multiple_failures;
     fs_failureCount := count;
     lastSuccessfulMode := None |}.

(** [getFallbackSuggestion] *)
Definition getFallbackSuggestion (sid : string) : VI (option FallbackSuggestion) :=
  await context <- contexts_get sid;;
  match context with
  | None => ret None
  | Some context =>
      let shouldSuggest :=
        fallbackToText config
        && (maxFailuresBeforeFallback config <=? failureCount context)
        && InputMode_eqb (inputMode context) voice
        && negb (fallbackSuggested context) in
      if shouldSuggest then ret (Some (suggestion context))
      else ret (Some (noSuggestion (failureCount context)))
  end.

(** [markFallbackSuggested] *)
Definition markFallbackSuggested (sid : string) : VI unit :=
  await context <- contexts_get sid;;
  match context with
  | None => ret tt
  | Some context =>
      contexts_set sid
        {| sessionId := sessionId context;
           currentLanguage := currentLanguage context;
           inputMode := inputMode context;
           lastInteraction := lastInteraction context;
           failureCount := failureCount context;
           totalInteractions := totalInteractions context;
           fallbackSuggested := true;
           conversationHistory := conversationHistory context |}
  end.

(** [cleanupExpiredContexts] *)
Definition expired (now : Z) (context : VoiceContext) : bool :=
  contextTimeoutMinutes config * 60 * 1000 <? now - lastInteraction context.

Definition cleanupExpiredContexts : VI Z :=
  await now <- new_Date;;
  fun st =>
    let kept := filter (fun kv => expired now (snd kv) = false) (contexts st) in
    (Ok (Z.of_nat (size (contexts st) - size kept)),
     {| contexts := kept; ticks := ticks st; calls := calls st |}).

(** [updateContextOnSuccess] *)
Definition updateContextOnSuccess (sid : string) (language : LanguageCode)
    (mode : InputMode) : VI unit :=
  if negb (preserveContext config) then ret tt
  else
    await context <- contexts_get sid;;
    match context with
    | None => ret tt
    | Some context =>
        await t1 <- new_Date;;
        await t2 <- new_Date;;
        contexts_set sid
          {| sessionId := sessionId context;
             currentLanguage := language;
             inputMode := inputMode context;
             lastInteraction := t1;
             failureCount := 0;
             totalInteractions := totalInteractions context + 1;
             fallbackSuggested := fallbackSuggested context;
             conversationHistory :=
               slice_last 10
                 (conversationHistory context
                  ++ [ {| timestamp := t2; h_inputMode := mode;
                          success := true; h_language := language |} ]) |}
    end.

(** [updateContextOnFailure] *)
Definition updateContextOnFailure (sid : string) (mode : InputMode)
  : VI FallbackSuggestion :=
  await context <- contexts_get sid;;
  match context with
  | None => ret (noSuggestion 0)
  | Some context =>
      await t1 <- new_Date;;
      await t2 <- new_Date;;
      let context1 :=
        {| sessionId := sessionId context;
           currentLanguage := currentLanguage context;
           inputMode := inputMode context;
           lastInteraction := t1;
           failureCount := failureCount context + 1;
           totalInteractions := totalInteractions context + 1;
           fallbackSuggested := fallbackSuggested context;
           conversationHistory :=
             slice_last 10
               (conversationHistory context
                ++ [ {| timestamp := t2; h_inputMode := mode;
                        success := false; h_language := currentLanguage context |} ]) |} in
      let shouldSuggest :=
        fallbackToText config
        && (maxFailuresBeforeFallback config <=? failureCount context1)
        && InputMode_eqb mode voice
        && negb (fallbackSuggested context1) in
      if shouldSuggest then
        let context2 :=
          {| sessionId := sessionId context1;
             currentLanguage := currentLanguage context1;
             inputMode := inputMode context1;
             lastInteraction := lastInteraction context1;
             failureCount := failureCount context1;
             totalInteractions := totalInteractions context1;
             fallbackSuggested := true;
             conversationHistory := conversationHistory context1 |} in
        await _ <- contexts_set sid context2;;
        ret (suggestion context2)
      else
        await _ <- contexts_set sid context1;;
        ret (noSuggestion (failureCount context1))
  end.

(** [detectLanguage] *)
Definition detectLanguage (sttService : SpeechToTextService) (audioBlob : Blob)
  : VI LanguageCode :=
  try_catch
    (match sttService with
     | ServiceImpl impl =>
         await _ <- log_call (SttDetectLanguage audioBlob);;
         liftService (fst (SpeechToText.detectLanguage impl audioBlob []))
     | ServiceOther _ _ _ => ret (defaultLanguage config)
     end)
    (fun _ => ret (defaultLanguage config)).

(** [convertSpeechToText] *)
Definition convertSpeechToText (sttService : SpeechToTextService) (audioBlob : Blob)
    (language : option LanguageCode) (sid : option string)
  : VI TranscriptionResult :=
  if negb (enableVoiceInput config) then throw (PlainError (Error "Voice input is disabled"))
  else
    await startTime <- new_Date;;
    try_catch
      (await targetLanguage <-
         (if opt_truthy language then ret (or_else language "")
          else detectLanguage sttService audioBlob);;
       await result <- stt_transcribe sttService audioBlob (Some targetLanguage);;
       await _ <- (if opt_truthy sid
                   then updateContextOnSuccess (or_else sid "") targetLanguage voice
                   else ret tt);;
       await _ <- new_Date;;
       ret result)
      (fun error =>
         await _ <- new_Date;;
         await _ <-
           (if opt_truthy sid then
              await fallbackSuggestion <- updateContextOnFailure (or_else sid "") voice;;
              if shouldSuggestFallback fallbackSuggestion then
                throw (VoiceInputError
                         ("Voice input failed after "
                          ++ pretty (fs_failureCount fallbackSuggestion)
                          ++ " attempts. Please try typing your message instead.")
                         true (Some fallbackSuggestion))
              else ret tt
            else ret tt);;
         throw error).

(** The value returned by [processTextInput]. *)
Record ProcessedText : Type := mkProcessedText {
  processedText : JsString;
  pt_detectedLanguage : LanguageCode;
  pt_confidence : float
}.

(** [processTextInput] *)
Definition processTextInput (textInput : JsString) (sid : string)
    (language : option LanguageCode) : VI ProcessedText :=
  if isBlank textInput then throw (PlainError (Error "Text input cannot be empty"))
  else
    await startTime <- new_Date;;
    try_catch
      (await context <- contexts_get sid;;
       let targetLanguage :=
         or_else language
           (or_else (option_map currentLanguage context) (defaultLanguage config)) in
       let processed := trim textInput in
       await _ <- updateContextOnSuccess sid targetLanguage text;;
       await _ <- new_Date;;
       ret {| processedText := processed;
              pt_detectedLanguage := targetLanguage;
              pt_confidence := 1.0 |})
      (fun error =>
         await _ <- new_Date;;
         await _ <- updateContextOnFailure sid text;;
         throw error).

End Methods.

(** *** Runs of operations, used to state the properties below *)

(** One call of [convertSpeechToText]: the service as it answers at that
    call, the audio and the optional language. *)
Record SpeechCall : Type := mkSpeechCall {
  call_service : SpeechToTextService;
  call_audio : Blob;
  call_language : option LanguageCode
}.

(** Consecutive [convertSpeechToText] calls for one session id: the outcomes
    in order, and the final state. *)
Fixpoint speechCalls (clock : nat -> Z) (config : VoiceInterfaceConfig)
    (sid : option string) (cs : list SpeechCall) (st : State)
  : list (Result VoiceError TranscriptionResult) * State :=
  match cs with
  | [] => ([], st)
  | c :: cs' =>
      let r := convertSpeechToText clock config (call_service c) (call_audio c)
                 (call_language c) sid st in
      let rs := speechCalls clock config sid cs' (snd r) in
      (fst r :: fst rs, snd rs)
  end.

(** The call ended with a fallback-eligible error. *)
Definition raisedFallback {A} (r : Result VoiceError A) : bool :=
  match r with
  | Throw e => carriesFallback e
  | Ok _ => false
  end.

(** The public operations that can change the state. *)
Inductive Operation : Type :=
| OpSetContext (sid : string) (language : LanguageCode) (mode : InputMode)
| OpClearContext (sid : string)
| OpSwitchInputMode (sid : string) (newMode : InputMode)
| OpMarkFallbackSuggested (sid : string)
| OpCleanupExpiredContexts
| OpConvertSpeechToText (sttService : SpeechToTextService) (audioBlob : Blob)
    (language : option LanguageCode) (sid : option string)
| OpProcessTextInput (textInput : JsString) (sid : string)
    (language : option LanguageCode).

Definition perform (clock : nat -> Z) (config : VoiceInterfaceConfig)
    (op : Operation) (st : State) : State :=
  match op with
  | OpSetContext sid language mode => snd (setContext clock config sid language mode st)
  | OpClearContext sid => snd (clearContext sid st)
  | OpSwitchInputMode sid newMode => snd (switchInputMode clock sid newMode st)
  | OpMarkFallbackSuggested sid => snd (markFallbackSuggested sid st)
  | OpCleanupExpiredContexts => snd (cleanupExpiredContexts clock config st)
  | OpConvertSpeechToText sttService audioBlob language sid =>
      snd (convertSpeechToText clock config sttService audioBlob language sid st)
  | OpProcessTextInput textInput sid language =>
      snd (processTextInput clock config textInput sid language st)
  end.

Definition performAll (clock : nat -> Z) (config : VoiceInterfaceConfig)
    (ops : list Operation) (st : State) : State :=
  fold_left (fun s op => perform clock config op s) ops st.

(** The four places that append to a session's history: [setContext],
    [updateContextOnSuccess], [updateContextOnFailure], [switchInputMode]. *)
Inductive Interaction : Type :=
| ContextSet (language : LanguageCode) (mode : InputMode)
| SuccessUpdate (language : LanguageCode) (mode : InputMode)
| FailureUpdate (mode : InputMode)
| ModeSwitch (newMode : InputMode).

Definition interact (clock : nat -> Z) (config : VoiceInterfaceConfig)
    (sid : string) (i : Interaction) (st : State) : State :=
  match i with
  | ContextSet language mode => snd (setContext clock config sid language mode st)
  | SuccessUpdate language mode => snd (updateContextOnSuccess clock config sid language mode st)
  | FailureUpdate mode => snd (updateContextOnFailure clock config sid mode st)
  | ModeSwitch newMode => snd (switchInputMode clock sid newMode st)
  end.

Definition interactAll (clock : nat -> Z) (config : VoiceInterfaceConfig)
    (sid : string) (steps : list Interaction) (st : State) : State :=
  fold_left (fun s i => interact clock config sid i s) steps st.

(** The record [{timestamp, inputMode, success, language}] of an interaction
    that starts in state [st]: [setContext] reads the clock once, the other
    three read it twice and stamp the record with the second reading; a
    failure and a mode switch record the session's current language. *)
Definition recordOf (clock : nat -> Z) (sid : string) (i : Interaction) (st : State)
  : HistoryEntry :=
  let sessionLanguage :=
    match contexts st !! sid with Some c => currentLanguage c | None => ""%string end in
  match i with
  | ContextSet language mode =>
      {| timestamp := clock (ticks st); h_inputMode := mode;
         success := true; h_language := language |}
  | SuccessUpdate language mode =>
      {| timestamp := clock (S (ticks st)); h_inputMode := mode;
         success := true; h_language := language |}
  | FailureUpdate mode =>
      {| timestamp := clock (S (ticks st)); h_inputMode := mode;
         success := false; h_language := sessionLanguage |}
  | ModeSwitch newMode =>
      {| timestamp := clock (S (ticks st)); h_inputMode := newMode;
         success := true; h_language := sessionLanguage |}
  end.

(** The records of a sequence of interactions, oldest first. *)
Fixpoint recordsOf (clock : nat -> Z) (config : VoiceInterfaceConfig)
    (sid : string) (steps : list Interaction) (st : State) : list HistoryEntry :=
  match steps with
  | [] => []
  | i :: steps' =>
      recordOf clock sid i st
      :: recordsOf clock config sid steps' (interact clock config sid i st)
  end.

(** The history of a session, empty when it has no context. *)
Definition historyOf (sid : string) (st : State) : list HistoryEntry :=
  match contexts st !! sid with
  | Some c => conversationHistory c
  | None => []
  end.

(** The language [convertSpeechToText] hands to the service: the caller's
    language when given (and not empty); else, for a
    [SpeechToTextServiceImpl], what its [detectLanguage] returns for the audio
    (['hi'] when that fails); else the configured default. *)
Definition targetLanguage (config : VoiceInterfaceConfig)
    (sttService : SpeechToTextService) (audioBlob : Blob)
    (language : option LanguageCode) : LanguageCode :=
  if opt_truthy language then or_else language ""
  else match sttService with
       | ServiceImpl impl =>
           match fst (SpeechToText.detectLanguage impl audioBlob []) with
           | Ok detected => detected
           | Throw _ => defaultLanguage config
           end
       | ServiceOther _ _ _ => defaultLanguage config
       end.

(** The precedence C6 describes: explicit language, else the session's
    current language, else the configured default. *)
Definition languageBySessionPrecedence (config : VoiceInterfaceConfig)
    (language : option LanguageCode) (context : option VoiceContext) : LanguageCode :=
  or_else language
    (or_else (option_map currentLanguage context) (defaultLanguage config)).

(** *** The state around one recognition attempt *)

(** The service calls of one [convertSpeechToText]: a language detection when
    no language is given and the service is a [SpeechToTextServiceImpl], then
    the transcription. *)
Definition attemptCalls (config : VoiceInterfaceConfig)
    (sttService : SpeechToTextService) (audioBlob : Blob)
    (language : option LanguageCode) : list ServiceCall :=
  (if opt_truthy language then []
   else match sttService with
        | ServiceImpl _ => [SttDetectLanguage audioBlob]
        | ServiceOther _ _ _ => []
        end)
  ++ [SttTranscribe audioBlob (Some (targetLanguage config sttService audioBlob language))].

(** The state after [n] clock readings and the calls [cs]; the contexts are
    untouched. *)
Definition advance (n : nat) (cs : list ServiceCall) (st : State) : State :=
  {| contexts := contexts st; ticks := n + ticks st; calls := calls st ++ cs |}.

(** The message of the fallback-eligible error. *)
Definition fallbackMessage (count : Z) : string :=
  "Voice input failed after " ++ pretty count
  ++ " attempts. Please try typing your message instead.".

(** Whether a failure in modality [mode] that finds the context [context]
    suggests the fallback (the test of [updateContextOnFailure], on the
    count after the increment). *)
Definition suggests (config : VoiceInterfaceConfig) (mode : InputMode)
    (context : VoiceContext) : bool :=
  fallbackToText config
  && (maxFailuresBeforeFallback config <=? failureCount context + 1)
  && InputMode_eqb mode voice
  && negb (fallbackSuggested context).

(** For a run that starts with [j] failures counted: whether call [k]
    (from 1) is the one that reaches the threshold. *)
Definition thresholdFlags (config : VoiceInterfaceConfig) (j : Z) (n : nat) : list bool :=
  map (fun k : nat => j + Z.of_nat k =? maxFailuresBeforeFallback config) (seq 1 n).

(** *** The bound on the history *)

(** Every session's history holds at most ten records. *)
Definition historyBounded (st : State) : Prop :=
  forall (sid : string) (context : VoiceContext),
    contexts st !! sid = Some context ->
    (length (conversationHistory context) <= 10)%nat.

(** A computation that keeps the histories within the bound. *)
Definition preserves {A} (m : VI A) : Prop :=
  forall st : State, historyBounded st -> historyBounded (snd (m st)).

(** What [contexts.get] may return in a bounded state. *)
Definition boundedEntry (entry : option VoiceContext) : Prop :=
  match entry with
  | Some context => (length (conversationHistory context) <= 10)%nat
  | None => True
  end.

(** Twelve interactions on a fresh session ['s1']. *)
Definition twelveInteractions : list Interaction :=
  [ContextSet "hi" voice; FailureUpdate voice; FailureUpdate voice;
   ModeSwitch text; SuccessUpdate "hi" text; SuccessUpdate "en" text;
   ModeSwitch voice; SuccessUpdate "en" voice; FailureUpdate voice;
   SuccessUpdate "ta" voice; ContextSet "ta" voice; FailureUpdate voice]%string.

(** *** Concrete collaborators for the examples *)

(** The audio blob of the unit tests. *)
Definition sampleAudio : Blob :=
  AudioProcessor.mkBlob [Byte.x01; Byte.x02; Byte.x03; Byte.x04; Byte.x05] "audio/wav".

Definition sampleResult : TranscriptionResult :=
  {| tr_text := "test transcription"; confidence := 0.95;
     detectedLanguage := "hi"; alternatives := None |}.

(** A service double whose [transcribe] rejects with [Error('STT failed')]. *)
Definition failingService : SpeechToTextService :=
  ServiceOther (fun _ _ => Throw (Error "STT failed")) true ["hi"; "en"]%string.

(** A service double whose [transcribe] resolves. *)
Definition workingService : SpeechToTextService :=
  ServiceOther (fun _ _ => Ok sampleResult) true ["hi"; "en"]%string.

Definition failingCall : SpeechCall := mkSpeechCall failingService sampleAudio None.
Definition workingCall : SpeechCall := mkSpeechCall workingService sampleAudio None.

(** A clock that advances by one millisecond per reading. *)
Definition sampleClock (n : nat) : Z := 1700000000000 + Z.of_nat n.

(** Session ['s1'] set to Hindi and voice input on a fresh interface. *)
Definition s1_voice_hi (config : VoiceInterfaceConfig) : State :=
  snd (setContext sampleClock config "s1" "hi" voice initialState).

(** The interface constructed with [{ fallbackToText: false }]. *)
Definition noFallbackConfig : VoiceInterfaceConfig :=
  {| enableVoiceInput := true;
     enableVoiceOutput := true;
     fallbackToText := false;
     preserveContext := true;
     audioCompression := true;
     defaultLanguage := "hi";
     maxFailuresBeforeFallback := 2;
     contextTimeoutMinutes := 30 |}.

(** Three failing calls on session ['s1'] with the fallback switched off. *)
Definition runWithoutFallback
  : list (Result VoiceError TranscriptionResult) * State :=
  speechCalls sampleClock noFallbackConfig (Some "s1"%string)
    [failingCall; failingCall; failingCall] (s1_voice_hi noFallbackConfig).

(** Default configuration, session ['s1']: two failures, one success, two
    more failures. *)
Definition runAcrossSuccess
  : list (Result VoiceError TranscriptionResult) * State :=
  speechCalls sampleClock defaultConfig (Some "s1"%string)
    [failingCall; failingCall; workingCall; failingCall; failingCall]
    (s1_voice_hi defaultConfig).

(** Session ['s1'] set to Tamil and voice input; then one call without a
    language, to a service double. *)
Definition s1_voice_ta : State :=
  snd (setContext sampleClock defaultConfig "s1" "ta" voice initialState).

Definition callWithoutLanguage : Result VoiceError TranscriptionResult * State :=
  convertSpeechToText sampleClock defaultConfig workingService sampleAudio None
    (Some "s1"%string) s1_voice_ta.

End VoiceInterface.

(* ===================================================================== *)
(** ** Further recognition services for the examples *)
(* ===================================================================== *)

Module SpeechToTextExamples.
Import SpeechToText.
Import AudioProcessor (FileReader).

(** The simulated backends behind a threshold of 0.99, above what the cloud
    simulation reports (0.96), without the offline fallback:
    [new SpeechToTextServiceImpl({ confidenceThreshold: 0.99,
    fallbackToOffline: false })]. *)
Definition strictService (reader : FileReader) : Impl :=
  new reader
      {| whisperModelPath := None; cloudSTTEndpoint := None; cloudSTTApiKey := None;
         fallbackToOffline := false; compressionEnabled := true;
         confidenceThreshold := 0.99;
         supportedLanguages := ["en"; "hi"; "ta"; "te"; "bn"]%string |}.

(** A cloud backend that is reachable but whose API call fails. *)
Definition brokenCloud : Backend :=
  {| isAvailable := true;
     b_transcribe := fun _ _ => Throw (Error "Cloud speech recognition failed");
     b_detectLanguage := fun _ => Ok "hi"%string;
     getSupportedLanguages := ["en"; "hi"; "ta"; "te"; "bn"]%string |}.

Definition brokenCloudService (reader : FileReader) : Impl :=
  {| config := defaultConfig;
     fileReader := reader;
     whisperService := WhisperSTTService reader;
     cloudService := brokenCloud |}.

End SpeechToTextExamples.

Module SpeechToTextOps.
Import SpeechToText.
Import AudioProcessor (Blob, CompressionLevel).

(** [SpeechToTextServiceImpl.compressAudio]: the compression is simulated
    by returning the blob. *)
Definition compressAudio (this : Impl) (audioBlob : Blob) (quality : CompressionLevel)
  : Blob :=
  if negb (compressionEnabled (config this)) then audioBlob
  else audioBlob.

End SpeechToTextOps.

(* ===================================================================== *)
(** ** Further methods of the audio processor *)
(* ===================================================================== *)

Module AudioChecks.
Import Js AudioProcessor.

(** [mimeType.startsWith(prefix)] *)
Definition startsWith (mimeType prefix : string) : bool := String.prefix prefix mimeType.

Definition supportedTypes : list string :=
  ["audio/wav"; "audio/mpeg"; "audio/mp3"; "audio/ogg"; "audio/webm";
   "audio/x-wav"; "audio/x-mpeg"]%string.

(** [isSupportedAudioType] *)
Definition isSupportedAudioType (mimeType : string) : bool :=
  existsb (String.eqb mimeType) supportedTypes || startsWith mimeType "audio/".

(** The value returned by [validateAudio]. *)
Record ValidationResult : Type := mkValidationResult {
  isValid : bool;
  errors : list string
}.

(** [validateAudio]: the three checks push their message in this order. *)
Definition validateAudio (config : AudioProcessorConfig) (audioBlob : Blob)
  : ValidationResult :=
  let errors0 : list string := [] in
  let errors1 :=
    if maxFileSize config <? size audioBlob
    then errors0 ++ [("Audio file too large: " ++ pretty (size audioBlob)
                      ++ " bytes (max: " ++ pretty (maxFileSize config) ++ ")")%string]
    else errors0 in
  let errors2 :=
    if size audioBlob <? 1024
    then errors1 ++ ["Audio file too small, may be empty or corrupted"%string]
    else errors1 in
  let errors3 :=
    if negb (isSupportedAudioType (blob_type audioBlob))
    then errors2 ++ [("Unsupported audio type: " ++ blob_type audioBlob)%string]
    else errors2 in
  {| isValid := (Z.of_nat (length errors3) =? 0); errors := errors3 |}.

(** [Math.max(a, b)] on Numbers: NaN when the two cannot be compared; of two
    zeros the positive one. *)
Definition Math_max (a b : float) : float :=
  match PrimFloat.compare a b with
  | FLt => b
  | FGt => a
  | FEq => if PrimFloat.get_sign a then b else a
  | FNotComparable => nan
  end.

(** [getAudioDuration]: the size in bits over the configured bitrate, at
    least a tenth of a second. *)
Definition getAudioDuration (config : AudioProcessorConfig) (audioBlob : Blob) : float :=
  let estimatedDuration :=
    (Number_of_Z (size audioBlob) * 8 / (targetBitrate config * 1000))%float in
  Math_max 0.1 estimatedDuration.

(** [AudioUtils.shouldCompressAudio] *)
Definition shouldCompressAudio (audioSize : Z) (networkQuality : NetworkQuality) : bool :=
  let threshold :=
    match networkQuality with
    | poor => 100 * 1024
    | fair => 500 * 1024
    | good => 1024 * 1024
    end in
  threshold <? audioSize.

End AudioChecks.

(* ===================================================================== *)
(** ** Further methods of the text-to-speech service *)
(* ===================================================================== *)

Module TextToSpeechOps.
Import Js TextToSpeech.
Import AudioProcessor (CompressionLevel, L1, L2, L3, L4, L5, L6, L7, L8, L9, L10,
                       AudioFormat, wav, mp3, ogg, webm).

Local Open Scope js_scope.

(** A Number from an integer of either sign (magnitude below 2^63). *)
Definition Number_of_int (z : Z) : float :=
  if z <? 0 then (- Number_of_Z (- z))%float else Number_of_Z z.

(** [Math.floor] as a Number: NaN, the infinities, the zeros and the values
    without a fractional part are returned as they are. *)
Definition Math_floor_Number (x : float) : float :=
  match Prim2SF x with
  | S754_finite _ _ e => if 0 <=? e then x else Number_of_int (Math_floor x)
  | _ => x
  end.

(** [getCompressionRatio]: [ratios[quality - 1]]. *)
Definition getCompressionRatio (quality : CompressionLevel) : float :=
  match quality with
  | L1 => 0.3 | L2 => 0.4 | L3 => 0.5 | L4 => 0.6 | L5 => 0.7
  | L6 => 0.75 | L7 => 0.8 | L8 => 0.85 | L9 => 0.9 | L10 => 0.95
  end.

(** [simulateAudioCompression]: [data.slice(0, Math.floor(data.length * ratio))] *)
Definition simulateAudioCompression (bytes : list Byte.byte) (ratio : float)
  : list Byte.byte :=
  let targetSize := Math_floor (Number_of_Z (Z.of_nat (length bytes)) * ratio)%float in
  take (Z.to_nat targetSize) bytes.

(** [TextToSpeechServiceImpl.compressAudio] *)
Definition compressAudio (this : Impl) (audioBlob : AudioBlob) (quality : CompressionLevel)
  : AudioBlob :=
  if negb (enableCompression (config this)) then audioBlob
  else
    let compressionRatio := getCompressionRatio quality in
    let targetSampleRate := Math_floor_Number (ab_sampleRate audioBlob * compressionRatio)%float in
    let compressedData := simulateAudioCompression (data audioBlob) compressionRatio in
    {| data := compressedData;
       format := match format audioBlob with wav => mp3 | other => other end;
       duration := duration audioBlob;
       ab_sampleRate := targetSampleRate |}.

(** [supportedLanguages.some(lang => localEngine.isLanguageSupported(lang))]:
    the engine is asked language by language until it supports one. *)
Fixpoint someSupported (this : Impl) (languages : list LanguageCode) : Synth bool :=
  match languages with
  | [] => ret false
  | language :: rest =>
      await supported <- invoke (LocalIsLanguageSupported language)
                           (Ok (isLanguageSupported (localEngine this) language));;
      if supported then ret true else someSupported this rest
  end.

(** [TextToSpeechServiceImpl.isAvailable] *)
Definition isAvailable (this : Impl) : Synth bool :=
  await localAvailable <- someSupported this (supportedLanguages this);;
  await cloudAvailable <-
    (if enableCloudTTS (config this)
     then invoke CloudIsAvailable (Ok (c_isAvailable (cloudProvider this)))
     else ret false);;
  ret (localAvailable || cloudAvailable).

(** [TextToSpeechServiceImpl.getAvailableVoices] *)
Definition getAvailableVoices (this : Impl) (language : LanguageCode)
  : Synth (list VoiceProfile) :=
  await localSupported <- invoke (LocalIsLanguageSupported language)
                            (Ok (isLanguageSupported (localEngine this) language));;
  await localVoices <-
    (if localSupported
     then invoke (LocalGetAvailableVoices language)
                 (Ok (l_getAvailableVoices (localEngine this) language))
     else ret []);;
  await cloudUsable <-
    (if enableCloudTTS (config this)
     then invoke CloudIsAvailable (Ok (c_isAvailable (cloudProvider this)))
     else ret false);;
  await cloudVoices <-
    (if cloudUsable
     then invoke (CloudGetAvailableVoices language)
                 (Ok (c_getAvailableVoices (cloudProvider this) language))
     else ret []);;
  ret (localVoices ++ cloudVoices).

(** [stripSSMLTags]: [ssmlText.replace(/<[^>]*>/g, '')].  A tag runs from a
    [<] to the first [>] after it; [pending] holds the characters read since
    the [<] of a tag that is not closed yet, which stay in the text when no
    [>] follows. *)
Fixpoint stripFrom (pending : option (list N)) (s : JsString) : JsString :=
  match s with
  | [] => match pending with Some kept => kept | None => [] end
  | c :: s' =>
      match pending with
      | Some kept =>
          if (c =? 62)%N then stripFrom None s'
          else stripFrom (Some (kept ++ [c])) s'
      | None =>
          if (c =? 60)%N then stripFrom (Some [c]) s'
          else c :: stripFrom None s'
      end
  end.

Definition stripSSMLTags (ssmlText : JsString) : JsString := stripFrom None ssmlText.

(** [synthesizeWithSSML] *)
Definition synthesizeWithSSML (this : Impl) (ssmlText : JsString)
    (language : LanguageCode) (voice : option VoiceProfile) : Synth AudioBlob :=
  synthesize this (stripSSMLTags ssmlText) language voice.

(** [interface TextToSpeechService], as far as the voice interface uses it. *)
Record TextToSpeechService : Type := mkTextToSpeechService {
  tts_synthesize : JsString -> LanguageCode -> option VoiceProfile -> Synth AudioBlob;
  tts_isAvailable : Synth bool
}.

(** A [TextToSpeechServiceImpl] seen through the interface. *)
Definition serviceOf (this : Impl) : TextToSpeechService :=
  {| tts_synthesize := synthesize this;
     tts_isAvailable := isAvailable this |}.

(** *** Services for the examples *)

(** A local engine without any voice model. *)
Definition noLocalVoices : LocalTTSEngine :=
  {| isLanguageSupported := fun _ => false;
     l_synthesize := fun _ language _ =>
       Throw (Error ("Local TTS does not support language: " ++ language));
     l_getAvailableVoices := fun _ => [] |}.

(** The default service with that engine; no cloud key is configured. *)
Definition withoutEngines : Impl :=
  {| config := defaultConfig;
     localEngine := noLocalVoices;
     cloudProvider := CloudTTSProviderImpl (fun _ _ _ => []) defaultConfig;
     supportedLanguages := ["en"; "hi"; "ta"; "te"; "bn"]%string |}.

(** The default configuration with a cloud key. *)
Definition cloudConfig : TTSConfig :=
  {| preferLocalTTS := true;
     enableCloudTTS := true;
     defaultVoiceProfile := defaultVoiceProfile defaultConfig;
     audioFormat := wav;
     sampleRate := 22050;
     enableCompression := true;
     cloudTTSApiKey := Some "key"%string;
     cloudTTSEndpoint := None |}.

End TextToSpeechOps.

(* ===================================================================== *)
(** ** Further methods of the voice interface *)
(* ===================================================================== *)

Module VoiceInterfaceOps.
Import Js VoiceInterface.
Import AudioProcessor (Blob).

Local Open Scope js_scope.

(** The session an operation is addressed to, if any. *)
Definition addressee (op : Operation) : option string :=
  match op with
  | OpSetContext sid _ _ => Some sid
  | OpClearContext sid => Some sid
  | OpSwitchInputMode sid _ => Some sid
  | OpMarkFallbackSuggested sid => Some sid
  | OpCleanupExpiredContexts => None
  | OpConvertSpeechToText _ _ _ sid => sid
  | OpProcessTextInput _ sid _ => Some sid
  end.

(** [isVoiceInputAvailable]: the availability the injected service reports,
    unless voice input is disabled. *)
Definition isVoiceInputAvailable (config : VoiceInterfaceConfig)
    (sttService : SpeechToTextService) : bool :=
  if negb (enableVoiceInput config) then false
  else match sttService with
       | ServiceImpl impl =>
           match fst (SpeechToText.serviceIsAvailable impl []) with
           | Ok available => available
           | Throw _ => false
           end
       | ServiceOther _ available _ => available
       end.

(** [Math.round] as an integer, for a finite Number: the nearest integer,
    a tie going up. *)
Definition Math_round (x : float) : Z :=
  match Prim2SF x with
  | S754_finite s m e =>
      let n := if s then Z.neg m else Z.pos m in
      if 0 <=? e then n * 2 ^ e
      else (2 * n + 2 ^ (- e)) / 2 ^ (- e + 1)
  | _ => 0
  end.

(** The value returned by [getContextStats]. *)
Record ContextStats : Type := mkContextStats {
  totalSessions : Z;
  activeSessions : Z;
  averageInteractionsPerSession : float;
  voiceModeSessions : Z;
  textModeSessions : Z
}.

Definition count (p : VoiceContext -> bool) (cs : list VoiceContext) : Z :=
  Z.of_nat (length (List.filter p cs)).

(** [getContextStats]: the counts over [Array.from(this.contexts.values())];
    a session is active when its last interaction is less than five minutes
    before the clock reading. *)
Definition getContextStats (clock : nat -> Z) : VI ContextStats :=
  await now <- new_Date clock;;
  fun st =>
    let values := List.map snd (map_to_list (contexts st)) in
    let activeThresholdMs := 5 * 60 * 1000 in
    let total := fold_left (fun sum c => sum + totalInteractions c) values 0 in
    let average :=
      if 0 <? Z.of_nat (length values)
      then (TextToSpeechOps.Number_of_int total
            / Number_of_Z (Z.of_nat (length values)))%float
      else 0%float in
    (Ok {| totalSessions := Z.of_nat (length values);
           activeSessions :=
             count (fun c => now - lastInteraction c <? activeThresholdMs) values;
           averageInteractionsPerSession :=
             (TextToSpeechOps.Number_of_int (Math_round (average * 100)) / 100)%float;
           voiceModeSessions := count (fun c => InputMode_eqb (inputMode c) voice) values;
           textModeSessions := count (fun c => InputMode_eqb (inputMode c) text) values |},
     st).

(** [VoiceInterfaceImpl.compressAudio] *)
Definition compressAudio (config : VoiceInterfaceConfig) (sttService : SpeechToTextService)
    (audioBlob : Blob) (quality : AudioProcessor.CompressionLevel) : Blob :=
  if negb (audioCompression config) then audioBlob
  else match sttService with
       | ServiceImpl impl => SpeechToTextOps.compressAudio impl audioBlob quality
       | ServiceOther _ _ _ => audioBlob
       end.

(** [convertTextToSpeech]: the error of the service is thrown again as it
    is. *)
Definition convertTextToSpeech (config : VoiceInterfaceConfig)
    (ttsService : TextToSpeechOps.TextToSpeechService) (textInput : JsString)
    (language : LanguageCode) (voiceProfile : option TextToSpeech.VoiceProfile)
  : TextToSpeech.Synth TextToSpeech.AudioBlob :=
  if negb (enableVoiceOutput config) then throw (Error "Voice output is disabled")
  else
    try_catch
      (TextToSpeechOps.tts_synthesize ttsService textInput language voiceProfile)
      (fun error => throw error).

(** [isVoiceOutputAvailable] *)
Definition isVoiceOutputAvailable (config : VoiceInterfaceConfig)
    (ttsService : TextToSpeechOps.TextToSpeechService) : TextToSpeech.Synth bool :=
  if negb (enableVoiceOutput config) then ret false
  else TextToSpeechOps.tts_isAvailable ttsService.


(** The default configuration with [{ enableVoiceOutput: false }]. *)
Definition outputDisabled : VoiceInterfaceConfig :=
  {| enableVoiceInput := true;
     enableVoiceOutput := false;
     fallbackToText := true;
     preserveContext := true;
     audioCompression := true;
     defaultLanguage := "hi";
     maxFailuresBeforeFallback := 2;
     contextTimeoutMinutes := 30 |}.

End VoiceInterfaceOps.

(* ===================================================================== *)
(** * Verified properties *)
(* ===================================================================== *)

(** ** Audio compression *)

Section AudioCompression.
Import Js AudioProcessor.






(** The level-1 target: 8 kbps over ten seconds is 10000 bytes; the
    level-10 target is 400000 bytes. *)
Lemma getTargetSize_L1 : getTargetSize L1 = Number_of_Z 10000.
Proof. vm_compute. reflexivity. Qed.

Lemma getTargetSize_L10 : getTargetSize L10 = Number_of_Z 400000.
Proof. vm_compute. reflexivity. Qed.

(** With KB read as 1000 bytes the level-1 output meets the target exactly
    when the blob can be read; when it cannot, the 100000 bytes come back. *)
Example compress_level1_100000_bytes :
  compressedSize defaultConfig false 100000 L1 = 10000
  /\ compressedSize defaultConfig true 100000 L1 = 100000.
Proof. split; vm_compute; reflexivity. Qed.

End AudioCompression.




(** ** Recognition cascade *)

Ltac unfold_monad :=
  unfold try_catch, bind, ret, throw, modify in *.

Section RecognitionCascade.
Import SpeechToText.

(** The calls a run of [transcribe] adds to the log. *)
Lemma transcribe_cloud_path this audio language log result :
  isAvailable (cloudService this) = true ->
  b_transcribe (cloudService this) audio language = Ok result ->
  (confidenceThreshold (config this) <=? confidence result)%float = true ->
  transcribe this audio language log
  = (Ok result, log ++ [CloudIsAvailable; CloudTranscribe audio language]).
Proof.
  intros Havailable Hresult Hconfident.
  unfold transcribe, invoke. unfold_monad.
  rewrite Havailable, Hresult. cbn. rewrite Hconfident.
  rewrite <- app_assoc. reflexivity.
Qed.

Lemma transcribe_offline_path this audio language log :
  isAvailable (cloudService this) = false ->
  fallbackToOffline (config this) = true ->
  isAvailable (whisperService this) = true ->
  transcribe this audio language log
  = (b_transcribe (whisperService this) audio language,
     log ++ [CloudIsAvailable; WhisperIsAvailable; WhisperTranscribe audio language]).
Proof.
  intros Hcloud Hfallback Hwhisper.
  unfold transcribe, invoke. unfold_monad.
  rewrite Hcloud, Hfallback. cbn. rewrite Hwhisper.
  destruct (b_transcribe (whisperService this) audio language);
    rewrite <- !app_assoc; reflexivity.
Qed.

Lemma transcribe_nothing_usable this audio language log :
  isAvailable (cloudService this) = false ->
  fallbackToOffline (config this) && isAvailable (whisperService this) = false ->
  transcribe this audio language log
  = (Throw (Error "No STT service available"),
     log ++ CloudIsAvailable ::
       (if fallbackToOffline (config this) then [WhisperIsAvailable] else [])).
Proof.
  intros Hcloud Hnone.
  unfold transcribe, invoke. unfold_monad.
  rewrite Hcloud.
  destruct (fallbackToOffline (config this)); cbn in *.
  - rewrite Hnone. rewrite <- app_assoc. reflexivity.
  - reflexivity.
Qed.

End RecognitionCascade.

(** C1: when the cloud backend reports available and the confidence of its
    transcription is at least the configured threshold, [transcribe] returns
    exactly that transcription; the only backend calls it makes are the
    availability check and the transcription of the cloud backend, so the
    offline Whisper backend is not invoked (the log gains no Whisper call). *)
Theorem transcribe_cloud_result_accepted :
  forall (this : SpeechToText.Impl) (audio : AudioProcessor.Blob)
         (language : option LanguageCode) (log : list SpeechToText.BackendCall)
         (result : TranscriptionResult),
    SpeechToText.isAvailable (SpeechToText.cloudService this) = true ->
    SpeechToText.b_transcribe (SpeechToText.cloudService this) audio language = Ok result ->
    (SpeechToText.confidenceThreshold (SpeechToText.config this)
       <=? confidence result)%float = true ->
    SpeechToText.transcribe this audio language log
    = (Ok result,
       log ++ [SpeechToText.CloudIsAvailable; SpeechToText.CloudTranscribe audio language])
    /\ List.filter SpeechToText.isWhisperCall
         (snd (SpeechToText.transcribe this audio language log))
       = List.filter SpeechToText.isWhisperCall log.
Proof.
  intros this audio language log result Havailable Hresult Hconfident.
  rewrite (transcribe_cloud_path this audio language log result) by assumption.
  split; [reflexivity|].
  cbn [snd]. rewrite List.filter_app. cbn. apply app_nil_r.
Qed.

Lemma transcribe_cloud_result_accepted_witness :
  SpeechToText.transcribe
    (SpeechToText.new AudioProcessor.nodeFileReader SpeechToText.defaultConfig)
    VoiceInterface.sampleAudio (Some "en"%string) []
  = (SpeechToText.b_transcribe
       (SpeechToText.CloudSTTService SpeechToText.defaultConfig)
       VoiceInterface.sampleAudio (Some "en"%string),
     [SpeechToText.CloudIsAvailable;
      SpeechToText.CloudTranscribe VoiceInterface.sampleAudio (Some "en"%string)])
  /\ List.filter SpeechToText.isWhisperCall
       (snd (SpeechToText.transcribe
               (SpeechToText.new AudioProcessor.nodeFileReader SpeechToText.defaultConfig)
               VoiceInterface.sampleAudio (Some "en"%string) []))
     = [].
Proof.
  apply (transcribe_cloud_result_accepted
           (SpeechToText.new AudioProcessor.nodeFileReader SpeechToText.defaultConfig)
           VoiceInterface.sampleAudio (Some "en"%string) []).
  - reflexivity.
  - reflexivity.
  - vm_compute. reflexivity.
Defined.

(** C2, as stated, fails: with [fallbackToOffline] switched off, an
    unreachable cloud backend and an available Whisper backend that supports
    Hindi, [transcribe] throws "No STT service available" and never asks
    Whisper, whose transcription would have succeeded where the blob can be
    read.  Under Node.js it throws the same error, again without asking
    Whisper. *)
Lemma transcribe_fallback_switched_off :
  SpeechToText.isAvailable
    (SpeechToText.cloudService
       (SpeechToText.offlineDisabled AudioProcessor.browserFileReader)) = false /\
  SpeechToText.isAvailable
    (SpeechToText.whisperService
       (SpeechToText.offlineDisabled AudioProcessor.browserFileReader)) = true /\
  In "hi"%string
     (SpeechToText.getSupportedLanguages
        (SpeechToText.whisperService
           (SpeechToText.offlineDisabled AudioProcessor.browserFileReader))) /\
  is_Throw (SpeechToText.b_transcribe
              (SpeechToText.whisperService
                 (SpeechToText.offlineDisabled AudioProcessor.browserFileReader))
              VoiceInterface.sampleAudio (Some "hi"%string)) = false /\
  SpeechToText.transcribe (SpeechToText.offlineDisabled AudioProcessor.browserFileReader)
    VoiceInterface.sampleAudio (Some "hi"%string) []
  = (Throw (Error "No STT service available"), [SpeechToText.CloudIsAvailable]) /\
  SpeechToText.transcribe (SpeechToText.offlineDisabled AudioProcessor.nodeFileReader)
    VoiceInterface.sampleAudio (Some "hi"%string) []
  = (Throw (Error "No STT service available"), [SpeechToText.CloudIsAvailable]).
Proof.
  repeat split; try reflexivity.
  cbn. right. left. reflexivity.
Qed.

(** C2, amended: when the cloud backend is unavailable, [transcribe] returns
    the outcome of the Whisper backend whenever [fallbackToOffline] is enabled
    and Whisper reports available (whatever the language: the cascade does not
    consult the supported set); when the fallback is switched off or Whisper
    is unavailable it throws "No STT service available" without asking any
    backend for a transcription.  Either way the outcome is a complete
    backend result or an error. *)
Theorem transcribe_cloud_unavailable :
  forall (this : SpeechToText.Impl) (audio : AudioProcessor.Blob)
         (language : option LanguageCode) (log : list SpeechToText.BackendCall),
    SpeechToText.isAvailable (SpeechToText.cloudService this) = false ->
    (SpeechToText.fallbackToOffline (SpeechToText.config this) = true ->
     SpeechToText.isAvailable (SpeechToText.whisperService this) = true ->
     SpeechToText.transcribe this audio language log
     = (SpeechToText.b_transcribe (SpeechToText.whisperService this) audio language,
        log ++ [SpeechToText.CloudIsAvailable; SpeechToText.WhisperIsAvailable;
                SpeechToText.WhisperTranscribe audio language]))
    /\
    (SpeechToText.fallbackToOffline (SpeechToText.config this)
       && SpeechToText.isAvailable (SpeechToText.whisperService this) = false ->
     SpeechToText.transcribe this audio language log
     = (Throw (Error "No STT service available"),
        log ++ SpeechToText.CloudIsAvailable ::
          (if SpeechToText.fallbackToOffline (SpeechToText.config this)
           then [SpeechToText.WhisperIsAvailable] else [])))
    /\
    (fst (SpeechToText.transcribe this audio language log)
     = SpeechToText.b_transcribe (SpeechToText.whisperService this) audio language
     \/ fst (SpeechToText.transcribe this audio language log)
        = Throw (Error "No STT service available")).
Proof.
  intros this audio language log Hcloud.
  split; [|split].
  - intros Hfallback Hwhisper. apply transcribe_offline_path; assumption.
  - intros Hnone. apply transcribe_nothing_usable; assumption.
  - destruct (SpeechToText.fallbackToOffline (SpeechToText.config this)
              && SpeechToText.isAvailable (SpeechToText.whisperService this)) eqn:Husable.
    + apply andb_true_iff in Husable as [Hfallback Hwhisper].
      left. rewrite transcribe_offline_path by assumption. reflexivity.
    + right. rewrite transcribe_nothing_usable by assumption. reflexivity.
Qed.

Lemma transcribe_cloud_unavailable_witness :
  SpeechToText.transcribe (SpeechToText.cloudDown AudioProcessor.browserFileReader)
    VoiceInterface.sampleAudio (Some "hi"%string) []
  = (SpeechToText.b_transcribe
       (SpeechToText.WhisperSTTService AudioProcessor.browserFileReader)
       VoiceInterface.sampleAudio (Some "hi"%string),
     [SpeechToText.CloudIsAvailable; SpeechToText.WhisperIsAvailable;
      SpeechToText.WhisperTranscribe VoiceInterface.sampleAudio (Some "hi"%string)]).
Proof.
  destruct (transcribe_cloud_unavailable
              (SpeechToText.cloudDown AudioProcessor.browserFileReader)
              VoiceInterface.sampleAudio (Some "hi"%string) [] eq_refl)
    as [Hoffline _].
  apply Hoffline; reflexivity.
Defined.

(** Under Node.js the offline path is taken as well, and what comes back is
    Whisper's failure to read the blob. *)
Example transcribe_offline_under_node :
  SpeechToText.transcribe (SpeechToText.cloudDown AudioProcessor.nodeFileReader)
    VoiceInterface.sampleAudio (Some "hi"%string) []
  = (Throw (Error "Offline speech recognition failed"),
     [SpeechToText.CloudIsAvailable; SpeechToText.WhisperIsAvailable;
      SpeechToText.WhisperTranscribe VoiceInterface.sampleAudio (Some "hi"%string)]).
Proof. reflexivity. Qed.

(** ** Validation of text input *)

Section TextValidation.
Import Js.

Lemma trimStart_whitespaceOnly text :
  whitespaceOnly text = true -> trimStart text = [].
Proof.
  unfold whitespaceOnly.
  induction text as [|c text IH]; cbn; [reflexivity|].
  intros Hall. apply andb_true_iff in Hall as [Hc Hrest].
  rewrite Hc. apply IH, Hrest.
Qed.

(** Empty and white-space-only texts are exactly the blank ones for the
    test [!text || text.trim().length === 0]. *)
Lemma whitespaceOnly_isBlank text :
  whitespaceOnly text = true -> isBlank text = true.
Proof.
  intros Hall. unfold isBlank, trim, trimEnd.
  rewrite (trimStart_whitespaceOnly text Hall). cbn.
  apply orb_true_r.
Qed.

Lemma trimStart_nil_whitespaceOnly text :
  trimStart text = [] -> whitespaceOnly text = true.
Proof.
  unfold whitespaceOnly.
  induction text as [|c text IH]; cbn; [reflexivity|].
  destruct (isWhiteSpace c); [exact IH | discriminate].
Qed.

Lemma whitespaceOnly_trimStart text :
  whitespaceOnly (trimStart text) = true -> whitespaceOnly text = true.
Proof.
  unfold whitespaceOnly.
  induction text as [|c text IH]; cbn; [reflexivity|].
  destruct (isWhiteSpace c) eqn:Hc; [exact IH|].
  cbn. rewrite Hc. discriminate.
Qed.

Lemma isBlank_whitespaceOnly text :
  isBlank text = true -> whitespaceOnly text = true.
Proof.
  unfold isBlank, trim, trimEnd. intros Hblank.
  apply orb_true_iff in Hblank as [Hempty | Hlength].
  - destruct text; [reflexivity | discriminate].
  - apply Z.eqb_eq in Hlength.
    assert (Hnil : rev (trimStart (rev (trimStart text))) = []).
    { destruct (rev (trimStart (rev (trimStart text)))); [reflexivity | cbn in Hlength; lia]. }
    apply (f_equal (@rev N)) in Hnil. rewrite rev_involutive in Hnil. cbn in Hnil.
    apply trimStart_nil_whitespaceOnly in Hnil.
    apply whitespaceOnly_trimStart.
    unfold whitespaceOnly in *.
    rewrite forallb_forall in *. intros c Hc. apply Hnil.
    apply in_rev. rewrite rev_involutive. exact Hc.
Qed.

End TextValidation.

(** The blank texts are exactly the empty and white-space-only ones. *)
Lemma isBlank_eq_whitespaceOnly text :
  Js.isBlank text = Js.whitespaceOnly text.
Proof.
  destruct (Js.whitespaceOnly text) eqn:Hwhite.
  - apply whitespaceOnly_isBlank, Hwhite.
  - destruct (Js.isBlank text) eqn:Hblank; [|reflexivity].
    apply isBlank_whitespaceOnly in Hblank. congruence.
Qed.

(** C8: [synthesize] rejects an empty or white-space-only text ("Text cannot be
    empty") and, for other texts, a language outside the service's supported
    languages ("Language ... is not supported") with a validation error thrown
    before the cascade starts: no call reaches the local engine or the cloud
    provider (the call log is unchanged). *)
Theorem synthesize_rejects_invalid_input :
  forall (this : TextToSpeech.Impl) (text : Js.JsString) (language : LanguageCode)
         (voice : option TextToSpeech.VoiceProfile)
         (log : list TextToSpeech.EngineCall),
    Js.whitespaceOnly text = true
    \/ TextToSpeech.includes (TextToSpeech.supportedLanguages this) language = false ->
    TextToSpeech.synthesize this text language voice log
    = (Throw (Error (if Js.whitespaceOnly text
                     then "Text cannot be empty"
                     else "Language " ++ language ++ " is not supported")%string),
       log).
Proof.
  intros this text language voice log Hinvalid.
  unfold TextToSpeech.synthesize.
  rewrite isBlank_eq_whitespaceOnly.
  destruct (Js.whitespaceOnly text); [reflexivity|].
  destruct Hinvalid as [Hwhite | Hunsupported]; [discriminate|].
  rewrite Hunsupported. reflexivity.
Qed.

Lemma synthesize_rejects_invalid_input_witness :
  TextToSpeech.synthesize TextToSpeech.sampleService [] "en"%string None []
  = (Throw (Error "Text cannot be empty"), []).
Proof.
  apply (synthesize_rejects_invalid_input TextToSpeech.sampleService [] "en"%string None []).
  left. reflexivity.
Defined.

(** A language the service does not list is rejected in the same way. *)
Example synthesize_rejects_french :
  TextToSpeech.synthesize TextToSpeech.sampleService (Js.text_of "Bonjour") "fr"%string None []
  = (Throw (Error "Language fr is not supported"), []).
Proof. reflexivity. Qed.

(** ** Session orchestrator *)

Section Orchestrator.
Import Js VoiceInterface.
Variable clock : nat -> Z.
Variable config : VoiceInterfaceConfig.

Lemma updateContextOnFailure_absent sid mode st :
  contexts st !! sid = None ->
  updateContextOnFailure clock config sid mode st = (Ok (noSuggestion 0), st).
Proof.
  intros Hnone. unfold updateContextOnFailure, contexts_get. unfold_monad.
  rewrite Hnone. reflexivity.
Qed.

Lemma updateContextOnFailure_present sid mode st context :
  contexts st !! sid = Some context ->
  exists fs context',
    updateContextOnFailure clock config sid mode st
    = (Ok fs, {| contexts := <[sid := context']> (contexts st);
                 ticks := S (S (ticks st)); calls := calls st |})
    /\ shouldSuggestFallback fs = suggests config mode context
    /\ failureCount context' = failureCount context + 1
    /\ fallbackSuggested context' = fallbackSuggested context || suggests config mode context
    /\ inputMode context' = inputMode context
    /\ currentLanguage context' = currentLanguage context
    /\ totalInteractions context' = totalInteractions context + 1
    /\ conversationHistory context'
       = slice_last 10
           (conversationHistory context
            ++ [ {| timestamp := clock (S (ticks st)); h_inputMode := mode;
                    success := false; h_language := currentLanguage context |} ]).
Proof.
  intros Hsome.
  unfold updateContextOnFailure, contexts_get, contexts_set, new_Date. unfold_monad.
  rewrite Hsome. cbn.
  fold (suggests config mode context).
  destruct (suggests config mode context) eqn:Hs.
  - eexists _, _. split; [reflexivity|]. cbn.
    rewrite orb_true_r. repeat split; reflexivity.
  - eexists _, _. split; [reflexivity|]. cbn.
    rewrite orb_false_r. repeat split; reflexivity.
Qed.

Lemma updateContextOnSuccess_absent sid language mode st :
  contexts st !! sid = None ->
  updateContextOnSuccess clock config sid language mode st = (Ok tt, st).
Proof.
  intros Hnone. unfold updateContextOnSuccess, contexts_get. unfold_monad.
  destruct (negb (preserveContext config)); [reflexivity|].
  cbv beta. rewrite Hnone. reflexivity.
Qed.

Lemma updateContextOnSuccess_present sid language mode st context :
  contexts st !! sid = Some context ->
  preserveContext config = true ->
  exists context',
    updateContextOnSuccess clock config sid language mode st
    = (Ok tt, {| contexts := <[sid := context']> (contexts st);
                 ticks := S (S (ticks st)); calls := calls st |})
    /\ failureCount context' = 0
    /\ fallbackSuggested context' = fallbackSuggested context
    /\ inputMode context' = inputMode context
    /\ currentLanguage context' = language
    /\ totalInteractions context' = totalInteractions context + 1
    /\ conversationHistory context'
       = slice_last 10
           (conversationHistory context
            ++ [ {| timestamp := clock (S (ticks st)); h_inputMode := mode;
                    success := true; h_language := language |} ]).
Proof.
  intros Hsome Hpreserve.
  unfold updateContextOnSuccess, contexts_get, contexts_set, new_Date. unfold_monad.
  rewrite Hpreserve. cbv beta iota. cbn [negb]. cbv beta iota. rewrite Hsome. cbn.
  eexists. split; [reflexivity|]. cbn. repeat split; reflexivity.
Qed.

Lemma updateContextOnSuccess_disabled sid language mode st :
  preserveContext config = false ->
  updateContextOnSuccess clock config sid language mode st = (Ok tt, st).
Proof.
  intros Hpreserve. unfold updateContextOnSuccess. rewrite Hpreserve. reflexivity.
Qed.

(** [detectLanguage] never throws: it yields the language part of
    [targetLanguage] and logs at most a detection call. *)
Lemma resolve_language sttService audio language st :
  (if opt_truthy language then ret (or_else language "")
   else detectLanguage config sttService audio) st
  = (Ok (targetLanguage config sttService audio language),
     advance 0
       (if opt_truthy language then []
        else match sttService with
             | ServiceImpl _ => [SttDetectLanguage audio]
             | ServiceOther _ _ _ => []
             end) st).
Proof.
  unfold targetLanguage, advance, detectLanguage, log_call, liftService. unfold_monad.
  destruct st as [ctxs n cs]. cbn.
  destruct (opt_truthy language); cbn.
  - rewrite app_nil_r. reflexivity.
  - destruct sttService as [impl|f a l]; cbn.
    + destruct (fst (SpeechToText.detectLanguage impl audio [])); reflexivity.
    + rewrite app_nil_r. reflexivity.
Qed.

(** A call whose recognition fails: the clock is read twice, the calls are
    logged, and the failure update decides which error is thrown. *)
Lemma convertSpeechToText_failure sttService audio language sid st error :
  enableVoiceInput config = true ->
  serviceOutcome sttService audio
    (Some (targetLanguage config sttService audio language)) = Throw error ->
  convertSpeechToText clock config sttService audio language sid st
  = let st1 := advance 2 (attemptCalls config sttService audio language) st in
    if opt_truthy sid then
      let r := updateContextOnFailure clock config (or_else sid "") voice st1 in
      match fst r with
      | Ok fs =>
          if shouldSuggestFallback fs
          then (Throw (VoiceInputError (fallbackMessage (fs_failureCount fs)) true (Some fs)),
                snd r)
          else (Throw (PlainError error), snd r)
      | Throw e => (Throw e, snd r)
      end
    else (Throw (PlainError error), st1).
Proof.
  intros Henabled Hfails.
  unfold convertSpeechToText. rewrite Henabled. cbn [negb].
  unfold bind at 1. unfold new_Date at 1.
  unfold try_catch. unfold bind at 1.
  rewrite resolve_language.
  unfold bind at 1. unfold stt_transcribe, log_call, liftService.
  unfold bind at 1. unfold modify. rewrite Hfails.
  cbn [advance contexts ticks calls fst snd].
  unfold bind at 1. unfold new_Date at 1. cbn [contexts ticks calls].
  unfold attemptCalls, advance. rewrite <- !app_assoc. cbn [Nat.add].
  destruct (opt_truthy sid); [|reflexivity].
  unfold bind at 1. unfold bind at 1.
  match goal with |- context [updateContextOnFailure ?c ?g ?s ?m ?x] =>
    destruct (updateContextOnFailure c g s m x) as [[fs|e] st3] end; cbn; [|reflexivity].
  destruct (shouldSuggestFallback fs); reflexivity.
Qed.

(** A call whose recognition succeeds. *)
Lemma convertSpeechToText_success sttService audio language sid st result :
  enableVoiceInput config = true ->
  serviceOutcome sttService audio
    (Some (targetLanguage config sttService audio language)) = Ok result ->
  convertSpeechToText clock config sttService audio language sid st
  = let st1 := advance 1 (attemptCalls config sttService audio language) st in
    (Ok result,
     advance 1 []
       (if opt_truthy sid
        then snd (updateContextOnSuccess clock config (or_else sid "")
                    (targetLanguage config sttService audio language) voice st1)
        else st1)).
Proof.
  intros Henabled Hworks.
  unfold convertSpeechToText. rewrite Henabled. cbn [negb].
  unfold bind at 1. unfold new_Date at 1.
  unfold try_catch. unfold bind at 1.
  rewrite resolve_language.
  unfold bind at 1. unfold stt_transcribe, log_call, liftService.
  unfold bind at 1. unfold modify. rewrite Hworks.
  cbn [advance contexts ticks calls fst snd].
  unfold attemptCalls, advance. rewrite <- !app_assoc. cbn [Nat.add].
  destruct (opt_truthy sid).
  - unfold bind at 1.
    match goal with |- context [updateContextOnSuccess ?c ?g ?s ?l ?m ?x] =>
      assert (Hok : fst (updateContextOnSuccess c g s l m x) = Ok tt);
      [| destruct (updateContextOnSuccess c g s l m x) as [r st2] ] end.
    { unfold updateContextOnSuccess, contexts_get, contexts_set, new_Date. unfold_monad.
      destruct (negb (preserveContext config)); [reflexivity|]. cbv beta.
      match goal with |- context [match ?o with Some _ => _ | None => _ end] =>
        destruct o end; reflexivity. }
    cbn in Hok. subst r. cbn. rewrite app_nil_r. reflexivity.
  - cbn. rewrite app_nil_r. reflexivity.
Qed.

(** With voice input enabled a call fails exactly when the service fails. *)
Lemma convertSpeechToText_fails_iff sttService audio language sid st :
  enableVoiceInput config = true ->
  is_Throw (fst (convertSpeechToText clock config sttService audio language sid st))
  = is_Throw (serviceOutcome sttService audio
                (Some (targetLanguage config sttService audio language))).
Proof.
  intros Henabled.
  destruct (serviceOutcome sttService audio
              (Some (targetLanguage config sttService audio language))) as [r|e] eqn:Hout.
  - rewrite (convertSpeechToText_success _ _ _ _ _ r); [reflexivity | assumption..].
  - rewrite (convertSpeechToText_failure _ _ _ _ _ e); [| assumption..].
    cbv zeta. destruct (opt_truthy sid); [|reflexivity].
    match goal with |- context [updateContextOnFailure ?c ?g ?s ?m ?x] =>
      destruct (updateContextOnFailure c g s m x) as [[fs|e'] st3] end; cbn; [|reflexivity].
    destruct (shouldSuggestFallback fs); reflexivity.
Qed.

Lemma truthy_or_else sid : truthy sid = true -> or_else (Some sid) "" = sid.
Proof. intros H. cbn. rewrite H. reflexivity. Qed.

(** A failing call on a session that has a context: the context counts the
    failure, and the error recommends the fallback exactly when [suggests]. *)
Lemma convertSpeechToText_failure_present sttService audio language sid st context error :
  enableVoiceInput config = true ->
  truthy sid = true ->
  contexts st !! sid = Some context ->
  serviceOutcome sttService audio
    (Some (targetLanguage config sttService audio language)) = Throw error ->
  exists fs context',
    convertSpeechToText clock config sttService audio language (Some sid) st
    = (Throw (if suggests config voice context
              then VoiceInputError (fallbackMessage (fs_failureCount fs)) true (Some fs)
              else PlainError error),
       {| contexts := <[sid := context']> (contexts st);
          ticks := 4 + ticks st;
          calls := calls st ++ attemptCalls config sttService audio language |})
    /\ shouldSuggestFallback fs = suggests config voice context
    /\ failureCount context' = failureCount context + 1
    /\ fallbackSuggested context' = fallbackSuggested context || suggests config voice context
    /\ inputMode context' = inputMode context
    /\ conversationHistory context'
       = slice_last 10
           (conversationHistory context
            ++ [ {| timestamp := clock (3 + ticks st)%nat; h_inputMode := voice;
                    success := false; h_language := currentLanguage context |} ]).
Proof.
  intros Henabled Hsid Hcontext Hfails.
  rewrite (convertSpeechToText_failure _ _ _ _ _ error) by assumption.
  cbv zeta. cbn [opt_truthy]. rewrite Hsid, (truthy_or_else sid Hsid).
  destruct (updateContextOnFailure_present sid voice
              (advance 2 (attemptCalls config sttService audio language) st) context Hcontext)
    as (fs & context' & Heq & Hfs & Hcount & Hflag & Hmode & _ & _ & Hhistory).
  exists fs, context'. rewrite Heq. cbn [fst snd advance contexts ticks calls] in *.
  rewrite Hfs.
  split; [destruct (suggests config voice context); reflexivity|].
  repeat split; assumption.
Qed.

(** One failing call on a session that has a context. *)
Lemma failing_call_step sttService audio language sid st context :
  enableVoiceInput config = true ->
  truthy sid = true ->
  contexts st !! sid = Some context ->
  is_Throw (fst (convertSpeechToText clock config sttService audio language (Some sid) st))
  = true ->
  exists context',
    contexts (snd (convertSpeechToText clock config sttService audio language (Some sid) st))
      !! sid = Some context'
    /\ failureCount context' = failureCount context + 1
    /\ fallbackSuggested context' = fallbackSuggested context || suggests config voice context
    /\ inputMode context' = inputMode context
    /\ raisedFallback
         (fst (convertSpeechToText clock config sttService audio language (Some sid) st))
       = suggests config voice context.
Proof.
  intros Henabled Hsid Hcontext Hfails.
  rewrite convertSpeechToText_fails_iff in Hfails by assumption.
  destruct (serviceOutcome sttService audio
              (Some (targetLanguage config sttService audio language))) as [r|e] eqn:Hout;
    [discriminate|].
  destruct (convertSpeechToText_failure_present sttService audio language sid st context e)
    as (fs & context' & Heq & Hfs & Hcount & Hflag & Hmode & _); try assumption.
  exists context'. rewrite Heq. cbn [fst snd contexts].
  split; [apply lookup_insert_eq|].
  repeat split; try assumption.
  cbn. destruct (suggests config voice context); cbn; [exact Hfs | reflexivity].
Qed.

(** *** Runs of failing calls *)

Lemma suggests_at_threshold context :
  fallbackToText config = true ->
  fallbackSuggested context = (maxFailuresBeforeFallback config <=? failureCount context) ->
  suggests config voice context = (failureCount context + 1 =? maxFailuresBeforeFallback config).
Proof.
  intros Hfallback Hflag. unfold suggests. rewrite Hfallback, Hflag. cbn.
  rewrite andb_true_r.
  destruct (Z.leb_spec (maxFailuresBeforeFallback config) (failureCount context + 1));
    destruct (Z.leb_spec (maxFailuresBeforeFallback config) (failureCount context));
    destruct (Z.eqb_spec (failureCount context + 1) (maxFailuresBeforeFallback config));
    cbn; try reflexivity; lia.
Qed.

Lemma suggests_suppressed mode context :
  fallbackSuggested context = true -> suggests config mode context = false.
Proof. intros Hflag. unfold suggests. rewrite Hflag. cbn. apply andb_false_r. Qed.

Lemma thresholdFlags_S j n :
  thresholdFlags config j (S n)
  = (j + 1 =? maxFailuresBeforeFallback config) :: thresholdFlags config (j + 1) n.
Proof.
  unfold thresholdFlags. cbn [seq map]. f_equal.
  rewrite <- seq_shift, map_map. apply map_ext. intros k.
  f_equal. lia.
Qed.

Lemma failing_run sid cs :
  enableVoiceInput config = true ->
  fallbackToText config = true ->
  truthy sid = true ->
  forall st context,
    contexts st !! sid = Some context ->
    fallbackSuggested context
    = (maxFailuresBeforeFallback config <=? failureCount context) ->
    forallb is_Throw (fst (speechCalls clock config (Some sid) cs st)) = true ->
    exists context',
      contexts (snd (speechCalls clock config (Some sid) cs st)) !! sid = Some context'
      /\ failureCount context' = failureCount context + Z.of_nat (length cs)
      /\ fallbackSuggested context'
         = (maxFailuresBeforeFallback config <=? failureCount context')
      /\ map raisedFallback (fst (speechCalls clock config (Some sid) cs st))
         = thresholdFlags config (failureCount context) (length cs).
Proof.
  intros Henabled Hfallback Hsid.
  induction cs as [|c cs IH]; intros st context Hcontext Hflag Hfail.
  - exists context. cbn. rewrite Z.add_0_r. repeat split; assumption.
  - cbn [speechCalls fst snd forallb] in *.
    apply andb_true_iff in Hfail as [Hfirst Hrest].
    destruct (failing_call_step (call_service c) (call_audio c) (call_language c)
                sid st context Henabled Hsid Hcontext Hfirst)
      as (context1 & Hcontext1 & Hcount1 & Hflag1 & _ & Hraised).
    rewrite (suggests_at_threshold context Hfallback Hflag) in Hflag1, Hraised.
    assert (Hinv : fallbackSuggested context1
                   = (maxFailuresBeforeFallback config <=? failureCount context1)).
    { rewrite Hflag1, Hflag, Hcount1.
      destruct (Z.leb_spec (maxFailuresBeforeFallback config) (failureCount context + 1));
        destruct (Z.leb_spec (maxFailuresBeforeFallback config) (failureCount context));
        destruct (Z.eqb_spec (failureCount context + 1) (maxFailuresBeforeFallback config));
        cbn; try reflexivity; lia. }
    destruct (IH _ context1 Hcontext1 Hinv Hrest)
      as (context' & Hcontext' & Hcount' & Hflag' & Hflags).
    exists context'. split; [exact Hcontext'|].
    split; [rewrite Hcount', Hcount1; cbn [length]; lia|].
    split; [exact Hflag'|].
    cbn [map length]. rewrite thresholdFlags_S, Hraised, Hflags, Hcount1. reflexivity.
Qed.

(** Once the recommendation has been made, failures raise no further one. *)
Lemma failing_run_suppressed sid cs :
  enableVoiceInput config = true ->
  truthy sid = true ->
  forall st context,
    contexts st !! sid = Some context ->
    fallbackSuggested context = true ->
    forallb is_Throw (fst (speechCalls clock config (Some sid) cs st)) = true ->
    exists context',
      contexts (snd (speechCalls clock config (Some sid) cs st)) !! sid = Some context'
      /\ fallbackSuggested context' = true
      /\ map raisedFallback (fst (speechCalls clock config (Some sid) cs st))
         = repeat false (length cs).
Proof.
  intros Henabled Hsid.
  induction cs as [|c cs IH]; intros st context Hcontext Hflag Hfail.
  - exists context. cbn. repeat split; assumption.
  - cbn [speechCalls fst snd forallb] in *.
    apply andb_true_iff in Hfail as [Hfirst Hrest].
    destruct (failing_call_step (call_service c) (call_audio c) (call_language c)
                sid st context Henabled Hsid Hcontext Hfirst)
      as (context1 & Hcontext1 & _ & Hflag1 & _ & Hraised).
    rewrite (suggests_suppressed voice context Hflag) in Hflag1, Hraised.
    rewrite Hflag in Hflag1. cbn in Hflag1.
    destruct (IH _ context1 Hcontext1 Hflag1 Hrest) as (context' & Hcontext' & Hflag' & Hflags).
    exists context'. repeat split; try assumption.
    cbn [map length repeat]. rewrite Hraised, Hflags. reflexivity.
Qed.

(** Among the first [n] calls of a fresh run, the threshold is reached by
    exactly one when [n] reaches it, by none otherwise. *)
Lemma thresholdFlags_count j n :
  0 <= j -> j < maxFailuresBeforeFallback config ->
  length (List.filter id (thresholdFlags config j n))
  = if maxFailuresBeforeFallback config <=? j + Z.of_nat n then 1%nat else 0%nat.
Proof.
  revert j. induction n as [|n IH]; intros j Hj Hlt.
  - cbn [thresholdFlags seq map List.filter length].
    match goal with |- context [Z.leb ?a ?b] => destruct (Z.leb_spec a b) end;
      [lia | reflexivity].
  - rewrite thresholdFlags_S. cbn [List.filter].
    destruct (Z.eqb_spec (j + 1) (maxFailuresBeforeFallback config)) as [Heq|Hne].
    + cbn [id length].
      assert (Hnone : forall m i, maxFailuresBeforeFallback config <= i ->
                 List.filter id (thresholdFlags config i m) = []).
      { induction m as [|m IHm]; intros i Hi; [reflexivity|].
        rewrite thresholdFlags_S. cbn [List.filter].
        destruct (Z.eqb_spec (i + 1) (maxFailuresBeforeFallback config)); [lia|].
        cbn [id]. apply IHm. lia. }
      rewrite Hnone by lia. cbn [length].
      match goal with |- context [Z.leb ?a ?b] => destruct (Z.leb_spec a b) end;
        [reflexivity | lia].
    + cbn [id]. rewrite IH by lia.
      replace (j + 1 + Z.of_nat n) with (j + Z.of_nat (S n)) by lia. reflexivity.
Qed.
End Orchestrator.

Section OrchestratorSteps.
Import Js VoiceInterface.
Variable clock : nat -> Z.
Variable config : VoiceInterfaceConfig.

Lemma switchInputMode_absent sid newMode st :
  contexts st !! sid = None ->
  switchInputMode clock sid newMode st = (Ok false, st).
Proof.
  intros Hnone. unfold switchInputMode, contexts_get. unfold_monad.
  rewrite Hnone. reflexivity.
Qed.

Lemma switchInputMode_present sid newMode st context :
  contexts st !! sid = Some context ->
  exists context',
    switchInputMode clock sid newMode st
    = (Ok true, {| contexts := <[sid := context']> (contexts st);
                   ticks := S (S (ticks st)); calls := calls st |})
    /\ failureCount context' = 0
    /\ fallbackSuggested context' = false
    /\ inputMode context' = newMode
    /\ currentLanguage context' = currentLanguage context
    /\ totalInteractions context' = totalInteractions context
    /\ conversationHistory context'
       = slice_last 10
           (conversationHistory context
            ++ [ {| timestamp := clock (S (ticks st)); h_inputMode := newMode;
                    success := true; h_language := currentLanguage context |} ]).
Proof.
  intros Hsome.
  unfold switchInputMode, contexts_get, contexts_set, new_Date. unfold_monad.
  rewrite Hsome. cbn.
  eexists. split; [reflexivity|]. cbn. repeat split; reflexivity.
Qed.


End OrchestratorSteps.

(** C3, as stated, fails: with [fallbackToText] switched off, session ['s1']
    in voice mode counts three consecutive failures, the count passes
    [maxFailuresBeforeFallback] (2), and none of the three errors carries a
    fallback suggestion. *)
Lemma no_fallback_error_when_switched_off :
  option_map VoiceInterface.inputMode
    (VoiceInterface.contexts
       (VoiceInterface.s1_voice_hi VoiceInterface.noFallbackConfig) !! "s1"%string)
  = Some voice /\
  map is_Throw (fst VoiceInterface.runWithoutFallback) = [true; true; true] /\
  option_map VoiceInterface.failureCount
    (VoiceInterface.contexts (snd VoiceInterface.runWithoutFallback) !! "s1"%string)
  = Some 3 /\
  VoiceInterface.maxFailuresBeforeFallback VoiceInterface.noFallbackConfig = 2 /\
  map VoiceInterface.raisedFallback (fst VoiceInterface.runWithoutFallback)
  = [false; false; false].
Proof. vm_compute. repeat split; reflexivity. Qed.

(** C3, amended: with voice input and [fallbackToText] enabled and a
    threshold of at least 1, for a session with a context entry (under a
    non-empty id) whose run starts at [failureCount = 0] with no fallback
    suggested yet: after N consecutive failing [convertSpeechToText] calls the
    count is N; call number [k] of the run ends with a fallback-eligible error
    exactly when [k = maxFailuresBeforeFallback]; so the run raises one such
    error when N reaches the threshold, and none before. *)
Theorem consecutive_failures_single_fallback :
  forall (clock : nat -> Z) (config : VoiceInterface.VoiceInterfaceConfig)
         (sid : string) (cs : list VoiceInterface.SpeechCall)
         (st : VoiceInterface.State) (context : VoiceInterface.VoiceContext),
    VoiceInterface.enableVoiceInput config = true ->
    VoiceInterface.fallbackToText config = true ->
    1 <= VoiceInterface.maxFailuresBeforeFallback config ->
    Js.truthy sid = true ->
    VoiceInterface.contexts st !! sid = Some context ->
    VoiceInterface.failureCount context = 0 ->
    VoiceInterface.fallbackSuggested context = false ->
    forallb is_Throw (fst (VoiceInterface.speechCalls clock config (Some sid) cs st)) = true ->
    (exists context',
        VoiceInterface.contexts
          (snd (VoiceInterface.speechCalls clock config (Some sid) cs st)) !! sid
        = Some context'
        /\ VoiceInterface.failureCount context' = Z.of_nat (length cs))
    /\ map VoiceInterface.raisedFallback
         (fst (VoiceInterface.speechCalls clock config (Some sid) cs st))
       = map (fun k : nat => Z.of_nat k =? VoiceInterface.maxFailuresBeforeFallback config)
           (seq 1 (length cs))
    /\ length (List.filter id
                 (map VoiceInterface.raisedFallback
                    (fst (VoiceInterface.speechCalls clock config (Some sid) cs st))))
       = if VoiceInterface.maxFailuresBeforeFallback config <=? Z.of_nat (length cs)
         then 1%nat else 0%nat.
Proof.
  intros clock config sid cs st context Henabled Hfallback Hmax Hsid Hcontext Hzero Hflag Hfail.
  assert (Hinv : VoiceInterface.fallbackSuggested context
                 = (VoiceInterface.maxFailuresBeforeFallback config
                      <=? VoiceInterface.failureCount context)).
  { rewrite Hflag, Hzero. symmetry. apply Z.leb_gt. lia. }
  destruct (failing_run clock config sid cs Henabled Hfallback Hsid st context
              Hcontext Hinv Hfail)
    as (context' & Hcontext' & Hcount & _ & Hflags).
  rewrite Hzero in Hcount, Hflags.
  split; [exists context'; split; [exact Hcontext' | lia]|].
  assert (Hsame : VoiceInterface.thresholdFlags config 0 (length cs)
                  = map (fun k : nat =>
                           Z.of_nat k =? VoiceInterface.maxFailuresBeforeFallback config)
                      (seq 1 (length cs))).
  { apply map_ext. intros k. reflexivity. }
  split.
  - rewrite Hflags. exact Hsame.
  - rewrite Hflags. rewrite thresholdFlags_count by lia. reflexivity.
Qed.

Lemma consecutive_failures_single_fallback_witness :
  (exists context',
      VoiceInterface.contexts
        (snd (VoiceInterface.speechCalls VoiceInterface.sampleClock
                VoiceInterface.defaultConfig (Some "s1"%string)
                [VoiceInterface.failingCall; VoiceInterface.failingCall;
                 VoiceInterface.failingCall]
                (VoiceInterface.s1_voice_hi VoiceInterface.defaultConfig))) !! "s1"%string
      = Some context'
      /\ VoiceInterface.failureCount context' = 3)
  /\ map VoiceInterface.raisedFallback
       (fst (VoiceInterface.speechCalls VoiceInterface.sampleClock
               VoiceInterface.defaultConfig (Some "s1"%string)
               [VoiceInterface.failingCall; VoiceInterface.failingCall;
                VoiceInterface.failingCall]
               (VoiceInterface.s1_voice_hi VoiceInterface.defaultConfig)))
     = [false; true; false]
  /\ length (List.filter id
               (map VoiceInterface.raisedFallback
                  (fst (VoiceInterface.speechCalls VoiceInterface.sampleClock
                          VoiceInterface.defaultConfig (Some "s1"%string)
                          [VoiceInterface.failingCall; VoiceInterface.failingCall;
                           VoiceInterface.failingCall]
                          (VoiceInterface.s1_voice_hi VoiceInterface.defaultConfig)))))
     = 1%nat.
Proof.
  eapply (consecutive_failures_single_fallback VoiceInterface.sampleClock
            VoiceInterface.defaultConfig "s1"%string
            [VoiceInterface.failingCall; VoiceInterface.failingCall;
             VoiceInterface.failingCall]
            (VoiceInterface.s1_voice_hi VoiceInterface.defaultConfig)).
  - reflexivity.
  - reflexivity.
  - cbn. lia.
  - reflexivity.
  - vm_compute. reflexivity.
  - reflexivity.
  - reflexivity.
  - vm_compute. reflexivity.
Defined.




Section OrchestratorFrames.
Import Js VoiceInterface.
Variable clock : nat -> Z.
Variable config : VoiceInterfaceConfig.

(** The context updates do not touch the log of service calls. *)
Lemma updateContextOnFailure_calls sid mode st :
  calls (snd (updateContextOnFailure clock config sid mode st)) = calls st.
Proof.
  destruct (contexts st !! sid) as [context|] eqn:Hlookup.
  - destruct (updateContextOnFailure_present clock config sid mode st context Hlookup)
      as (fs & context' & Heq & _).
    rewrite Heq. reflexivity.
  - rewrite updateContextOnFailure_absent by assumption. reflexivity.
Qed.

Lemma updateContextOnSuccess_calls sid language mode st :
  calls (snd (updateContextOnSuccess clock config sid language mode st)) = calls st.
Proof.
  destruct (preserveContext config) eqn:Hpreserve.
  - destruct (contexts st !! sid) as [context|] eqn:Hlookup.
    + destruct (updateContextOnSuccess_present clock config sid language mode st context
                  Hlookup Hpreserve) as (context' & Heq & _).
      rewrite Heq. reflexivity.
    + rewrite updateContextOnSuccess_absent by assumption. reflexivity.
  - rewrite updateContextOnSuccess_disabled by assumption. reflexivity.
Qed.

(** The calls one [convertSpeechToText] makes to the service. *)
Lemma convertSpeechToText_calls sttService audio language sid st :
  enableVoiceInput config = true ->
  calls (snd (convertSpeechToText clock config sttService audio language sid st))
  = calls st ++ attemptCalls config sttService audio language.
Proof.
  intros Henabled.
  destruct (serviceOutcome sttService audio
              (Some (targetLanguage config sttService audio language))) as [r|e] eqn:Hout.
  - rewrite (convertSpeechToText_success clock config _ _ _ _ _ r) by assumption.
    cbv zeta. cbn [snd advance calls].
    destruct (opt_truthy sid).
    + rewrite updateContextOnSuccess_calls. cbn. apply app_nil_r.
    + cbn. apply app_nil_r.
  - rewrite (convertSpeechToText_failure clock config _ _ _ _ _ e) by assumption.
    cbv zeta. destruct (opt_truthy sid); [|reflexivity].
    pose proof (updateContextOnFailure_calls (or_else sid "") voice
                  (advance 2 (attemptCalls config sttService audio language) st)) as Hcalls.
    destruct (updateContextOnFailure clock config (or_else sid "") voice
                (advance 2 (attemptCalls config sttService audio language) st))
      as [[fs|e'] st3]; cbn [fst snd] in *.
    + destruct (shouldSuggestFallback fs); cbn [snd]; exact Hcalls.
    + exact Hcalls.
Qed.

(** What [SpeechToTextServiceImpl.detectLanguage] answers: the cloud guess
    when the cloud is available, else the Whisper guess when Whisper is
    available and the blob can be read, else (and whenever the guess fails)
    ['hi']. *)
Lemma detectLanguage_outcome impl audio log :
  fst (SpeechToText.detectLanguage impl audio log)
  = Ok (if SpeechToText.isAvailable (SpeechToText.cloudService impl)
        then match SpeechToText.b_detectLanguage (SpeechToText.cloudService impl) audio with
             | Ok detected => detected
             | Throw _ => "hi"%string
             end
        else if SpeechToText.isAvailable (SpeechToText.whisperService impl)
        then if AudioProcessor.readFails (SpeechToText.fileReader impl) audio
             then "hi"%string
             else match SpeechToText.b_detectLanguage
                          (SpeechToText.whisperService impl) audio with
                  | Ok detected => detected
                  | Throw _ => "hi"%string
                  end
        else "hi"%string).
Proof.
  unfold SpeechToText.detectLanguage, SpeechToText.invoke. unfold_monad.
  unfold AudioProcessor.blobToArrayBuffer, AudioProcessor.readFails.
  destruct (SpeechToText.isAvailable (SpeechToText.cloudService impl)); cbn.
  - destruct (SpeechToText.b_detectLanguage (SpeechToText.cloudService impl) audio);
      reflexivity.
  - destruct (SpeechToText.isAvailable (SpeechToText.whisperService impl)); cbn.
    + destruct (SpeechToText.fileReader impl audio); [reflexivity|].
      destruct (SpeechToText.b_detectLanguage (SpeechToText.whisperService impl) audio);
        reflexivity.
    + reflexivity.
Qed.

(** The Whisper backend is asked for a guess only after the blob was read:
    when the read fails, the run of [detectLanguage] has no such call. *)
Lemma detectLanguage_unreadable impl audio log :
  AudioProcessor.readFails (SpeechToText.fileReader impl) audio = true ->
  List.filter (fun c => match c with
                        | SpeechToText.WhisperDetectLanguage _ => true
                        | _ => false
                        end)
    (snd (SpeechToText.detectLanguage impl audio log))
  = List.filter (fun c => match c with
                          | SpeechToText.WhisperDetectLanguage _ => true
                          | _ => false
                          end) log.
Proof.
  unfold SpeechToText.detectLanguage, SpeechToText.invoke. unfold_monad.
  unfold AudioProcessor.blobToArrayBuffer, AudioProcessor.readFails.
  intros Hfails.
  destruct (SpeechToText.isAvailable (SpeechToText.cloudService impl)); cbn.
  - destruct (SpeechToText.b_detectLanguage (SpeechToText.cloudService impl) audio);
      cbn; rewrite !List.filter_app; cbn; rewrite !app_nil_r; reflexivity.
  - destruct (SpeechToText.isAvailable (SpeechToText.whisperService impl)); cbn.
    + destruct (SpeechToText.fileReader impl audio); [|discriminate].
      cbn. rewrite !List.filter_app. cbn. rewrite !app_nil_r. reflexivity.
    + rewrite !List.filter_app. cbn. rewrite !app_nil_r. reflexivity.
Qed.

End OrchestratorFrames.

(** C6, as stated, fails: session ['s1'] has current language ['ta'], the
    configured default is ['hi'], and a call without a language to a service
    double hands ['hi'] to the service, where the stated precedence gives
    ['ta']. *)
Lemma session_language_not_consulted :
  option_map VoiceInterface.currentLanguage
    (VoiceInterface.contexts VoiceInterface.s1_voice_ta !! "s1"%string)
  = Some "ta"%string /\
  VoiceInterface.languageBySessionPrecedence VoiceInterface.defaultConfig None
    (VoiceInterface.contexts VoiceInterface.s1_voice_ta !! "s1"%string)
  = "ta"%string /\
  VoiceInterface.calls (snd VoiceInterface.callWithoutLanguage)
  = [VoiceInterface.SttTranscribe VoiceInterface.sampleAudio (Some "hi"%string)].
Proof. vm_compute. repeat split; reflexivity. Qed.

(** C6, amended: [convertSpeechToText] hands to the recognition service the
    language given by this precedence, whatever the session's context holds:
    the caller's language when one is supplied; else, when the service is a
    [SpeechToTextServiceImpl], the language its [detectLanguage] guesses from
    the audio (cloud guess, else Whisper guess when the blob can be read,
    else ['hi']); else the configured default language.  The transcription
    call with that language is the last call of the attempt, preceded at most
    by the detection call. *)
Theorem speech_language_resolution :
  forall (clock : nat -> Z) (config : VoiceInterface.VoiceInterfaceConfig)
         (sttService : VoiceInterface.SpeechToTextService)
         (audio : AudioProcessor.Blob) (language : option LanguageCode)
         (sid : option string) (st : VoiceInterface.State),
    VoiceInterface.enableVoiceInput config = true ->
    (exists detection : list VoiceInterface.ServiceCall,
        VoiceInterface.calls
          (snd (VoiceInterface.convertSpeechToText clock config sttService audio
                  language sid st))
        = VoiceInterface.calls st ++ detection
            ++ [VoiceInterface.SttTranscribe audio
                  (Some (VoiceInterface.targetLanguage config sttService audio language))]
        /\ (detection = [] \/ detection = [VoiceInterface.SttDetectLanguage audio]))
    /\ (forall l : LanguageCode,
           language = Some l -> Js.truthy l = true ->
           VoiceInterface.targetLanguage config sttService audio language = l)
    /\ (Js.opt_truthy language = false ->
        forall impl : SpeechToText.Impl,
          sttService = VoiceInterface.ServiceImpl impl ->
          VoiceInterface.targetLanguage config sttService audio language
          = if SpeechToText.isAvailable (SpeechToText.cloudService impl)
            then match SpeechToText.b_detectLanguage (SpeechToText.cloudService impl) audio with
                 | Ok detected => detected
                 | Throw _ => "hi"%string
                 end
            else if SpeechToText.isAvailable (SpeechToText.whisperService impl)
            then if AudioProcessor.readFails (SpeechToText.fileReader impl) audio
                 then "hi"%string
                 else match SpeechToText.b_detectLanguage
                              (SpeechToText.whisperService impl) audio with
                      | Ok detected => detected
                      | Throw _ => "hi"%string
                      end
            else "hi"%string)
    /\ (Js.opt_truthy language = false ->
        (forall impl : SpeechToText.Impl, sttService <> VoiceInterface.ServiceImpl impl) ->
        VoiceInterface.targetLanguage config sttService audio language
        = VoiceInterface.defaultLanguage config).
Proof.
  intros clock config sttService audio language sid st Henabled.
  split; [|split; [|split]].
  - rewrite convertSpeechToText_calls by assumption.
    unfold VoiceInterface.attemptCalls.
    eexists. split; [reflexivity|].
    destruct (Js.opt_truthy language); [left; reflexivity|].
    destruct sttService; [right | left]; reflexivity.
  - intros l -> Hl. unfold VoiceInterface.targetLanguage. cbn. rewrite Hl. reflexivity.
  - intros Habsent impl ->. unfold VoiceInterface.targetLanguage. rewrite Habsent.
    rewrite detectLanguage_outcome. reflexivity.
  - intros Habsent Hother. unfold VoiceInterface.targetLanguage. rewrite Habsent.
    destruct sttService as [impl|f a l]; [|reflexivity].
    exfalso. apply (Hother impl). reflexivity.
Qed.

Lemma speech_language_resolution_witness :
  exists detection : list VoiceInterface.ServiceCall,
    VoiceInterface.calls (snd VoiceInterface.callWithoutLanguage)
    = VoiceInterface.calls VoiceInterface.s1_voice_ta ++ detection
        ++ [VoiceInterface.SttTranscribe VoiceInterface.sampleAudio
              (Some (VoiceInterface.targetLanguage VoiceInterface.defaultConfig
                       VoiceInterface.workingService VoiceInterface.sampleAudio None))]
    /\ (detection = [] \/ detection = [VoiceInterface.SttDetectLanguage VoiceInterface.sampleAudio]).
Proof.
  exact (proj1 (speech_language_resolution VoiceInterface.sampleClock
                  VoiceInterface.defaultConfig VoiceInterface.workingService
                  VoiceInterface.sampleAudio None (Some "s1"%string)
                  VoiceInterface.s1_voice_ta eq_refl)).
Defined.

(** C9: when [convertSpeechToText] is called with a session id that has no
    context entry and the call fails, the error thrown is a plain error with
    no fallback suggestion attached (with voice input enabled: the very error
    the recognition service threw), and the session registry is unchanged, so
    no context entry is created for that id. *)
Theorem failure_without_context_entry :
  forall (clock : nat -> Z) (config : VoiceInterface.VoiceInterfaceConfig)
         (sttService : VoiceInterface.SpeechToTextService)
         (audio : AudioProcessor.Blob) (language : option LanguageCode)
         (sid : string) (st : VoiceInterface.State),
    VoiceInterface.contexts st !! sid = None ->
    is_Throw (fst (VoiceInterface.convertSpeechToText clock config sttService audio
                     language (Some sid) st)) = true ->
    (exists error : JsError,
        fst (VoiceInterface.convertSpeechToText clock config sttService audio
               language (Some sid) st) = Throw (VoiceInterface.PlainError error)
        /\ (VoiceInterface.enableVoiceInput config = true ->
            VoiceInterface.serviceOutcome sttService audio
              (Some (VoiceInterface.targetLanguage config sttService audio language))
            = Throw error))
    /\ VoiceInterface.contexts
         (snd (VoiceInterface.convertSpeechToText clock config sttService audio
                 language (Some sid) st))
       = VoiceInterface.contexts st
    /\ VoiceInterface.contexts
         (snd (VoiceInterface.convertSpeechToText clock config sttService audio
                 language (Some sid) st)) !! sid = None.
Proof.
  intros clock config sttService audio language sid st Habsent Hfails.
  assert (Hmain :
    (exists error : JsError,
        fst (VoiceInterface.convertSpeechToText clock config sttService audio
               language (Some sid) st) = Throw (VoiceInterface.PlainError error)
        /\ (VoiceInterface.enableVoiceInput config = true ->
            VoiceInterface.serviceOutcome sttService audio
              (Some (VoiceInterface.targetLanguage config sttService audio language))
            = Throw error))
    /\ VoiceInterface.contexts
         (snd (VoiceInterface.convertSpeechToText clock config sttService audio
                 language (Some sid) st))
       = VoiceInterface.contexts st).
  { destruct (VoiceInterface.enableVoiceInput config) eqn:Henabled.
    - rewrite convertSpeechToText_fails_iff in Hfails by assumption.
      destruct (VoiceInterface.serviceOutcome sttService audio
                  (Some (VoiceInterface.targetLanguage config sttService audio language)))
        as [r|e] eqn:Hout; [discriminate|].
      rewrite (convertSpeechToText_failure clock config _ _ _ _ _ e) by assumption.
      cbv zeta. cbn [Js.opt_truthy].
      destruct (Js.truthy sid) eqn:Hsid.
      + rewrite (truthy_or_else sid Hsid).
        rewrite updateContextOnFailure_absent by exact Habsent.
        cbn. split; [exists e; split; [reflexivity | intros _; reflexivity] | reflexivity].
      + cbn. split; [exists e; split; [reflexivity | intros _; reflexivity] | reflexivity].
    - unfold VoiceInterface.convertSpeechToText. rewrite Henabled. cbn.
      split; [|reflexivity].
      exists (Error "Voice input is disabled"). split; [reflexivity | discriminate]. }
  destruct Hmain as [Herror Hsame].
  split; [exact Herror|]. split; [exact Hsame|].
  rewrite Hsame. exact Habsent.
Qed.

Lemma failure_without_context_entry_witness :
  (exists error : JsError,
      fst (VoiceInterface.convertSpeechToText VoiceInterface.sampleClock
             VoiceInterface.defaultConfig VoiceInterface.failingService
             VoiceInterface.sampleAudio None (Some "unknown"%string)
             (VoiceInterface.s1_voice_hi VoiceInterface.defaultConfig))
      = Throw (VoiceInterface.PlainError error)
      /\ (VoiceInterface.enableVoiceInput VoiceInterface.defaultConfig = true ->
          VoiceInterface.serviceOutcome VoiceInterface.failingService
            VoiceInterface.sampleAudio
            (Some (VoiceInterface.targetLanguage VoiceInterface.defaultConfig
                     VoiceInterface.failingService VoiceInterface.sampleAudio None))
          = Throw error))
  /\ VoiceInterface.contexts
       (snd (VoiceInterface.convertSpeechToText VoiceInterface.sampleClock
               VoiceInterface.defaultConfig VoiceInterface.failingService
               VoiceInterface.sampleAudio None (Some "unknown"%string)
               (VoiceInterface.s1_voice_hi VoiceInterface.defaultConfig)))
     = VoiceInterface.contexts (VoiceInterface.s1_voice_hi VoiceInterface.defaultConfig)
  /\ VoiceInterface.contexts
       (snd (VoiceInterface.convertSpeechToText VoiceInterface.sampleClock
               VoiceInterface.defaultConfig VoiceInterface.failingService
               VoiceInterface.sampleAudio None (Some "unknown"%string)
               (VoiceInterface.s1_voice_hi VoiceInterface.defaultConfig)))
       !! "unknown"%string = None.
Proof.
  apply (failure_without_context_entry VoiceInterface.sampleClock
           VoiceInterface.defaultConfig VoiceInterface.failingService
           VoiceInterface.sampleAudio None "unknown"%string
           (VoiceInterface.s1_voice_hi VoiceInterface.defaultConfig)).
  - vm_compute. reflexivity.
  - vm_compute. reflexivity.
Defined.

(** C10: [processTextInput] with an empty or white-space-only text throws
    "Text input cannot be empty" before anything else happens: the state is
    the one before the call, so every context keeps its failure count, its
    interaction count, its last interaction time and its history. *)
Theorem processTextInput_rejects_blank_text :
  forall (clock : nat -> Z) (config : VoiceInterface.VoiceInterfaceConfig)
         (textInput : Js.JsString) (sid : string) (language : option LanguageCode)
         (st : VoiceInterface.State),
    Js.whitespaceOnly textInput = true ->
    VoiceInterface.processTextInput clock config textInput sid language st
    = (Throw (VoiceInterface.PlainError (Error "Text input cannot be empty")), st).
Proof.
  intros clock config textInput sid language st Hblank.
  unfold VoiceInterface.processTextInput.
  rewrite (whitespaceOnly_isBlank textInput Hblank). reflexivity.
Qed.

Lemma processTextInput_rejects_blank_text_witness :
  VoiceInterface.processTextInput VoiceInterface.sampleClock VoiceInterface.defaultConfig
    (Js.text_of "   ") "s1"%string None
    (VoiceInterface.s1_voice_hi VoiceInterface.defaultConfig)
  = (Throw (VoiceInterface.PlainError (Error "Text input cannot be empty")),
     VoiceInterface.s1_voice_hi VoiceInterface.defaultConfig).
Proof.
  apply (processTextInput_rejects_blank_text VoiceInterface.sampleClock
           VoiceInterface.defaultConfig (Js.text_of "   ") "s1"%string None
           (VoiceInterface.s1_voice_hi VoiceInterface.defaultConfig)).
  reflexivity.
Defined.

(** ** Bounded history *)

Section SliceLast.
Import Js.
Context {A : Type}.

Lemma slice_last_length (n : nat) (arr : list A) :
  length (slice_last n arr) = Nat.min (length arr) n.
Proof. unfold slice_last. rewrite length_drop. lia. Qed.

Lemma slice_last_short (n : nat) (arr : list A) :
  (length arr <= n)%nat -> slice_last n arr = arr.
Proof.
  intros Hshort. unfold slice_last.
  replace (length arr - n)%nat with 0%nat by lia. reflexivity.
Qed.

(** Truncating after every append keeps the same elements as truncating
    once at the end. *)
Lemma slice_last_app_slice (n : nat) (arr more : list A) :
  slice_last n (slice_last n arr ++ more) = slice_last n (arr ++ more).
Proof.
  destruct (Nat.le_gt_cases (length arr) n) as [Hshort | Hlong].
  - rewrite (slice_last_short n arr Hshort). reflexivity.
  - unfold slice_last at 1 3. rewrite !length_app, slice_last_length.
    unfold slice_last.
    replace (Nat.min (length arr) n + length more - n)%nat with (length more) by lia.
    replace (length arr + length more - n)%nat
      with ((length arr - n) + length more)%nat by lia.
    rewrite <- drop_drop. f_equal.
    rewrite drop_app_le by lia. reflexivity.
Qed.

End SliceLast.

Section HistoryInvariant.
Import Js VoiceInterface.
Variable clock : nat -> Z.
Variable config : VoiceInterfaceConfig.

Lemma historyBounded_contexts st st' :
  contexts st' = contexts st -> historyBounded st -> historyBounded st'.
Proof. intros Hsame Hbounded sid context. rewrite Hsame. apply Hbounded. Qed.

Lemma preserves_ret {A} (a : A) : preserves (ret a).
Proof. intros st Hbounded. exact Hbounded. Qed.

Lemma preserves_throw {A} (e : VoiceError) : preserves (@throw State VoiceError A e).
Proof. intros st Hbounded. exact Hbounded. Qed.

Lemma preserves_bind {A B} (m : VI A) (k : A -> VI B) :
  preserves m -> (forall a, preserves (k a)) -> preserves (bind m k).
Proof.
  intros Hm Hk st Hbounded. unfold bind.
  specialize (Hm st Hbounded).
  destruct (m st) as [[a|e] st1]; cbn [snd] in *.
  - apply Hk, Hm.
  - exact Hm.
Qed.

Lemma preserves_try_catch {A} (body : VI A) (handler : VoiceError -> VI A) :
  preserves body -> (forall e, preserves (handler e)) -> preserves (try_catch body handler).
Proof.
  intros Hbody Hhandler st Hbounded. unfold try_catch.
  specialize (Hbody st Hbounded).
  destruct (body st) as [[a|e] st1]; cbn [snd] in *.
  - exact Hbody.
  - apply Hhandler, Hbody.
Qed.

Lemma preserves_get {B} (sid : string) (k : option VoiceContext -> VI B) :
  (forall entry, boundedEntry entry -> preserves (k entry)) ->
  preserves (bind (contexts_get sid) k).
Proof.
  intros Hk st Hbounded. unfold bind, contexts_get.
  apply Hk; [|exact Hbounded].
  destruct (contexts st !! sid) as [context|] eqn:Hlookup; cbn; [|exact I].
  exact (Hbounded sid context Hlookup).
Qed.

Lemma preserves_new_Date : preserves (new_Date clock).
Proof. intros st Hbounded. exact Hbounded. Qed.

Lemma preserves_log_call c : preserves (log_call c).
Proof. intros st Hbounded. exact Hbounded. Qed.

Lemma preserves_liftService {A} (outcome : Result JsError A) : preserves (liftService outcome).
Proof. intros st Hbounded. unfold liftService. destruct outcome; exact Hbounded. Qed.

Lemma preserves_set sid context :
  (length (conversationHistory context) <= 10)%nat -> preserves (contexts_set sid context).
Proof.
  intros Hshort st Hbounded sid' context'. cbn.
  rewrite lookup_insert. case_decide as Hsid.
  - intros [= <-]. exact Hshort.
  - apply Hbounded.
Qed.

Lemma preserves_delete sid : preserves (contexts_delete sid).
Proof.
  intros st Hbounded sid' context'. cbn.
  intros Hlookup. apply lookup_delete_Some in Hlookup as [_ Hlookup].
  exact (Hbounded sid' context' Hlookup).
Qed.

Lemma slice_last_10_bound {A} (arr : list A) : (length (slice_last 10 arr) <= 10)%nat.
Proof. rewrite slice_last_length. lia. Qed.

End HistoryInvariant.

Create HintDb history_bound.
#[local] Hint Resolve preserves_ret preserves_throw preserves_new_Date preserves_log_call
  preserves_liftService preserves_delete slice_last_10_bound : history_bound.

(** One step through a method body, following the structure of the code. *)
Ltac preserve_step :=
  match goal with
  | |- VoiceInterface.preserves (bind (VoiceInterface.contexts_get _) _) =>
      apply preserves_get; intros [?context|] ?Hentry
  | |- VoiceInterface.preserves (bind _ _) => apply preserves_bind; [|intros ?]
  | |- VoiceInterface.preserves (try_catch _ _) => apply preserves_try_catch; [|intros ?]
  | |- VoiceInterface.preserves (VoiceInterface.contexts_set _ _) =>
      apply preserves_set; cbn [VoiceInterface.conversationHistory]
  | |- VoiceInterface.preserves (if ?b then _ else _) => destruct b
  | |- VoiceInterface.preserves (match ?x with _ => _ end) => destruct x
  | |- VoiceInterface.preserves _ => solve [auto with history_bound]
  | |- (_ <= _)%nat => solve [auto with history_bound]
  end.

Section HistoryMethods.
Import Js VoiceInterface.
Variable clock : nat -> Z.
Variable config : VoiceInterfaceConfig.

Lemma preserves_setContext sid language mode :
  preserves (setContext clock config sid language mode).
Proof. unfold setContext. repeat preserve_step. Qed.

Lemma preserves_switchInputMode sid newMode :
  preserves (switchInputMode clock sid newMode).
Proof. unfold switchInputMode. repeat preserve_step. Qed.

Lemma preserves_markFallbackSuggested sid :
  preserves (markFallbackSuggested sid).
Proof. unfold markFallbackSuggested. repeat preserve_step. Qed.

Lemma preserves_updateContextOnSuccess sid language mode :
  preserves (updateContextOnSuccess clock config sid language mode).
Proof. unfold updateContextOnSuccess. repeat preserve_step. Qed.

Lemma preserves_updateContextOnFailure sid mode :
  preserves (updateContextOnFailure clock config sid mode).
Proof. unfold updateContextOnFailure. repeat (cbv zeta; preserve_step). Qed.

Lemma preserves_cleanupExpiredContexts :
  preserves (cleanupExpiredContexts clock config).
Proof.
  unfold cleanupExpiredContexts. apply preserves_bind; [apply preserves_new_Date|].
  intros now st Hbounded sid context. cbn.
  intros Hlookup. apply map_lookup_filter_Some in Hlookup as [Hlookup _].
  exact (Hbounded sid context Hlookup).
Qed.

Lemma preserves_detectLanguage sttService audio :
  preserves (detectLanguage config sttService audio).
Proof. unfold detectLanguage. repeat preserve_step. Qed.

Lemma preserves_convertSpeechToText sttService audio language sid :
  preserves (convertSpeechToText clock config sttService audio language sid).
Proof.
  unfold convertSpeechToText, stt_transcribe.
  pose proof preserves_detectLanguage. pose proof preserves_updateContextOnSuccess.
  pose proof preserves_updateContextOnFailure.
  repeat (preserve_step; auto).
Qed.

Lemma preserves_processTextInput textInput sid language :
  preserves (processTextInput clock config textInput sid language).
Proof.
  unfold processTextInput.
  pose proof preserves_updateContextOnSuccess. pose proof preserves_updateContextOnFailure.
  repeat (cbv zeta; preserve_step; auto).
Qed.

End HistoryMethods.

Section HistoryContents.
Import Js VoiceInterface.
Variable clock : nat -> Z.
Variable config : VoiceInterfaceConfig.

Lemma slice_last_app_long {A} (n : nat) (arr more : list A) :
  (n <= length more)%nat -> slice_last n (arr ++ more) = slice_last n more.
Proof.
  intros Hlong. unfold slice_last. rewrite length_app.
  rewrite drop_app_ge by lia. f_equal. lia.
Qed.

Lemma historyOf_insert sid context st n cs :
  historyOf sid {| contexts := <[sid := context]> (contexts st); ticks := n; calls := cs |}
  = conversationHistory context.
Proof. unfold historyOf. cbn. rewrite lookup_insert_eq. reflexivity. Qed.

Lemma setContext_present sid language mode st :
  preserveContext config = true ->
  exists context',
    setContext clock config sid language mode st
    = (Ok tt, {| contexts := <[sid := context']> (contexts st);
                 ticks := S (ticks st); calls := calls st |})
    /\ currentLanguage context' = language
    /\ inputMode context' = mode
    /\ conversationHistory context'
       = slice_last 10
           (historyOf sid st
            ++ [ {| timestamp := clock (ticks st); h_inputMode := mode;
                    success := true; h_language := language |} ]).
Proof.
  intros Hpreserve.
  unfold setContext, contexts_get, contexts_set, new_Date, historyOf. unfold_monad.
  rewrite Hpreserve. cbn.
  eexists. split; [reflexivity|]. cbn. repeat split; reflexivity.
Qed.

(** Each interaction appends its record and truncates from the front. *)
Lemma interact_history sid i st :
  preserveContext config = true ->
  is_Some (contexts st !! sid) \/ (exists language mode, i = ContextSet language mode) ->
  is_Some (contexts (interact clock config sid i st) !! sid)
  /\ historyOf sid (interact clock config sid i st)
     = slice_last 10 (historyOf sid st ++ [recordOf clock sid i st]).
Proof.
  intros Hpreserve Hexists.
  destruct i as [language mode | language mode | mode | newMode]; cbn [interact recordOf].
  - destruct (setContext_present sid language mode st Hpreserve)
      as (context' & Heq & _ & _ & Hhistory).
    rewrite Heq. cbn [snd]. rewrite historyOf_insert. cbn [contexts].
    rewrite lookup_insert_eq. split; [eexists; reflexivity | exact Hhistory].
  - destruct Hexists as [[context Hlookup] | (l & m & Habs)]; [|discriminate].
    destruct (updateContextOnSuccess_present clock config sid language mode st context
                Hlookup Hpreserve) as (context' & Heq & _ & _ & _ & _ & _ & Hhistory).
    rewrite Heq. cbn [snd]. rewrite historyOf_insert. cbn [contexts].
    rewrite lookup_insert_eq. split; [eexists; reflexivity|].
    rewrite Hhistory. unfold historyOf. rewrite Hlookup. reflexivity.
  - destruct Hexists as [[context Hlookup] | (l & m & Habs)]; [|discriminate].
    destruct (updateContextOnFailure_present clock config sid mode st context Hlookup)
      as (fs & context' & Heq & _ & _ & _ & _ & _ & _ & Hhistory).
    rewrite Heq. cbn [snd]. rewrite historyOf_insert. cbn [contexts].
    rewrite lookup_insert_eq. split; [eexists; reflexivity|].
    rewrite Hhistory. unfold historyOf. rewrite Hlookup. reflexivity.
  - destruct Hexists as [[context Hlookup] | (l & m & Habs)]; [|discriminate].
    destruct (switchInputMode_present clock sid newMode st context Hlookup)
      as (context' & Heq & _ & _ & _ & _ & _ & Hhistory).
    rewrite Heq. cbn [snd]. rewrite historyOf_insert. cbn [contexts].
    rewrite lookup_insert_eq. split; [eexists; reflexivity|].
    rewrite Hhistory. unfold historyOf. rewrite Hlookup. reflexivity.
Qed.

Lemma recordsOf_length sid steps st :
  length (recordsOf clock config sid steps st) = length steps.
Proof.
  revert st. induction steps as [|i steps IH]; intros st; cbn; [reflexivity|].
  rewrite IH. reflexivity.
Qed.

(** After a sequence of interactions the history is the old history followed
    by the records of the sequence, cut to the last ten. *)
Lemma interactAll_history sid steps :
  preserveContext config = true ->
  forall i st,
    is_Some (contexts st !! sid) \/ (exists language mode, i = ContextSet language mode) ->
    historyOf sid (interactAll clock config sid (i :: steps) st)
    = slice_last 10 (historyOf sid st ++ recordsOf clock config sid (i :: steps) st).
Proof.
  intros Hpreserve.
  induction steps as [|i' steps IH]; intros i st Hexists.
  - cbn. apply (interact_history sid i st Hpreserve Hexists).
  - destruct (interact_history sid i st Hpreserve Hexists) as [Hsome Hhistory].
    change (interactAll clock config sid (i :: i' :: steps) st)
      with (interactAll clock config sid (i' :: steps) (interact clock config sid i st)).
    rewrite (IH i' _ (or_introl Hsome)).
    rewrite Hhistory, slice_last_app_slice, <- app_assoc. reflexivity.
Qed.

End HistoryContents.

Section WithoutPreservedContext.
Import Js VoiceInterface.
Variable clock : nat -> Z.
Variable config : VoiceInterfaceConfig.
Hypothesis Hdisabled : preserveContext config = false.

Lemma perform_keeps_registry_empty op st :
  contexts st = ∅ -> contexts (perform clock config op st) = ∅.
Proof.
  intros Hempty.
  assert (Habsent : forall sid, contexts st !! sid = None).
  { intros sid. rewrite Hempty. apply lookup_empty. }
  destruct op as [sid language mode | sid | sid newMode | sid | |
                  sttService audio language sid | textInput sid language];
    cbn [perform].
  - unfold setContext. rewrite Hdisabled. exact Hempty.
  - cbn. rewrite Hempty. apply delete_empty.
  - rewrite switchInputMode_absent by apply Habsent. exact Hempty.
  - unfold markFallbackSuggested, contexts_get. unfold_monad.
    rewrite Habsent. exact Hempty.
  - cbn. rewrite Hempty. apply map_filter_empty.
  - destruct (enableVoiceInput config) eqn:Henabled.
    + destruct (serviceOutcome sttService audio
                  (Some (targetLanguage config sttService audio language)))
        as [r|e] eqn:Hout.
      * rewrite (convertSpeechToText_success clock config _ _ _ _ _ r) by assumption.
        cbv zeta. cbn [snd advance contexts].
        destruct (opt_truthy sid); [|exact Hempty].
        rewrite updateContextOnSuccess_disabled by assumption. exact Hempty.
      * rewrite (convertSpeechToText_failure clock config _ _ _ _ _ e) by assumption.
        cbv zeta. destruct (opt_truthy sid); [|exact Hempty].
        rewrite updateContextOnFailure_absent by apply Habsent. exact Hempty.
    + unfold convertSpeechToText. rewrite Henabled. exact Hempty.
  - unfold processTextInput.
    destruct (isBlank textInput); [exact Hempty|].
    unfold updateContextOnSuccess. rewrite Hdisabled.
    unfold new_Date, contexts_get. unfold_monad. cbn. exact Hempty.
Qed.

(** With [preserveContext] switched off no operation creates a context. *)
Lemma no_context_without_preserveContext ops :
  contexts (performAll clock config ops initialState) = ∅.
Proof.
  unfold performAll.
  assert (Hinit : contexts initialState = ∅) by reflexivity.
  revert Hinit. generalize initialState.
  induction ops as [|op ops IH]; intros st Hempty; [exact Hempty|].
  cbn [fold_left]. apply IH, perform_keeps_registry_empty, Hempty.
Qed.

End WithoutPreservedContext.

(** C5: the conversation history of every session context holds at most ten
    records in every state the public operations can reach, and each of the
    four updates (context creation, success update, failure update, mode
    switch) keeps that bound; after a sequence of ten or more interactions on
    a session the history has exactly ten records, the ten most recent ones
    in the order they were appended. *)
Theorem history_bounded_and_most_recent :
  forall (clock : nat -> Z) (config : VoiceInterface.VoiceInterfaceConfig),
    (forall (ops : list VoiceInterface.Operation) (sid : string)
            (context : VoiceInterface.VoiceContext),
        VoiceInterface.contexts
          (VoiceInterface.performAll clock config ops VoiceInterface.initialState) !! sid
        = Some context ->
        (length (VoiceInterface.conversationHistory context) <= 10)%nat)
    /\
    (forall (sid : string) (i : VoiceInterface.Interaction) (st : VoiceInterface.State),
        VoiceInterface.historyBounded st ->
        VoiceInterface.historyBounded (VoiceInterface.interact clock config sid i st))
    /\
    (forall (sid : string) (steps : list VoiceInterface.Interaction)
            (st : VoiceInterface.State),
        VoiceInterface.preserveContext config = true ->
        is_Some (VoiceInterface.contexts st !! sid)
        \/ (exists language mode rest,
               steps = VoiceInterface.ContextSet language mode :: rest) ->
        (10 <= length steps)%nat ->
        VoiceInterface.historyOf sid (VoiceInterface.interactAll clock config sid steps st)
        = Js.slice_last 10 (VoiceInterface.recordsOf clock config sid steps st)
        /\ length (VoiceInterface.recordsOf clock config sid steps st) = length steps
        /\ length (VoiceInterface.historyOf sid
                     (VoiceInterface.interactAll clock config sid steps st)) = 10%nat).
Proof.
  intros clock config. split; [|split].
  - intros ops.
    assert (Hreach : VoiceInterface.historyBounded
                       (VoiceInterface.performAll clock config ops
                          VoiceInterface.initialState)).
    { unfold VoiceInterface.performAll.
      assert (Hinit : VoiceInterface.historyBounded VoiceInterface.initialState).
      { intros sid context Hlookup. cbn in Hlookup.
        rewrite lookup_empty in Hlookup. discriminate. }
      revert Hinit. generalize VoiceInterface.initialState.
      induction ops as [|op ops IH]; intros st Hbounded; [exact Hbounded|].
      cbn [fold_left]. apply IH.
      destruct op; cbn [VoiceInterface.perform].
      - apply preserves_setContext, Hbounded.
      - apply preserves_delete, Hbounded.
      - apply preserves_switchInputMode, Hbounded.
      - apply preserves_markFallbackSuggested, Hbounded.
      - apply preserves_cleanupExpiredContexts, Hbounded.
      - apply preserves_convertSpeechToText, Hbounded.
      - apply preserves_processTextInput, Hbounded. }
    exact Hreach.
  - intros sid i st Hbounded. destruct i; cbn [VoiceInterface.interact].
    + apply preserves_setContext, Hbounded.
    + apply preserves_updateContextOnSuccess, Hbounded.
    + apply preserves_updateContextOnFailure, Hbounded.
    + apply preserves_switchInputMode, Hbounded.
  - intros sid steps st Hpreserve Hexists Hlong.
    destruct steps as [|i steps]; [cbn in Hlong; lia|].
    assert (Hfirst : is_Some (VoiceInterface.contexts st !! sid)
                     \/ (exists language mode, i = VoiceInterface.ContextSet language mode)).
    { destruct Hexists as [Hsome | (language & mode & rest & Heq)]; [left; exact Hsome|].
      right. exists language, mode. congruence. }
    pose proof (recordsOf_length clock config sid (i :: steps) st) as Hlength.
    rewrite (interactAll_history clock config sid steps Hpreserve i st Hfirst).
    rewrite slice_last_app_long by lia.
    split; [reflexivity|]. split; [exact Hlength|].
    rewrite slice_last_length. lia.
Qed.

Lemma history_bounded_and_most_recent_witness :
  VoiceInterface.historyOf "s1"
    (VoiceInterface.interactAll VoiceInterface.sampleClock VoiceInterface.defaultConfig
       "s1" VoiceInterface.twelveInteractions VoiceInterface.initialState)
  = Js.slice_last 10
      (VoiceInterface.recordsOf VoiceInterface.sampleClock VoiceInterface.defaultConfig
         "s1" VoiceInterface.twelveInteractions VoiceInterface.initialState)
  /\ length
       (VoiceInterface.recordsOf VoiceInterface.sampleClock VoiceInterface.defaultConfig
          "s1" VoiceInterface.twelveInteractions VoiceInterface.initialState) = 12%nat
  /\ length
       (VoiceInterface.historyOf "s1"
          (VoiceInterface.interactAll VoiceInterface.sampleClock
             VoiceInterface.defaultConfig "s1" VoiceInterface.twelveInteractions
             VoiceInterface.initialState)) = 10%nat.
Proof.
  apply (proj2 (proj2 (history_bounded_and_most_recent VoiceInterface.sampleClock
                         VoiceInterface.defaultConfig))
           "s1"%string VoiceInterface.twelveInteractions VoiceInterface.initialState).
  - reflexivity.
  - right. eexists _, _, _. reflexivity.
  - cbn. lia.
Defined.

(* ===================================================================== *)
(** * Further verified properties *)
(* ===================================================================== *)

(** ** Further properties of the session orchestrator *)

Section SessionFrames.
Import Js VoiceInterface.
Variable clock : nat -> Z.
Variable config : VoiceInterfaceConfig.

(** The two context updates touch the entry of their own session only. *)
Lemma updateContextOnFailure_other sid mode st sid' :
  sid' <> sid ->
  contexts (snd (updateContextOnFailure clock config sid mode st)) !! sid'
  = contexts st !! sid'.
Proof.
  intros Hother.
  destruct (contexts st !! sid) as [context|] eqn:Hlookup.
  - destruct (updateContextOnFailure_present clock config sid mode st context Hlookup)
      as (fs & context' & Heq & _).
    rewrite Heq. cbn. apply lookup_insert_ne. congruence.
  - rewrite updateContextOnFailure_absent by assumption. reflexivity.
Qed.

Lemma updateContextOnSuccess_other sid language mode st sid' :
  sid' <> sid ->
  contexts (snd (updateContextOnSuccess clock config sid language mode st)) !! sid'
  = contexts st !! sid'.
Proof.
  intros Hother.
  destruct (preserveContext config) eqn:Hpreserve.
  - destruct (contexts st !! sid) as [context|] eqn:Hlookup.
    + destruct (updateContextOnSuccess_present clock config sid language mode st context
                  Hlookup Hpreserve) as (context' & Heq & _).
      rewrite Heq. cbn. apply lookup_insert_ne. congruence.
    + rewrite updateContextOnSuccess_absent by assumption. reflexivity.
  - rewrite updateContextOnSuccess_disabled by assumption. reflexivity.
Qed.

(** What [processTextInput] does with a text that is not blank: it reads the
    clock, resolves the language, records a success and reads the clock
    again; it cannot throw. *)
Lemma processTextInput_accepted textInput sid language st :
  isBlank textInput = false ->
  let target := languageBySessionPrecedence config language (contexts st !! sid) in
  let st1 := {| contexts := contexts st; ticks := S (ticks st); calls := calls st |} in
  let st2 := snd (updateContextOnSuccess clock config sid target text st1) in
  processTextInput clock config textInput sid language st
  = (Ok {| processedText := trim textInput;
           pt_detectedLanguage := target;
           pt_confidence := 1.0 |},
     {| contexts := contexts st2; ticks := S (ticks st2); calls := calls st2 |}).
Proof.
  intros Hblank. cbv zeta.
  unfold processTextInput. rewrite Hblank.
  unfold bind at 1. unfold new_Date at 1.
  unfold try_catch. unfold bind at 1. unfold contexts_get at 1.
  cbn [contexts].
  unfold languageBySessionPrecedence.
  unfold bind at 1.
  match goal with |- context [updateContextOnSuccess ?c ?g ?s ?l ?m ?x] =>
    assert (Hok : fst (updateContextOnSuccess c g s l m x) = Ok tt);
    [| destruct (updateContextOnSuccess c g s l m x) as [r st2] ] end.
  { unfold updateContextOnSuccess, contexts_get, contexts_set, new_Date. unfold_monad.
    destruct (negb (preserveContext config)); [reflexivity|]. cbv beta.
    match goal with |- context [match ?o with Some _ => _ | None => _ end] =>
      destruct o end; reflexivity. }
  cbn in Hok. subst r. reflexivity.
Qed.

End SessionFrames.

Section SessionOperations.
Import Js VoiceInterface VoiceInterfaceOps.
Variable clock : nat -> Z.
Variable config : VoiceInterfaceConfig.

Lemma markFallbackSuggested_present sid st context :
  contexts st !! sid = Some context ->
  exists context',
    markFallbackSuggested sid st
    = (Ok tt, {| contexts := <[sid := context']> (contexts st);
                 ticks := ticks st; calls := calls st |})
    /\ fallbackSuggested context' = true
    /\ failureCount context' = failureCount context
    /\ inputMode context' = inputMode context
    /\ conversationHistory context' = conversationHistory context.
Proof.
  intros Hlookup. unfold markFallbackSuggested, contexts_get, contexts_set. unfold_monad.
  rewrite Hlookup. eexists. split; [reflexivity|]. cbn. repeat split; reflexivity.
Qed.

Lemma markFallbackSuggested_absent sid st :
  contexts st !! sid = None -> markFallbackSuggested sid st = (Ok tt, st).
Proof.
  intros Hlookup. unfold markFallbackSuggested, contexts_get. unfold_monad.
  rewrite Hlookup. reflexivity.
Qed.

Lemma state_eta st :
  {| contexts := contexts st; ticks := ticks st; calls := calls st |} = st.
Proof. destruct st. reflexivity. Qed.

(** Every operation leaves alone the sessions it is not addressed to. *)
Lemma perform_other op st sid' :
  op <> OpCleanupExpiredContexts ->
  addressee op <> Some sid' ->
  contexts (perform clock config op st) !! sid' = contexts st !! sid'.
Proof.
  intros Hcleanup Hother.
  destruct op as [sid language mode | sid | sid newMode | sid | |
                  sttService audio language sid | textInput sid language];
    cbn [perform addressee] in *.
  - assert (Hne : sid <> sid') by congruence.
    unfold setContext, contexts_get, contexts_set, new_Date. unfold_monad.
    destruct (negb (preserveContext config)); [reflexivity|].
    cbn. apply lookup_insert_ne. exact Hne.
  - assert (Hne : sid <> sid') by congruence.
    cbn. apply lookup_delete_ne. exact Hne.
  - assert (Hne : sid <> sid') by congruence.
    destruct (contexts st !! sid) as [context|] eqn:Hlookup.
    + destruct (switchInputMode_present clock sid newMode st context Hlookup)
        as (context' & Heq & _).
      rewrite Heq. cbn. apply lookup_insert_ne. exact Hne.
    + rewrite switchInputMode_absent by assumption. reflexivity.
  - assert (Hne : sid <> sid') by congruence.
    destruct (contexts st !! sid) as [context|] eqn:Hlookup.
    + destruct (markFallbackSuggested_present sid st context Hlookup)
        as (context' & Heq & _).
      rewrite Heq. cbn. apply lookup_insert_ne. exact Hne.
    + rewrite markFallbackSuggested_absent by assumption. reflexivity.
  - congruence.
  - destruct (enableVoiceInput config) eqn:Henabled.
    + destruct (serviceOutcome sttService audio
                  (Some (targetLanguage config sttService audio language)))
        as [r|e] eqn:Hout.
      * rewrite (convertSpeechToText_success clock config _ _ _ _ _ r) by assumption.
        cbv zeta. cbn [snd advance contexts].
        destruct sid as [sid|]; cbn [opt_truthy]; [|reflexivity].
        destruct (truthy sid) eqn:Hsid; [|reflexivity].
        rewrite (truthy_or_else sid Hsid).
        rewrite updateContextOnSuccess_other by congruence. reflexivity.
      * rewrite (convertSpeechToText_failure clock config _ _ _ _ _ e) by assumption.
        cbv zeta.
        destruct sid as [sid|]; cbn [opt_truthy]; [|reflexivity].
        destruct (truthy sid) eqn:Hsid; [|reflexivity].
        rewrite (truthy_or_else sid Hsid).
        pose proof (updateContextOnFailure_other clock config sid voice
                      (advance 2 (attemptCalls config sttService audio language) st) sid')
          as Hframe.
        destruct (updateContextOnFailure clock config sid voice
                    (advance 2 (attemptCalls config sttService audio language) st))
          as [[fs|e'] st3]; cbn [fst snd] in *.
        -- destruct (shouldSuggestFallback fs); cbn [snd]; apply Hframe; congruence.
        -- apply Hframe; congruence.
    + unfold convertSpeechToText. rewrite Henabled. reflexivity.
  - assert (Hne : sid <> sid') by congruence.
    destruct (isBlank textInput) eqn:Hblank.
    + unfold processTextInput. rewrite Hblank. reflexivity.
    + rewrite (processTextInput_accepted clock config textInput sid language st Hblank).
      cbn [snd contexts].
      rewrite updateContextOnSuccess_other by congruence. reflexivity.
Qed.

End SessionOperations.

Section SessionExtras.
Import Js VoiceInterface VoiceInterfaceOps.

(** [switchInputMode] on a session that has a context answers [true] and
    gives the session a fresh start in the new modality: the failure count
    is 0 and no fallback counts as suggested, whatever they were; the
    language and the number of interactions are kept. *)
Theorem switchInputMode_fresh_start :
  forall (clock : nat -> Z) (sid : string) (newMode : InputMode) (st : State)
         (context : VoiceContext),
    contexts st !! sid = Some context ->
    fst (switchInputMode clock sid newMode st) = Ok true
    /\ exists context',
         contexts (snd (switchInputMode clock sid newMode st)) !! sid = Some context'
         /\ inputMode context' = newMode
         /\ failureCount context' = 0
         /\ fallbackSuggested context' = false
         /\ currentLanguage context' = currentLanguage context
         /\ totalInteractions context' = totalInteractions context.
Proof.
  intros clock sid newMode st context Hlookup.
  destruct (switchInputMode_present clock sid newMode st context Hlookup)
    as (context' & Heq & Hcount & Hflag & Hmode & Hlanguage & Htotal & _).
  rewrite Heq. cbn [fst snd contexts]. split; [reflexivity|].
  exists context'. rewrite lookup_insert_eq. repeat split; assumption.
Qed.

Lemma switchInputMode_fresh_start_witness :
  exists context,
    contexts (snd runAcrossSuccess) !! "s1"%string = Some context
    /\ fallbackSuggested context = true
    /\ fst (switchInputMode sampleClock "s1" text (snd runAcrossSuccess)) = Ok true
    /\ exists context',
         contexts (snd (switchInputMode sampleClock "s1" text (snd runAcrossSuccess)))
           !! "s1"%string = Some context'
         /\ inputMode context' = text
         /\ failureCount context' = 0
         /\ fallbackSuggested context' = false
         /\ currentLanguage context' = currentLanguage context
         /\ totalInteractions context' = totalInteractions context.
Proof.
  eexists. split; [vm_compute; reflexivity|]. split; [reflexivity|].
  apply (switchInputMode_fresh_start sampleClock "s1"%string text (snd runAcrossSuccess)).
  vm_compute. reflexivity.
Defined.

(** Operations addressed to a session id that has no context are no-ops,
    never errors: [switchInputMode] answers [false], [getFallbackSuggestion]
    answers [null], [markFallbackSuggested] and [clearContext] do nothing;
    the state is the one before the call. *)
Theorem unknown_session_is_left_alone :
  forall (clock : nat -> Z) (config : VoiceInterfaceConfig) (sid : string)
         (newMode : InputMode) (st : State),
    contexts st !! sid = None ->
    switchInputMode clock sid newMode st = (Ok false, st)
    /\ getFallbackSuggestion config sid st = (Ok None, st)
    /\ markFallbackSuggested sid st = (Ok tt, st)
    /\ clearContext sid st = (Ok tt, st).
Proof.
  intros clock config sid newMode st Habsent.
  split; [apply switchInputMode_absent; assumption|].
  split.
  { unfold getFallbackSuggestion, contexts_get. unfold_monad. rewrite Habsent. reflexivity. }
  split; [apply markFallbackSuggested_absent; assumption|].
  unfold clearContext, contexts_delete, modify.
  rewrite delete_id by assumption. rewrite state_eta. reflexivity.
Qed.

Lemma unknown_session_is_left_alone_witness :
  switchInputMode sampleClock "nobody" text (s1_voice_hi defaultConfig)
  = (Ok false, s1_voice_hi defaultConfig)
  /\ getFallbackSuggestion defaultConfig "nobody" (s1_voice_hi defaultConfig)
     = (Ok None, s1_voice_hi defaultConfig)
  /\ markFallbackSuggested "nobody" (s1_voice_hi defaultConfig)
     = (Ok tt, s1_voice_hi defaultConfig)
  /\ clearContext "nobody" (s1_voice_hi defaultConfig)
     = (Ok tt, s1_voice_hi defaultConfig).
Proof.
  apply (unknown_session_is_left_alone sampleClock defaultConfig "nobody"%string text
           (s1_voice_hi defaultConfig)).
  vm_compute. reflexivity.
Defined.

(** [setContext] stores the language and the modality under the session id
    and counts one interaction, but it does not reset the failure state: a
    session that already has a context keeps its failure count and its
    fallback-suggested flag.  So after a fallback has been suggested,
    setting the context again does not re-arm it: the failing calls that
    follow raise no fallback-eligible error. *)
Theorem setContext_keeps_failure_state :
  forall (clock : nat -> Z) (config : VoiceInterfaceConfig) (sid : string)
         (language : LanguageCode) (mode : InputMode) (st : State) (old : VoiceContext),
    preserveContext config = true ->
    contexts st !! sid = Some old ->
    (exists context',
        contexts (snd (setContext clock config sid language mode st)) !! sid = Some context'
        /\ currentLanguage context' = language
        /\ inputMode context' = mode
        /\ lastInteraction context' = clock (ticks st)
        /\ failureCount context' = failureCount old
        /\ fallbackSuggested context' = fallbackSuggested old
        /\ totalInteractions context' = totalInteractions old + 1)
    /\ (enableVoiceInput config = true -> truthy sid = true ->
        fallbackSuggested old = true ->
        forall cs : list SpeechCall,
          forallb is_Throw
            (fst (speechCalls clock config (Some sid) cs
                    (snd (setContext clock config sid language mode st)))) = true ->
          map raisedFallback
            (fst (speechCalls clock config (Some sid) cs
                    (snd (setContext clock config sid language mode st))))
          = repeat false (length cs)).
Proof.
  intros clock config sid language mode st old Hpreserve Hlookup.
  assert (Hset : exists context',
             contexts (snd (setContext clock config sid language mode st)) !! sid
             = Some context'
             /\ currentLanguage context' = language
             /\ inputMode context' = mode
             /\ lastInteraction context' = clock (ticks st)
             /\ failureCount context' = failureCount old
             /\ fallbackSuggested context' = fallbackSuggested old
             /\ totalInteractions context' = totalInteractions old + 1).
  { unfold setContext, contexts_get, contexts_set, new_Date. unfold_monad.
    rewrite Hpreserve. cbn. rewrite Hlookup.
    eexists. rewrite lookup_insert_eq. split; [reflexivity|]. cbn.
    repeat split; reflexivity. }
  split; [exact Hset|].
  intros Henabled Hsid Hflag cs Hfail.
  destruct Hset as (context' & Hlookup' & _ & _ & _ & _ & Hflag' & _).
  rewrite Hflag in Hflag'.
  destruct (failing_run_suppressed clock config sid cs Henabled Hsid _ context'
              Hlookup' Hflag' Hfail) as (_ & _ & _ & Hflags).
  exact Hflags.
Qed.

Lemma setContext_keeps_failure_state_witness :
  map raisedFallback
    (fst (speechCalls sampleClock defaultConfig (Some "s1"%string)
            [failingCall; failingCall; failingCall]
            (snd (setContext sampleClock defaultConfig "s1" "en" voice
                    (snd runAcrossSuccess)))))
  = [false; false; false].
Proof.
  refine (proj2 (setContext_keeps_failure_state sampleClock defaultConfig "s1"%string
                   "en"%string voice (snd runAcrossSuccess) _ eq_refl _)
            eq_refl eq_refl _ [failingCall; failingCall; failingCall] _).
  - vm_compute. reflexivity.
  - reflexivity.
  - vm_compute. reflexivity.
Defined.

(** Clearing a session and setting its context again is a full reset: the
    new context has no failures, no fallback suggested, one interaction and
    a history of exactly one record, whatever the session held before. *)
Theorem clearContext_then_setContext_resets :
  forall (clock : nat -> Z) (config : VoiceInterfaceConfig) (sid : string)
         (language : LanguageCode) (mode : InputMode) (st : State),
    preserveContext config = true ->
    exists context',
      contexts (snd (setContext clock config sid language mode
                       (snd (clearContext sid st)))) !! sid = Some context'
      /\ failureCount context' = 0
      /\ fallbackSuggested context' = false
      /\ totalInteractions context' = 1
      /\ conversationHistory context'
         = [ {| timestamp := clock (ticks st); h_inputMode := mode;
                success := true; h_language := language |} ].
Proof.
  intros clock config sid language mode st Hpreserve.
  unfold setContext, clearContext, contexts_delete, contexts_get, contexts_set, new_Date.
  unfold_monad. rewrite Hpreserve. cbn.
  rewrite lookup_delete_eq.
  eexists. rewrite lookup_insert_eq. split; [reflexivity|]. cbn.
  repeat split; reflexivity.
Qed.

Lemma clearContext_then_setContext_resets_witness :
  exists context',
    contexts (snd (setContext sampleClock defaultConfig "s1" "hi" voice
                     (snd (clearContext "s1" (snd runAcrossSuccess))))) !! "s1"%string
    = Some context'
    /\ failureCount context' = 0
    /\ fallbackSuggested context' = false
    /\ totalInteractions context' = 1
    /\ conversationHistory context'
       = [ {| timestamp := sampleClock (ticks (snd runAcrossSuccess));
              h_inputMode := voice; success := true; h_language := "hi"%string |} ].
Proof.
  exact (clearContext_then_setContext_resets sampleClock defaultConfig "s1"%string
           "hi"%string voice (snd runAcrossSuccess) eq_refl).
Defined.

(** Sessions are isolated: an operation addressed to one session id (or to
    none) leaves the context of every other session exactly as it was.  Only
    the expiry sweep touches sessions it is not addressed to. *)
Theorem operations_leave_other_sessions_alone :
  forall (clock : nat -> Z) (config : VoiceInterfaceConfig) (op : Operation)
         (st : State) (other : string),
    op <> OpCleanupExpiredContexts ->
    addressee op <> Some other ->
    contexts (perform clock config op st) !! other = contexts st !! other.
Proof.
  intros clock config op st other Hsweep Hother.
  apply perform_other; assumption.
Qed.

Lemma operations_leave_other_sessions_alone_witness :
  contexts (perform sampleClock defaultConfig
              (OpConvertSpeechToText failingService sampleAudio None (Some "s2"%string))
              (s1_voice_hi defaultConfig)) !! "s1"%string
  = contexts (s1_voice_hi defaultConfig) !! "s1"%string.
Proof.
  apply (operations_leave_other_sessions_alone sampleClock defaultConfig
           (OpConvertSpeechToText failingService sampleAudio None (Some "s2"%string))
           (s1_voice_hi defaultConfig) "s1"%string).
  - discriminate.
  - cbn. discriminate.
Defined.

End SessionExtras.

Section SessionExtras2.
Import Js VoiceInterface VoiceInterfaceOps.

(** [processTextInput] accepts every text that is not blank: it answers with
    the trimmed text, full confidence and the language chosen by the
    precedence explicit language, session's current language, configured
    default; it never calls the recognition service.  On a session with a
    context it counts as a success (failure count 0, current language
    set to the chosen one) but leaves the session's modality and its
    fallback-suggested flag as they are; for a session without a context
    nothing is stored. *)
Theorem processTextInput_accepts_text :
  forall (clock : nat -> Z) (config : VoiceInterfaceConfig) (textInput : JsString)
         (sid : string) (language : option LanguageCode) (st : State),
    whitespaceOnly textInput = false ->
    fst (processTextInput clock config textInput sid language st)
    = Ok {| processedText := trim textInput;
            pt_detectedLanguage :=
              languageBySessionPrecedence config language (contexts st !! sid);
            pt_confidence := 1.0 |}
    /\ calls (snd (processTextInput clock config textInput sid language st)) = calls st
    /\ (contexts st !! sid = None ->
        contexts (snd (processTextInput clock config textInput sid language st))
        = contexts st)
    /\ (forall context,
           contexts st !! sid = Some context -> preserveContext config = true ->
           exists context',
             contexts (snd (processTextInput clock config textInput sid language st)) !! sid
             = Some context'
             /\ failureCount context' = 0
             /\ currentLanguage context'
                = languageBySessionPrecedence config language (contexts st !! sid)
             /\ inputMode context' = inputMode context
             /\ fallbackSuggested context' = fallbackSuggested context
             /\ totalInteractions context' = totalInteractions context + 1).
Proof.
  intros clock config textInput sid language st Htext.
  assert (Hblank : isBlank textInput = false)
    by (rewrite isBlank_eq_whitespaceOnly; exact Htext).
  rewrite (processTextInput_accepted clock config textInput sid language st Hblank).
  cbn [fst snd contexts calls].
  split; [reflexivity|].
  split; [rewrite updateContextOnSuccess_calls; reflexivity|].
  split.
  - intros Habsent.
    rewrite updateContextOnSuccess_absent by exact Habsent. reflexivity.
  - intros context Hlookup Hpreserve.
    destruct (updateContextOnSuccess_present clock config sid
                (languageBySessionPrecedence config language (contexts st !! sid)) text
                {| contexts := contexts st; ticks := S (ticks st); calls := calls st |}
                context Hlookup Hpreserve)
      as (context' & Heq & Hcount & Hflag & Hmode & Hlanguage & Htotal & _).
    rewrite Heq. cbn [snd contexts].
    exists context'. rewrite lookup_insert_eq. repeat split; assumption.
Qed.

Lemma processTextInput_accepts_text_witness :
  fst (processTextInput sampleClock defaultConfig (text_of "  help me ") "s1" None
         s1_voice_ta)
  = Ok {| processedText := text_of "help me";
          pt_detectedLanguage := "ta"%string;
          pt_confidence := 1.0 |}.
Proof.
  exact (proj1 (processTextInput_accepts_text sampleClock defaultConfig
                  (text_of "  help me ") "s1"%string None s1_voice_ta eq_refl)).
Defined.

(** A successful recognition on a session with a context returns the
    service's result as it is, resets the failure count to 0, makes the
    language handed to the service the session's current language and counts
    one interaction; the modality and the fallback-suggested flag stay. *)
Theorem successful_recognition_resets_failures :
  forall (clock : nat -> Z) (config : VoiceInterfaceConfig)
         (sttService : SpeechToTextService) (audio : AudioProcessor.Blob)
         (language : option LanguageCode) (sid : string) (st : State)
         (context : VoiceContext) (result : TranscriptionResult),
    enableVoiceInput config = true ->
    preserveContext config = true ->
    truthy sid = true ->
    contexts st !! sid = Some context ->
    serviceOutcome sttService audio
      (Some (targetLanguage config sttService audio language)) = Ok result ->
    fst (convertSpeechToText clock config sttService audio language (Some sid) st)
    = Ok result
    /\ exists context',
         contexts (snd (convertSpeechToText clock config sttService audio language
                          (Some sid) st)) !! sid = Some context'
         /\ failureCount context' = 0
         /\ currentLanguage context' = targetLanguage config sttService audio language
         /\ totalInteractions context' = totalInteractions context + 1
         /\ inputMode context' = inputMode context
         /\ fallbackSuggested context' = fallbackSuggested context.
Proof.
  intros clock config sttService audio language sid st context result
         Henabled Hpreserve Hsid Hlookup Hworks.
  rewrite (convertSpeechToText_success clock config _ _ _ _ _ result) by assumption.
  cbv zeta. cbn [fst snd opt_truthy]. rewrite Hsid, (truthy_or_else sid Hsid).
  split; [reflexivity|].
  destruct (updateContextOnSuccess_present clock config sid
              (targetLanguage config sttService audio language) voice
              (advance 1 (attemptCalls config sttService audio language) st)
              context Hlookup Hpreserve)
    as (context' & Heq & Hcount & Hflag & Hmode & Hlanguage & Htotal & _).
  rewrite Heq. cbn [snd advance contexts].
  exists context'. rewrite lookup_insert_eq. repeat split; assumption.
Qed.

Lemma successful_recognition_resets_failures_witness :
  exists context,
    contexts (snd runWithoutFallback) !! "s1"%string = Some context
    /\ failureCount context = 3
    /\ fst (convertSpeechToText sampleClock defaultConfig workingService sampleAudio
              (Some "en"%string) (Some "s1"%string) (snd runWithoutFallback))
       = Ok sampleResult
    /\ exists context',
         contexts (snd (convertSpeechToText sampleClock defaultConfig workingService
                          sampleAudio (Some "en"%string) (Some "s1"%string)
                          (snd runWithoutFallback))) !! "s1"%string = Some context'
         /\ failureCount context' = 0
         /\ currentLanguage context'
            = targetLanguage defaultConfig workingService sampleAudio (Some "en"%string)
         /\ totalInteractions context' = totalInteractions context + 1
         /\ inputMode context' = inputMode context
         /\ fallbackSuggested context' = fallbackSuggested context.
Proof.
  eexists. split; [vm_compute; reflexivity|]. split; [reflexivity|].
  apply (successful_recognition_resets_failures sampleClock defaultConfig workingService
           sampleAudio (Some "en"%string) "s1"%string (snd runWithoutFallback)).
  - reflexivity.
  - reflexivity.
  - reflexivity.
  - vm_compute. reflexivity.
  - reflexivity.
Defined.



End SessionExtras2.

Section SessionExtras3.
Import Js VoiceInterface VoiceInterfaceOps.



(** [markFallbackSuggested] silences the recommendation: after it, no run of
    failing calls on the session raises a fallback-eligible error, and
    [getFallbackSuggestion] answers that none should be suggested. *)
Theorem markFallbackSuggested_suppresses :
  forall (clock : nat -> Z) (config : VoiceInterfaceConfig) (sid : string)
         (st : State) (context : VoiceContext),
    enableVoiceInput config = true ->
    truthy sid = true ->
    contexts st !! sid = Some context ->
    fst (getFallbackSuggestion config sid (snd (markFallbackSuggested sid st)))
    = Ok (Some (noSuggestion (failureCount context)))
    /\ forall cs : list SpeechCall,
         forallb is_Throw
           (fst (speechCalls clock config (Some sid) cs
                   (snd (markFallbackSuggested sid st)))) = true ->
         map raisedFallback
           (fst (speechCalls clock config (Some sid) cs
                   (snd (markFallbackSuggested sid st))))
         = repeat false (length cs).
Proof.
  intros clock config sid st context Henabled Hsid Hlookup.
  destruct (markFallbackSuggested_present sid st context Hlookup)
    as (context' & Heq & Hflag & Hcount & _).
  rewrite Heq. cbn [snd].
  assert (Hlookup' :
            contexts {| contexts := <[sid:=context']> (contexts st);
                        ticks := ticks st; calls := calls st |} !! sid = Some context')
    by apply lookup_insert_eq.
  split.
  - unfold getFallbackSuggestion, contexts_get. unfold_monad.
    rewrite Hlookup'. rewrite Hflag, Hcount. cbn [negb].
    rewrite andb_false_r. reflexivity.
  - intros cs Hfail.
    destruct (failing_run_suppressed clock config sid cs Henabled Hsid _ context'
                Hlookup' Hflag Hfail) as (_ & _ & _ & Hflags).
    exact Hflags.
Qed.

Lemma markFallbackSuggested_suppresses_witness :
  map raisedFallback
    (fst (speechCalls sampleClock defaultConfig (Some "s1"%string)
            [failingCall; failingCall; failingCall]
            (snd (markFallbackSuggested "s1" (s1_voice_hi defaultConfig)))))
  = [false; false; false].
Proof.
  refine (proj2 (markFallbackSuggested_suppresses sampleClock defaultConfig "s1"%string
                   (s1_voice_hi defaultConfig) _ eq_refl eq_refl _)
            [failingCall; failingCall; failingCall] _).
  - vm_compute. reflexivity.
  - vm_compute. reflexivity.
Defined.

(** The error of the failure that reaches the threshold: a [VoiceInputError]
    with [suggestTextFallback] set, whose message names the new failure count
    and whose suggestion carries that count, the reason [multiple_failures]
    and the modality of the most recent successful record of the history;
    the context is marked as having had its fallback suggested. *)
Theorem fallback_error_carries_suggestion :
  forall (clock : nat -> Z) (config : VoiceInterfaceConfig)
         (sttService : SpeechToTextService) (audio : AudioProcessor.Blob)
         (language : option LanguageCode) (sid : string) (st : State)
         (context : VoiceContext),
    enableVoiceInput config = true ->
    truthy sid = true ->
    contexts st !! sid = Some context ->
    raisedFallback (fst (convertSpeechToText clock config sttService audio language
                           (Some sid) st)) = true ->
    exists context',
      contexts (snd (convertSpeechToText clock config sttService audio language
                       (Some sid) st)) !! sid = Some context'
      /\ fallbackSuggested context' = true
      /\ failureCount context' = failureCount context + 1
      /\ maxFailuresBeforeFallback config <= failureCount context'
      /\ fst (convertSpeechToText clock config sttService audio language (Some sid) st)
         = Throw (VoiceInputError (fallbackMessage (failureCount context')) true
                    (Some {| shouldSuggestFallback := true;
                             reason := multiple_failures;
                             fs_failureCount := failureCount context';
                             lastSuccessfulMode :=
                               option_map h_inputMode
                                 (find_last success (conversationHistory context')) |})).
Proof.
  intros clock config sttService audio language sid st context Henabled Hsid Hlookup Hraised.
  assert (Hfails : is_Throw (fst (convertSpeechToText clock config sttService audio
                                    language (Some sid) st)) = true).
  { destruct (fst (convertSpeechToText clock config sttService audio language
                     (Some sid) st)); [discriminate | reflexivity]. }
  rewrite (convertSpeechToText_fails_iff clock config) in Hfails by assumption.
  destruct (serviceOutcome sttService audio
              (Some (targetLanguage config sttService audio language))) as [r|e] eqn:Hout;
    [discriminate|].
  revert Hraised.
  rewrite (convertSpeechToText_failure clock config _ _ _ _ _ e) by assumption.
  cbv zeta. cbn [opt_truthy]. rewrite Hsid, (truthy_or_else sid Hsid).
  unfold updateContextOnFailure, contexts_get, contexts_set, new_Date. unfold_monad.
  cbn [advance contexts ticks calls]. rewrite Hlookup. cbn [fst snd].
  match goal with |- context [if ?c then _ else _] => destruct c eqn:Hcond end;
    cbn; [|discriminate].
  intros _.
  apply andb_true_iff in Hcond as [Hcond _].
  apply andb_true_iff in Hcond as [Hcond _].
  apply andb_true_iff in Hcond as [_ Hcount].
  apply Z.leb_le in Hcount.
  eexists. rewrite lookup_insert_eq. split; [reflexivity|]. cbn.
  repeat split; try reflexivity. exact Hcount.
Qed.

Lemma fallback_error_carries_suggestion_witness :
  exists context,
    contexts (snd runWithoutFallback) !! "s1"%string = Some context
    /\ failureCount context = 3
    /\ exists context',
         contexts (snd (convertSpeechToText sampleClock defaultConfig failingService
                          sampleAudio None (Some "s1"%string) (snd runWithoutFallback)))
           !! "s1"%string = Some context'
         /\ fallbackSuggested context' = true
         /\ failureCount context' = failureCount context + 1
         /\ maxFailuresBeforeFallback defaultConfig <= failureCount context'
         /\ fst (convertSpeechToText sampleClock defaultConfig failingService sampleAudio
                   None (Some "s1"%string) (snd runWithoutFallback))
            = Throw (VoiceInputError (fallbackMessage (failureCount context')) true
                       (Some {| shouldSuggestFallback := true;
                                reason := multiple_failures;
                                fs_failureCount := failureCount context';
                                lastSuccessfulMode :=
                                  option_map h_inputMode
                                    (find_last success (conversationHistory context')) |})).
Proof.
  eexists. split; [vm_compute; reflexivity|]. split; [reflexivity|].
  apply (fallback_error_carries_suggestion sampleClock defaultConfig failingService
           sampleAudio None "s1"%string (snd runWithoutFallback)).
  - reflexivity.
  - reflexivity.
  - vm_compute. reflexivity.
  - vm_compute. reflexivity.
Defined.

End SessionExtras3.

Section SessionExtras4.
Import Js VoiceInterface VoiceInterfaceOps.

(** The expiry sweep reads the clock once and removes exactly the sessions
    whose last interaction lies more than the configured timeout before that
    reading; a session idle for exactly the timeout stays.  The sessions that
    stay are unchanged, and the number returned is the number removed. *)
Theorem cleanupExpiredContexts_removes_the_expired :
  forall (clock : nat -> Z) (config : VoiceInterfaceConfig) (st : State),
    (forall (sid : string) (context : VoiceContext),
        contexts (snd (cleanupExpiredContexts clock config st)) !! sid = Some context
        <-> contexts st !! sid = Some context
            /\ clock (ticks st) - lastInteraction context
               <= contextTimeoutMinutes config * 60 * 1000)
    /\ fst (cleanupExpiredContexts clock config st)
       = Ok (Z.of_nat
               (size (filter (fun kv : string * VoiceContext =>
                                expired config (clock (ticks st)) (snd kv) = true)
                        (contexts st))))
    /\ Z.of_nat (size (contexts (snd (cleanupExpiredContexts clock config st))))
       = Z.of_nat (size (contexts st))
         - Z.of_nat
             (size (filter (fun kv : string * VoiceContext =>
                              expired config (clock (ticks st)) (snd kv) = true)
                      (contexts st))).
Proof.
  intros clock config st.
  unfold cleanupExpiredContexts, new_Date. unfold_monad. cbn [fst snd contexts ticks].
  set (now := clock (ticks st)).
  set (kept := filter (fun kv : string * VoiceContext => expired config now (snd kv) = false)
                 (contexts st)).
  set (gone := filter (fun kv : string * VoiceContext => expired config now (snd kv) = true)
                 (contexts st)).
  assert (Hsplit : size (contexts st) = (size kept + size gone)%nat).
  { rewrite <- map_size_disj_union.
    - f_equal. symmetry.
      rewrite <- (map_filter_union_complement
                    (fun kv : string * VoiceContext => expired config now (snd kv) = false)
                    (contexts st)) at 1.
      f_equal. apply map_filter_ext. intros i x _. cbn.
      destruct (expired config now x); split; congruence.
    - subst kept gone. apply map_disjoint_spec. intros i x y Hx Hy.
      apply map_lookup_filter_Some in Hx as [Hx1 Hx2].
      apply map_lookup_filter_Some in Hy as [Hy1 Hy2].
      cbn in *. congruence. }
  split; [|split].
  - intros sid context. subst kept. rewrite map_lookup_filter_Some. cbn.
    unfold expired. rewrite Z.ltb_ge. reflexivity.
  - f_equal. f_equal. lia.
  - lia.
Qed.

(** [getContextStats] only reads (and reads the clock once): every session
    is counted in exactly one of the two modalities, the total is the number
    of contexts in the registry, and the active sessions are among them. *)
Theorem getContextStats_counts :
  forall (clock : nat -> Z) (st : State),
    exists stats : ContextStats,
      getContextStats clock st
      = (Ok stats, {| contexts := contexts st; ticks := S (ticks st); calls := calls st |})
      /\ totalSessions stats = Z.of_nat (size (contexts st))
      /\ voiceModeSessions stats + textModeSessions stats = totalSessions stats
      /\ 0 <= activeSessions stats <= totalSessions stats.
Proof.
  intros clock st.
  unfold getContextStats, new_Date. unfold_monad.
  eexists. split; [reflexivity|]. cbn.
  set (values := List.map snd (map_to_list (contexts st))).
  assert (Hmodes : forall cs : list VoiceContext,
             count (fun c => InputMode_eqb (inputMode c) voice) cs
             + count (fun c => InputMode_eqb (inputMode c) text) cs
             = Z.of_nat (length cs)).
  { unfold count. induction cs as [|c cs IH]; [reflexivity|].
    cbn [List.filter]. destruct (inputMode c); cbn [InputMode_eqb length]; lia. }
  assert (Hactive : forall (p : VoiceContext -> bool) (cs : list VoiceContext),
             0 <= count p cs <= Z.of_nat (length cs)).
  { unfold count. intros p cs. pose proof (List.filter_length_le p cs). lia. }
  split; [|split].
  - subst values. rewrite length_map, length_map_to_list. reflexivity.
  - apply Hmodes.
  - apply Hactive.
Qed.

Lemma serviceIsAvailable_outcome impl log :
  fst (SpeechToText.serviceIsAvailable impl log)
  = Ok (SpeechToText.isAvailable (SpeechToText.cloudService impl)
        || (SpeechToText.fallbackToOffline (SpeechToText.config impl)
            && SpeechToText.isAvailable (SpeechToText.whisperService impl))).
Proof. reflexivity. Qed.

(** When [isVoiceInputAvailable] answers [false] for a
    [SpeechToTextServiceImpl], every [convertSpeechToText] call fails,
    whatever the audio, the language and the session: voice input is
    disabled, or the cascade has no usable backend. *)
Theorem unavailable_voice_input_always_fails :
  forall (clock : nat -> Z) (config : VoiceInterfaceConfig) (impl : SpeechToText.Impl)
         (audio : AudioProcessor.Blob) (language : option LanguageCode)
         (sid : option string) (st : State),
    isVoiceInputAvailable config (ServiceImpl impl) = false ->
    is_Throw (fst (convertSpeechToText clock config (ServiceImpl impl) audio language
                     sid st)) = true.
Proof.
  intros clock config impl audio language sid st Hunavailable.
  unfold isVoiceInputAvailable in Hunavailable.
  destruct (enableVoiceInput config) eqn:Henabled; cbn [negb] in Hunavailable.
  - rewrite serviceIsAvailable_outcome in Hunavailable.
    apply orb_false_iff in Hunavailable as [Hcloud Hoffline].
    rewrite convertSpeechToText_fails_iff by assumption.
    cbn [serviceOutcome].
    rewrite transcribe_nothing_usable by assumption. reflexivity.
  - unfold convertSpeechToText. rewrite Henabled. reflexivity.
Qed.

Lemma unavailable_voice_input_always_fails_witness :
  is_Throw (fst (convertSpeechToText sampleClock defaultConfig
                   (ServiceImpl (SpeechToText.offlineDisabled AudioProcessor.nodeFileReader))
                   sampleAudio None
                   (Some "s1"%string) (s1_voice_hi defaultConfig))) = true.
Proof.
  apply (unavailable_voice_input_always_fails sampleClock defaultConfig
           (SpeechToText.offlineDisabled AudioProcessor.nodeFileReader)
           sampleAudio None (Some "s1"%string)
           (s1_voice_hi defaultConfig)).
  reflexivity.
Defined.

End SessionExtras4.

(** ** Further properties of the recognition cascade *)

Section CascadeExtras.
Import SpeechToText SpeechToTextExamples.

(** A cloud transcription below the confidence threshold is never returned:
    the cascade moves on to Whisper and returns Whisper's outcome, whatever
    its confidence, when the offline fallback is enabled and available;
    otherwise it throws "No STT service available" and the cloud result is
    lost. *)
Theorem low_confidence_cloud_result_is_discarded :
  forall (this : Impl) (audio : AudioProcessor.Blob) (language : option LanguageCode)
         (log : list BackendCall) (result : TranscriptionResult),
    isAvailable (cloudService this) = true ->
    b_transcribe (cloudService this) audio language = Ok result ->
    (confidenceThreshold (config this) <=? confidence result)%float = false ->
    transcribe this audio language log
    = if fallbackToOffline (config this) && isAvailable (whisperService this)
      then (b_transcribe (whisperService this) audio language,
            log ++ [CloudIsAvailable; CloudTranscribe audio language;
                    WhisperIsAvailable; WhisperTranscribe audio language])
      else (Throw (Error "No STT service available"),
            log ++ [CloudIsAvailable; CloudTranscribe audio language]
                ++ (if fallbackToOffline (config this) then [WhisperIsAvailable] else [])).
Proof.
  intros this audio language log result Havailable Hresult Hlow.
  unfold transcribe, invoke. unfold_monad.
  rewrite Havailable, Hresult. cbn. rewrite Hlow.
  destruct (fallbackToOffline (config this)); cbn.
  - destruct (isAvailable (whisperService this)); cbn.
    + destruct (b_transcribe (whisperService this) audio language);
        rewrite <- !app_assoc; reflexivity.
    + rewrite <- !app_assoc. reflexivity.
  - rewrite <- !app_assoc. reflexivity.
Qed.

Lemma low_confidence_cloud_result_is_discarded_witness :
  transcribe (strictService AudioProcessor.nodeFileReader)
    VoiceInterface.sampleAudio (Some "hi"%string) []
  = (Throw (Error "No STT service available"),
     [CloudIsAvailable; CloudTranscribe VoiceInterface.sampleAudio (Some "hi"%string)]).
Proof.
  eapply (low_confidence_cloud_result_is_discarded
            (strictService AudioProcessor.nodeFileReader)
            VoiceInterface.sampleAudio (Some "hi"%string) []).
  - reflexivity.
  - reflexivity.
  - vm_compute. reflexivity.
Defined.

(** An error of the cloud transcription ends the cascade: it is thrown as it
    is and Whisper is not tried, although Whisper may be available. *)
Theorem cloud_error_is_not_retried_offline :
  forall (this : Impl) (audio : AudioProcessor.Blob) (language : option LanguageCode)
         (log : list BackendCall) (error : JsError),
    isAvailable (cloudService this) = true ->
    b_transcribe (cloudService this) audio language = Throw error ->
    transcribe this audio language log
    = (Throw error, log ++ [CloudIsAvailable; CloudTranscribe audio language]).
Proof.
  intros this audio language log error Havailable Hfails.
  unfold transcribe, invoke. unfold_monad.
  rewrite Havailable, Hfails. cbn. rewrite <- app_assoc. reflexivity.
Qed.

Lemma cloud_error_is_not_retried_offline_witness :
  transcribe (brokenCloudService AudioProcessor.nodeFileReader)
    VoiceInterface.sampleAudio None []
  = (Throw (Error "Cloud speech recognition failed"),
     [CloudIsAvailable; CloudTranscribe VoiceInterface.sampleAudio None])
  /\ isAvailable (whisperService (brokenCloudService AudioProcessor.nodeFileReader)) = true.
Proof.
  split; [|reflexivity].
  apply (cloud_error_is_not_retried_offline
           (brokenCloudService AudioProcessor.nodeFileReader)
           VoiceInterface.sampleAudio None []).
  - reflexivity.
  - reflexivity.
Defined.

(** The service's [isAvailable] asks both backends and answers
    [cloud || (fallbackToOffline && whisper)]; when it answers [false],
    [transcribe] throws "No STT service available" without asking any
    backend for a transcription. *)
Theorem unavailable_service_cannot_transcribe :
  forall (this : Impl) (audio : AudioProcessor.Blob) (language : option LanguageCode)
         (log : list BackendCall),
    fst (serviceIsAvailable this log) = Ok false ->
    snd (serviceIsAvailable this log) = log ++ [CloudIsAvailable; WhisperIsAvailable]
    /\ fst (transcribe this audio language log) = Throw (Error "No STT service available")
    /\ List.filter (fun c => match c with
                             | CloudTranscribe _ _ | WhisperTranscribe _ _ => true
                             | _ => false
                             end)
         (snd (transcribe this audio language log))
       = List.filter (fun c => match c with
                               | CloudTranscribe _ _ | WhisperTranscribe _ _ => true
                               | _ => false
                               end) log.
Proof.
  intros this audio language log Hunavailable.
  split.
  { unfold serviceIsAvailable, invoke. unfold_monad. cbn.
    rewrite <- app_assoc. reflexivity. }
  assert (Hflags : isAvailable (cloudService this)
                   || (fallbackToOffline (config this)
                       && isAvailable (whisperService this)) = false).
  { unfold serviceIsAvailable, invoke in Hunavailable. unfold_monad.
    cbn in Hunavailable. congruence. }
  apply orb_false_iff in Hflags as [Hcloud Hoffline].
  rewrite transcribe_nothing_usable by assumption.
  cbn [fst snd]. split; [reflexivity|].
  rewrite List.filter_app. cbn.
  destruct (fallbackToOffline (config this)); cbn; apply app_nil_r.
Qed.

Lemma unavailable_service_cannot_transcribe_witness :
  snd (serviceIsAvailable (offlineDisabled AudioProcessor.nodeFileReader) [])
  = [] ++ [CloudIsAvailable; WhisperIsAvailable]
  /\ fst (transcribe (offlineDisabled AudioProcessor.nodeFileReader)
            VoiceInterface.sampleAudio None [])
     = Throw (Error "No STT service available")
  /\ List.filter (fun c => match c with
                           | CloudTranscribe _ _ | WhisperTranscribe _ _ => true
                           | _ => false
                           end)
       (snd (transcribe (offlineDisabled AudioProcessor.nodeFileReader)
            VoiceInterface.sampleAudio None []))
     = List.filter (fun c => match c with
                             | CloudTranscribe _ _ | WhisperTranscribe _ _ => true
                             | _ => false
                             end) [].
Proof.
  apply (unavailable_service_cannot_transcribe
           (offlineDisabled AudioProcessor.nodeFileReader)
           VoiceInterface.sampleAudio None []).
  reflexivity.
Defined.

(** [detectLanguage] never throws: it answers the cloud backend's guess
    when the cloud is available, else Whisper's guess when Whisper is
    available and the blob can be read, else ['hi'], and ['hi'] as well when
    the guess fails.  Unlike [transcribe] it turns to Whisper whether or not
    [fallbackToOffline] is set: the answer and the calls do not depend on the
    configuration. *)
Theorem detectLanguage_never_throws :
  forall (this : Impl) (audio : AudioProcessor.Blob) (log : list BackendCall),
    (exists language : LanguageCode,
        fst (detectLanguage this audio log) = Ok language
        /\ language
           = if isAvailable (cloudService this)
             then match b_detectLanguage (cloudService this) audio with
                  | Ok detected => detected
                  | Throw _ => "hi"%string
                  end
             else if isAvailable (whisperService this)
             then if AudioProcessor.readFails (fileReader this) audio
                  then "hi"%string
                  else match b_detectLanguage (whisperService this) audio with
                       | Ok detected => detected
                       | Throw _ => "hi"%string
                       end
             else "hi"%string)
    /\ forall other : STTConfig,
         detectLanguage {| config := other;
                           fileReader := fileReader this;
                           whisperService := whisperService this;
                           cloudService := cloudService this |} audio log
         = detectLanguage this audio log.
Proof.
  intros this audio log. split.
  - eexists. split; [apply detectLanguage_outcome | reflexivity].
  - intros other. reflexivity.
Qed.

End CascadeExtras.

(** ** Further properties of speech synthesis *)

Section SynthesisLemmas.
Import Js TextToSpeech TextToSpeechOps.

Lemma someSupported_outcome this languages log :
  fst (someSupported this languages log)
  = Ok (existsb (isLanguageSupported (localEngine this)) languages).
Proof.
  revert log. induction languages as [|language rest IH]; intros log.
  - reflexivity.
  - cbn [someSupported existsb]. unfold invoke. unfold_monad.
    destruct (isLanguageSupported (localEngine this) language); cbn.
    + reflexivity.
    + apply IH.
Qed.

Lemma isAvailable_outcome this log :
  fst (isAvailable this log)
  = Ok (existsb (isLanguageSupported (localEngine this)) (supportedLanguages this)
        || (enableCloudTTS (config this) && c_isAvailable (cloudProvider this))).
Proof.
  unfold isAvailable. unfold_monad.
  pose proof (someSupported_outcome this (supportedLanguages this) log) as Hlocal.
  destruct (someSupported this (supportedLanguages this) log) as [[localAvailable|e] log'];
    cbn in Hlocal; [|discriminate].
  injection Hlocal as ->.
  unfold invoke.
  destruct (enableCloudTTS (config this)); cbn; [reflexivity|].
  rewrite orb_false_r. reflexivity.
Qed.

Lemma includes_existsb (p : LanguageCode -> bool) languages language :
  includes languages language = true ->
  existsb p languages = false ->
  p language = false.
Proof.
  unfold includes. intros Hin Hnone.
  apply existsb_exists in Hin as [l [Hl Heq]].
  apply String.eqb_eq in Heq. subst l.
  destruct (p language) eqn:Hp; [|reflexivity].
  assert (existsb p languages = true) by (apply existsb_exists; eauto).
  congruence.
Qed.

(** The outcome of [synthesize] for an input that passes validation, when
    no engine can take the request. *)
Lemma synthesize_no_engine this text language voice log :
  isBlank text = false ->
  includes (supportedLanguages this) language = true ->
  isLanguageSupported (localEngine this) language = false ->
  enableCloudTTS (config this) && c_isAvailable (cloudProvider this) = false ->
  fst (synthesize this text language voice log)
  = Throw (Error ("Text-to-speech synthesis failed: "
                  ++ "No TTS engine available for language: " ++ language)).
Proof.
  intros Htext Hlanguage Hlocal Hcloud.
  unfold synthesize. rewrite Htext, Hlanguage. cbn [negb].
  unfold invoke, postProcessAudio. unfold_monad.
  rewrite Hlocal.
  destruct (preferLocalTTS (config this)); cbn;
    destruct (enableCloudTTS (config this)); cbn in Hcloud |- *;
    rewrite ?Hcloud; cbn; reflexivity.
Qed.

End SynthesisLemmas.

Section SynthesisExtras.
Import Js TextToSpeech TextToSpeechOps VoiceInterface VoiceInterfaceOps.

(** When the local engine is preferred and supports the language, a valid
    request goes to the local engine alone: the cloud provider is neither
    asked whether it is available nor asked to synthesize, and an error of
    the local engine is not retried in the cloud but thrown with the prefix
    "Text-to-speech synthesis failed: ". *)
Theorem preferred_local_engine_is_used_alone :
  forall (this : Impl) (text : JsString) (language : LanguageCode)
         (voice : option VoiceProfile) (log : list EngineCall),
    isBlank text = false ->
    includes (supportedLanguages this) language = true ->
    preferLocalTTS (config this) = true ->
    isLanguageSupported (localEngine this) language = true ->
    let effectiveVoice :=
      match voice with
      | Some requested => requested
      | None => {| vp_language := language;
                   gender := gender (defaultVoiceProfile (config this));
                   speed := speed (defaultVoiceProfile (config this));
                   pitch := pitch (defaultVoiceProfile (config this)) |}
      end in
    synthesize this text language voice log
    = (match l_synthesize (localEngine this) text language (Some effectiveVoice) with
       | Ok audio => Ok audio
       | Throw error =>
           Throw (Error ("Text-to-speech synthesis failed: " ++ message_of error))
       end,
       log ++ [LocalIsLanguageSupported language;
               LocalSynthesize text language effectiveVoice]).
Proof.
  intros this text language voice log Htext Hlanguage Hprefer Hlocal effectiveVoice.
  unfold synthesize. rewrite Htext, Hlanguage. cbn [negb].
  unfold invoke, postProcessAudio. unfold_monad.
  rewrite Hprefer, Hlocal. cbn.
  fold effectiveVoice.
  destruct (l_synthesize (localEngine this) text language (Some effectiveVoice));
    rewrite <- app_assoc; reflexivity.
Qed.

Lemma preferred_local_engine_is_used_alone_witness :
  synthesize (new (fun _ _ _ => []) (fun _ _ _ => []) cloudConfig)
    (text_of "namaste") "hi"%string None []
  = (Ok {| data := []; format := AudioProcessor.wav;
           duration := (Number_of_Z 7 * 0.08)%float; ab_sampleRate := 22050 |},
     [LocalIsLanguageSupported "hi"%string;
      LocalSynthesize (text_of "namaste") "hi"%string
        {| vp_language := "hi"%string; gender := female; speed := 1.0; pitch := 1.0 |}]).
Proof.
  apply (preferred_local_engine_is_used_alone
           (new (fun _ _ _ => []) (fun _ _ _ => []) cloudConfig)
           (text_of "namaste") "hi"%string None []).
  - reflexivity.
  - reflexivity.
  - reflexivity.
  - reflexivity.
Defined.

(** With the engines of the source, Tamil, Telugu and Bengali pass the
    language check of [synthesize] but have no local voice: unless cloud
    synthesis is enabled and an API key is configured, every request in
    these languages fails with "No TTS engine available for language", and
    no engine is asked to synthesize.  [isAvailable] nevertheless answers
    [true], whatever the configuration. *)
Theorem languages_without_local_voice_need_the_cloud :
  forall (generateMockAudioData generateHighQualityMockAudio :
            JsString -> LanguageCode -> option VoiceProfile -> list Byte.byte)
         (cfg : TTSConfig) (text : JsString) (language : LanguageCode)
         (voice : option VoiceProfile) (log : list EngineCall),
    isBlank text = false ->
    includes ["ta"; "te"; "bn"]%string language = true ->
    enableCloudTTS cfg && opt_truthy (cloudTTSApiKey cfg) = false ->
    let this := new generateMockAudioData generateHighQualityMockAudio cfg in
    fst (synthesize this text language voice log)
    = Throw (Error ("Text-to-speech synthesis failed: "
                    ++ "No TTS engine available for language: " ++ language))
    /\ List.filter (fun c => match c with
                             | LocalSynthesize _ _ _ | CloudSynthesize _ _ _ => true
                             | _ => false
                             end)
         (snd (synthesize this text language voice log))
       = List.filter (fun c => match c with
                               | LocalSynthesize _ _ _ | CloudSynthesize _ _ _ => true
                               | _ => false
                               end) log
    /\ fst (isAvailable this log) = Ok true.
Proof.
  intros g1 g2 cfg text language voice log Htext Hlanguage Hcloud this.
  assert (Hsupported : includes (supportedLanguages this) language = true
                       /\ isLanguageSupported (localEngine this) language = false).
  { unfold includes in Hlanguage. cbn in Hlanguage.
    repeat (apply orb_true_iff in Hlanguage as [Hlanguage | Hlanguage];
            [apply String.eqb_eq in Hlanguage; subst language; split; reflexivity|]).
    discriminate. }
  destruct Hsupported as [Hsupported Hlocal].
  split; [|split].
  - apply synthesize_no_engine; assumption.
  - unfold synthesize. rewrite Htext, Hsupported. cbn [negb].
    unfold invoke, postProcessAudio. unfold_monad.
    rewrite Hlocal.
    change (c_isAvailable (cloudProvider this)) with (opt_truthy (cloudTTSApiKey cfg)).
    change (enableCloudTTS (config this)) with (enableCloudTTS cfg).
    change (preferLocalTTS (config this)) with (preferLocalTTS cfg).
    destruct (preferLocalTTS cfg); cbn;
      destruct (enableCloudTTS cfg); cbn in Hcloud |- *;
      rewrite ?Hcloud; cbn;
      rewrite ?List.filter_app; cbn; rewrite ?app_nil_r; reflexivity.
  - rewrite isAvailable_outcome. reflexivity.
Qed.

Lemma languages_without_local_voice_need_the_cloud_witness :
  fst (synthesize sampleService (text_of "vanakkam") "ta"%string None [])
  = Throw (Error "Text-to-speech synthesis failed: No TTS engine available for language: ta")
  /\ fst (isAvailable sampleService []) = Ok true.
Proof.
  refine ((fun H => conj (proj1 H) (proj2 (proj2 H)))
            (languages_without_local_voice_need_the_cloud
               (fun _ _ _ => []) (fun _ _ _ => []) TextToSpeech.defaultConfig
               (text_of "vanakkam") "ta"%string None [] _ _ _)).
  - reflexivity.
  - reflexivity.
  - reflexivity.
Defined.

(** An error of [convertTextToSpeech] over the service of this repository
    always carries one of four messages: "Voice output is disabled", the two
    validation messages of [synthesize], or a message that starts with
    "Text-to-speech synthesis failed: ".  An engine's own error never
    reaches the caller unwrapped. *)
Theorem speech_output_errors_are_labelled :
  forall (config : VoiceInterfaceConfig) (this : Impl) (text : JsString)
         (language : LanguageCode) (voice : option VoiceProfile)
         (log : list EngineCall) (error : JsError),
    fst (convertTextToSpeech config (serviceOf this) text language voice log)
    = Throw error ->
    message_of error = "Voice output is disabled"%string
    \/ message_of error = "Text cannot be empty"%string
    \/ message_of error = ("Language " ++ language ++ " is not supported")%string
    \/ exists cause : string,
         message_of error = ("Text-to-speech synthesis failed: " ++ cause)%string.
Proof.
  intros config this text language voice log error.
  unfold convertTextToSpeech.
  destruct (enableVoiceOutput config); cbn [negb].
  2:{ cbn. intros [= <-]. left. reflexivity. }
  unfold serviceOf. cbn [tts_synthesize].
  unfold synthesize.
  destruct (isBlank text).
  { cbn. intros [= <-]. right. left. reflexivity. }
  destruct (includes (supportedLanguages this) language); cbn [negb].
  2:{ cbn. intros [= <-]. right. right. left. reflexivity. }
  unfold invoke, postProcessAudio. unfold_monad.
  intros Herror. right. right. right.
  repeat match type of Herror with
         | context [if ?b then _ else _] => destruct b; cbn in Herror
         | context [match ?r with Ok _ => _ | Throw _ => _ end] =>
             destruct r; cbn in Herror
         end;
    try discriminate;
    injection Herror as <-; eexists; reflexivity.
Qed.

Lemma speech_output_errors_are_labelled_witness :
  message_of (Error "Voice output is disabled") = "Voice output is disabled"%string
  \/ message_of (Error "Voice output is disabled") = "Text cannot be empty"%string
  \/ message_of (Error "Voice output is disabled")
     = ("Language " ++ "hi" ++ " is not supported")%string
  \/ exists cause : string,
       message_of (Error "Voice output is disabled")
       = ("Text-to-speech synthesis failed: " ++ cause)%string.
Proof.
  apply (speech_output_errors_are_labelled outputDisabled sampleService
           (text_of "namaste") "hi"%string None []).
  reflexivity.
Defined.

(** When [isVoiceOutputAvailable] answers [false] (voice output is
    disabled, or no supported language has a local voice and the cloud is
    switched off or unavailable), [convertTextToSpeech] fails for every
    text, language and voice. *)
Theorem unavailable_voice_output_always_fails :
  forall (config : VoiceInterfaceConfig) (this : Impl) (log : list EngineCall),
    fst (isVoiceOutputAvailable config (serviceOf this) log) = Ok false ->
    forall (text : JsString) (language : LanguageCode) (voice : option VoiceProfile)
           (log' : list EngineCall),
      is_Throw (fst (convertTextToSpeech config (serviceOf this) text language voice log'))
      = true.
Proof.
  intros config this log Hunavailable text language voice log'.
  unfold isVoiceOutputAvailable in Hunavailable. unfold convertTextToSpeech.
  destruct (enableVoiceOutput config); cbn [negb] in *; [|reflexivity].
  unfold serviceOf in *. cbn [tts_isAvailable tts_synthesize] in *.
  rewrite isAvailable_outcome in Hunavailable.
  injection Hunavailable as Hflags.
  apply orb_false_iff in Hflags as [Hlocal Hcloud].
  unfold try_catch.
  destruct (isBlank text) eqn:Htext.
  { unfold synthesize. rewrite Htext. reflexivity. }
  destruct (includes (supportedLanguages this) language) eqn:Hlanguage.
  2:{ unfold synthesize. rewrite Htext, Hlanguage. reflexivity. }
  pose proof (synthesize_no_engine this text language voice log' Htext Hlanguage
                (includes_existsb _ _ _ Hlanguage Hlocal) Hcloud) as Hfails.
  destruct (synthesize this text language voice log') as [[audio|e] log''];
    cbn in Hfails; [discriminate|reflexivity].
Qed.

Lemma unavailable_voice_output_always_fails_witness :
  is_Throw (fst (convertTextToSpeech VoiceInterface.defaultConfig (serviceOf withoutEngines)
                   (text_of "hello") "en"%string None []))
  = true.
Proof.
  apply (unavailable_voice_output_always_fails VoiceInterface.defaultConfig
           withoutEngines []).
  reflexivity.
Defined.

(** [TextToSpeechServiceImpl.compressAudio] keeps a prefix of the audio
    data, so the data never grows; the duration is reported unchanged even
    though data was cut off; with compression enabled the result is never
    in wav format; with compression disabled the blob is returned as it
    is. *)
Theorem compressed_speech_is_a_prefix :
  forall (this : Impl) (audioBlob : AudioBlob) (quality : AudioProcessor.CompressionLevel),
    (exists rest : list Byte.byte,
        data audioBlob = data (TextToSpeechOps.compressAudio this audioBlob quality) ++ rest)
    /\ duration (TextToSpeechOps.compressAudio this audioBlob quality) = duration audioBlob
    /\ if TextToSpeech.enableCompression (config this)
       then format (TextToSpeechOps.compressAudio this audioBlob quality) <> AudioProcessor.wav
       else TextToSpeechOps.compressAudio this audioBlob quality = audioBlob.
Proof.
  intros this audioBlob quality. unfold TextToSpeechOps.compressAudio.
  destruct (TextToSpeech.enableCompression (config this)); cbn [negb].
  - cbn [data duration format]. split; [|split].
    + unfold simulateAudioCompression. eexists. symmetry. apply take_drop.
    + reflexivity.
    + destruct (format audioBlob); discriminate.
  - split; [|split]; try reflexivity.
    exists []. symmetry. apply app_nil_r.
Qed.

(** With the engines of the source, every voice [getAvailableVoices] lists
    has the requested language, and the number of voices is two for a
    language with a local voice plus four when the cloud is enabled and has
    an API key.  The two standard voices are then listed twice. *)
Theorem available_voices_of_the_source_engines :
  forall (generateMockAudioData generateHighQualityMockAudio :
            JsString -> LanguageCode -> option VoiceProfile -> list Byte.byte)
         (cfg : TTSConfig) (language : LanguageCode) (log : list EngineCall),
    let this := new generateMockAudioData generateHighQualityMockAudio cfg in
    exists voices : list VoiceProfile,
      fst (getAvailableVoices this language log) = Ok voices
      /\ Forall (fun v => vp_language v = language) voices
      /\ Z.of_nat (length voices)
         = (if includes ["en"; "hi"]%string language then 2 else 0)
           + (if enableCloudTTS cfg && opt_truthy (cloudTTSApiKey cfg) then 4 else 0)
      /\ (includes ["en"; "hi"]%string language
          && enableCloudTTS cfg && opt_truthy (cloudTTSApiKey cfg) = true ->
          voices = femaleAndMale language ++ femaleAndMale language
                   ++ drop 2 (c_getAvailableVoices (cloudProvider this) language)).
Proof.
  intros g1 g2 cfg language log this.
  unfold getAvailableVoices, invoke. unfold_monad.
  change (isLanguageSupported (localEngine this) language)
    with (includes ["en"; "hi"]%string language).
  change (l_getAvailableVoices (localEngine this) language)
    with (if includes ["en"; "hi"]%string language then femaleAndMale language else []).
  change (c_isAvailable (cloudProvider this)) with (opt_truthy (cloudTTSApiKey cfg)).
  change (enableCloudTTS (config this)) with (enableCloudTTS cfg).
  change (c_getAvailableVoices (cloudProvider this) language)
    with (if negb (opt_truthy (cloudTTSApiKey cfg)) then []
          else femaleAndMale language ++
               [ {| vp_language := language; gender := female; speed := 0.9; pitch := 1.1 |};
                 {| vp_language := language; gender := male; speed := 1.1; pitch := 0.9 |} ]).
  destruct (includes ["en"; "hi"]%string language); cbn;
    destruct (enableCloudTTS cfg); cbn;
    destruct (opt_truthy (cloudTTSApiKey cfg)); cbn;
    eexists; (split; [reflexivity|]);
    (split; [repeat constructor|]);
    (split; [reflexivity|]);
    intros H; try discriminate H; reflexivity.
Qed.

Lemma available_voices_of_the_source_engines_witness :
  exists voices : list VoiceProfile,
    fst (getAvailableVoices (new (fun _ _ _ => []) (fun _ _ _ => []) cloudConfig)
           "hi"%string []) = Ok voices
    /\ Z.of_nat (length voices) = 6
    /\ voices = femaleAndMale "hi"%string ++ femaleAndMale "hi"%string
                ++ [ {| vp_language := "hi"%string; gender := female;
                        speed := 0.9; pitch := 1.1 |};
                     {| vp_language := "hi"%string; gender := male;
                        speed := 1.1; pitch := 0.9 |} ].
Proof.
  destruct (available_voices_of_the_source_engines
              (fun _ _ _ => []) (fun _ _ _ => []) cloudConfig "hi"%string [])
    as [voices [Hvoices [_ [Hcount Hdouble]]]].
  exists voices. split; [exact Hvoices|]. split; [exact Hcount|].
  apply Hdouble. reflexivity.
Defined.

End SynthesisExtras.

(** ** Markup removal *)

Section Markup.
Import Js TextToSpeech TextToSpeechOps.

Lemma stripFrom_pending_open kept s :
  ~ In 62%N s -> stripFrom (Some kept) s = kept ++ s.
Proof.
  revert kept. induction s as [|c s IH]; intros kept Hopen.
  - cbn. symmetry. apply app_nil_r.
  - cbn [stripFrom].
    destruct (N.eqb_spec c 62) as [->|Hc].
    + exfalso. apply Hopen. left. reflexivity.
    + rewrite IH.
      * rewrite <- app_assoc. reflexivity.
      * intros Hin. apply Hopen. right. exact Hin.
Qed.

Lemma stripFrom_plain body s :
  ~ In 60%N body -> stripFrom None (body ++ s) = body ++ stripFrom None s.
Proof.
  induction body as [|c body IH]; intros Hplain.
  - reflexivity.
  - cbn [app stripFrom].
    destruct (N.eqb_spec c 60) as [->|Hc].
    + exfalso. apply Hplain. left. reflexivity.
    + rewrite IH; [reflexivity|].
      intros Hin. apply Hplain. right. exact Hin.
Qed.

(** The shape of a stripped text: characters other than [<], then possibly
    the start of a tag that is never closed. *)
Lemma stripFrom_shape s :
  forall pending,
    match pending with
    | Some kept => exists inside, kept = 60%N :: inside /\ ~ In 62%N inside
    | None => True
    end ->
    exists body tail,
      stripFrom pending s = body ++ tail
      /\ ~ In 60%N body
      /\ (tail = [] \/ exists inside, tail = 60%N :: inside /\ ~ In 62%N inside).
Proof.
  induction s as [|c s IH]; intros pending Hpending.
  - destruct pending as [kept|]; cbn.
    + exists [], kept. split; [reflexivity|]. split; [intros []|]. right. exact Hpending.
    + exists [], []. split; [reflexivity|]. split; [intros []|]. left. reflexivity.
  - destruct pending as [kept|]; cbn [stripFrom].
    + destruct (N.eqb_spec c 62) as [->|Hc].
      * apply IH. exact I.
      * apply IH. destruct Hpending as [inside [-> Hinside]].
        exists (inside ++ [c]). split; [reflexivity|].
        intros Hin. apply in_app_or in Hin as [Hin | [Hin | []]].
        -- apply Hinside. exact Hin.
        -- apply Hc. exact Hin.
    + destruct (N.eqb_spec c 60) as [->|Hc].
      * apply IH. exists []. split; [reflexivity|]. intros [].
      * destruct (IH None I) as [body [tail [Heq [Hbody Htail]]]].
        exists (c :: body), tail. split; [cbn; rewrite Heq; reflexivity|].
        split; [|exact Htail].
        intros [Hin | Hin]; [apply Hc; exact Hin | apply Hbody; exact Hin].
Qed.

(** Removing the markup leaves no tag behind: in the result no [<] is
    followed by a [>] (so nothing is left for a second pass to remove, and
    stripping twice is the same as stripping once).  What stays is the text
    outside the tags and, at the end, a [<] that is never closed, together
    with the text after it. *)
Theorem stripSSMLTags_leaves_no_tag :
  forall ssmlText : JsString,
    stripSSMLTags (stripSSMLTags ssmlText) = stripSSMLTags ssmlText
    /\ forall before after : JsString,
         stripSSMLTags ssmlText = before ++ 60%N :: after -> ~ In 62%N after.
Proof.
  intros ssmlText. unfold stripSSMLTags.
  destruct (stripFrom_shape ssmlText None I) as [body [tail [Heq [Hbody Htail]]]].
  rewrite Heq. split.
  - rewrite stripFrom_plain by exact Hbody. f_equal.
    destruct Htail as [-> | [inside [-> Hinside]]]; [reflexivity|].
    cbn. apply (stripFrom_pending_open [60%N] inside Hinside).
  - intros before after Hsplit Hclosed.
    apply app_eq_app in Hsplit as [l [[Hb Ht] | [Hb Ht]]].
    + destruct l as [|c l].
      * cbn in Ht. destruct Htail as [-> | [inside [-> Hinside]]]; [discriminate|].
        injection Ht as <-. contradiction.
      * injection Ht as <- _. apply Hbody. rewrite Hb.
        apply in_or_app. right. left. reflexivity.
    + destruct Htail as [-> | [inside [-> Hinside]]].
      * destruct l; discriminate.
      * destruct l as [|c l].
        -- injection Ht as <-. contradiction.
        -- injection Ht as _ ->. apply Hinside.
           apply in_or_app. right. right. exact Hclosed.
Qed.

Lemma stripSSMLTags_leaves_no_tag_witness :
  stripSSMLTags (text_of "<speak>a</speak>< b") = text_of "a< b"
  /\ ~ In 62%N (text_of " b").
Proof.
  split; [reflexivity|].
  apply (proj2 (stripSSMLTags_leaves_no_tag (text_of "<speak>a</speak>< b"))
           (text_of "a") (text_of " b")).
  reflexivity.
Defined.

(** A text without [<] goes through [synthesizeWithSSML] exactly like
    through [synthesize]; a [>] on its own is not markup and stays in the
    text.  A text that is markup only is rejected as empty before any
    engine is asked. *)
Theorem synthesizeWithSSML_without_markup :
  forall (this : Impl) (ssmlText : JsString) (language : LanguageCode)
         (voice : option VoiceProfile) (log : list EngineCall),
    (~ In 60%N ssmlText ->
     synthesizeWithSSML this ssmlText language voice log
     = synthesize this ssmlText language voice log)
    /\ (whitespaceOnly (stripSSMLTags ssmlText) = true ->
        synthesizeWithSSML this ssmlText language voice log
        = (Throw (Error "Text cannot be empty"), log)).
Proof.
  intros this ssmlText language voice log. unfold synthesizeWithSSML. split.
  - intros Hplain. unfold stripSSMLTags.
    rewrite <- (app_nil_r ssmlText) at 1.
    rewrite stripFrom_plain by exact Hplain.
    cbn. rewrite app_nil_r. reflexivity.
  - intros Hblank. unfold synthesize.
    rewrite isBlank_eq_whitespaceOnly, Hblank. reflexivity.
Qed.

Lemma synthesizeWithSSML_without_markup_witness :
  synthesizeWithSSML sampleService (text_of "5 > 3") "en"%string None []
  = synthesize sampleService (text_of "5 > 3") "en"%string None []
  /\ synthesizeWithSSML sampleService (text_of "<speak> </speak>") "en"%string None []
     = (Throw (Error "Text cannot be empty"), []).
Proof.
  split.
  - apply (proj1 (synthesizeWithSSML_without_markup sampleService (text_of "5 > 3")
                    "en"%string None [])).
    cbn. intros H. repeat destruct H as [H | H]; try discriminate H. exact H.
  - apply (proj2 (synthesizeWithSSML_without_markup sampleService
                    (text_of "<speak> </speak>") "en"%string None [])).
    reflexivity.
Defined.

End Markup.

(** ** Further properties of the audio processor *)

Section AudioExtras.
Import Js AudioProcessor AudioChecks.

Lemma listed_type_is_audio mimeType :
  existsb (String.eqb mimeType) supportedTypes = true ->
  startsWith mimeType "audio/" = true.
Proof.
  unfold supportedTypes. cbn [existsb].
  intros Hlisted.
  repeat (apply orb_true_iff in Hlisted as [Hlisted | Hlisted];
          [apply String.eqb_eq in Hlisted; subst mimeType; reflexivity|]).
  discriminate.
Qed.

(** [validateAudio] accepts a blob exactly when its size lies between 1024
    bytes and the configured maximum and its type starts with "audio/".  The
    list of types in [isSupportedAudioType] adds nothing to the prefix test:
    every type that starts with "audio/" is accepted, whatever follows.  The
    result lists one error per failed check, at most three. *)
Theorem validateAudio_accepts_iff :
  forall (config : AudioProcessorConfig) (audioBlob : Blob),
    isSupportedAudioType (blob_type audioBlob) = startsWith (blob_type audioBlob) "audio/"
    /\ isValid (validateAudio config audioBlob)
       = (1024 <=? size audioBlob) && (size audioBlob <=? maxFileSize config)
         && startsWith (blob_type audioBlob) "audio/"
    /\ Z.of_nat (length (errors (validateAudio config audioBlob)))
       = (if maxFileSize config <? size audioBlob then 1 else 0)
         + (if size audioBlob <? 1024 then 1 else 0)
         + (if startsWith (blob_type audioBlob) "audio/" then 0 else 1).
Proof.
  intros config audioBlob.
  assert (Htype : isSupportedAudioType (blob_type audioBlob)
                  = startsWith (blob_type audioBlob) "audio/").
  { unfold isSupportedAudioType.
    destruct (existsb (String.eqb (blob_type audioBlob)) supportedTypes) eqn:Hlisted.
    - rewrite (listed_type_is_audio _ Hlisted). reflexivity.
    - reflexivity. }
  split; [exact Htype|].
  unfold validateAudio. rewrite Htype. cbn [isValid errors].
  destruct (Z.ltb_spec (maxFileSize config) (size audioBlob));
    destruct (Z.ltb_spec (size audioBlob) 1024);
    destruct (Z.leb_spec 1024 (size audioBlob));
    destruct (Z.leb_spec (size audioBlob) (maxFileSize config)); try lia;
    destruct (startsWith (blob_type audioBlob) "audio/"); cbn; split; reflexivity.
Qed.

Lemma nth_original_or_zero (buffer : list Byte.byte) (index : nat) :
  In (nth index buffer Byte.x00) buffer \/ nth index buffer Byte.x00 = Byte.x00.
Proof.
  destruct (Nat.lt_ge_cases index (length buffer)) as [Hin | Hout].
  - left. apply nth_In. exact Hin.
  - right. apply nth_overflow. exact Hout.
Qed.

(** [compressAudio] of the audio processor either returns the blob it was
    given (compression disabled, the blob within the level's target size, or
    the blob could not be read), or a blob of the configured default format,
    whatever the type of the input was, whose bytes are bytes of the input or
    zero. *)
Theorem compressAudio_original_or_resampled :
  forall (config : AudioProcessorConfig) (reader : FileReader) (audioBlob : Blob)
         (level : CompressionLevel),
    compressAudio config reader audioBlob level = audioBlob
    \/ (enableCompression config = true
        /\ readFails reader audioBlob = false
        /\ blob_type (compressAudio config reader audioBlob level)
           = getAudioMimeType (defaultFormat config)
        /\ Forall (fun byte => In byte (blob_bytes audioBlob) \/ byte = Byte.x00)
             (blob_bytes (compressAudio config reader audioBlob level))).
Proof.
  intros config reader audioBlob level.
  unfold compressAudio, blobToArrayBuffer, readFails.
  destruct (enableCompression config); cbn [negb]; [|left; reflexivity].
  destruct (Number_of_Z (size audioBlob) <=? getTargetSize level)%float;
    [left; reflexivity|].
  destruct (reader audioBlob); [left; reflexivity|].
  right. cbn [blob_type blob_bytes].
  split; [reflexivity|]. split; [reflexivity|]. split; [reflexivity|].
  unfold performCompression. apply List.Forall_forall. intros byte Hbyte.
  apply in_map_iff in Hbyte as [i [<- _]].
  apply nth_original_or_zero.
Qed.

End AudioExtras.

Section InterfaceCompression.
Import Js VoiceInterface VoiceInterfaceOps.

(** [compressAudio] of the voice interface never changes the audio: with
    any configuration, recognition service and quality level the result is
    the blob that was passed in, also where the audio processor's
    [compressAudio] would reduce it. *)
Theorem interface_compression_changes_nothing :
  forall (config : VoiceInterfaceConfig) (sttService : SpeechToTextService)
         (audioBlob : AudioProcessor.Blob) (quality : AudioProcessor.CompressionLevel),
    compressAudio config sttService audioBlob quality = audioBlob.
Proof.
  intros config sttService audioBlob quality. unfold compressAudio.
  destruct (audioCompression config); cbn [negb]; [|reflexivity].
  destruct sttService as [impl|? ? ?]; [|reflexivity].
  unfold SpeechToTextOps.compressAudio.
  destruct (SpeechToText.compressionEnabled (SpeechToText.config impl)); reflexivity.
Qed.

End InterfaceCompression.
